(** * Accessibility-agent GitHub Action: a shallow embedding of
      [.github/actions/accessibility-agent/src/index.ts]

    The action reads a test configuration, optionally opens a live run on a
    dashboard, runs one agent subprocess per test case, aggregates the
    results and reports outputs and a process status.

    Conventions of the embedding:
    - a JavaScript string is the list of its UTF-16 code units ([jsstring]);
    - a JavaScript value that comes out of [JSON.parse] or a property read
      is a [value]; numbers are IEEE 754 binary64 ([spec_float]);
    - a function that may throw returns an [outcome]; code that also logs or
      sets outputs runs in the monad [M] over the [world] of the action;
    - the built-ins [JSON.parse] and [Number::toString] are section
      variables: every theorem holds for whatever they compute. *)

From Stdlib Require Import List ZArith NArith Bool Lia String Ascii.
From Stdlib Require Import Floats.SpecFloat.
Import ListNotations.

Set Warnings "-register-all".

(* ===================================================================== *)
(** * JavaScript strings *)
(* ===================================================================== *)

Module JsString.

Definition jsstring := list N.

(** A literal of the source, as code units. *)
Definition lit (s : string) : jsstring :=
  List.map N_of_ascii (list_ascii_of_string s).

(** A text in which the apostrophe stands for the double quote: the way
    the JSON texts below are written. *)
Definition quoted (s : string) : jsstring :=
  List.map (fun c => if N.eqb c 39 then 34%N else c) (lit s).

Definition is_empty (s : jsstring) : bool :=
  match s with [] => true | _ :: _ => false end.

Fixpoint eqb (a b : jsstring) : bool :=
  match a, b with
  | [], [] => true
  | x :: a', y :: b' => N.eqb x y && eqb a' b'
  | _, _ => false
  end.

(** [s.startsWith(p)] *)
Fixpoint startsWith (s p : jsstring) {struct p} : bool :=
  match p, s with
  | [], _ => true
  | _ :: _, [] => false
  | y :: p', x :: s' => N.eqb x y && startsWith s' p'
  end.

(** [s.endsWith(p)] *)
Definition endsWith (s p : jsstring) : bool :=
  startsWith (rev s) (rev p).

(** [s.indexOf(needle)], scanning from position [i]; -1 when absent. *)
Fixpoint indexOf_from (needle s : jsstring) (i : Z) : Z :=
  if startsWith s needle then i
  else match s with
       | [] => (-1)%Z
       | _ :: s' => indexOf_from needle s' (i + 1)
       end.

Definition indexOf (s needle : jsstring) : Z := indexOf_from needle s 0.

(** [s.substring(start)] and [s.substring(0, stop)] for in-range
    non-negative bounds, the only way the source calls them. *)
Definition substring_from (s : jsstring) (start : Z) : jsstring :=
  skipn (Z.to_nat start) s.

Definition substring_to (s : jsstring) (stop : Z) : jsstring :=
  firstn (Z.to_nat stop) s.

(** ECMAScript WhiteSpace and LineTerminator code points, the set that
    [String.prototype.trim] removes. *)
Definition is_space (c : N) : bool :=
  ((9 <=? c) && (c <=? 13) || (c =? 32) || (c =? 160) || (c =? 5760)
   || ((8192 <=? c) && (c <=? 8202)) || (c =? 8232) || (c =? 8233)
   || (c =? 8239) || (c =? 8287) || (c =? 12288) || (c =? 65279))%N.

Fixpoint trimStart (s : jsstring) : jsstring :=
  match s with
  | c :: s' => if is_space c then trimStart s' else s
  | [] => []
  end.

Definition trimEnd (s : jsstring) : jsstring := rev (trimStart (rev s)).

Definition trim (s : jsstring) : jsstring := trimEnd (trimStart s).

(** [s.split(c)] for a one-character separator: never the empty array. *)
Fixpoint split (c : N) (s : jsstring) : list jsstring :=
  match s with
  | [] => [[]]
  | x :: s' =>
      if N.eqb x c then [] :: split c s'
      else match split c s' with
           | seg :: rest => (x :: seg) :: rest
           | [] => [[x]]
           end
  end.

(** [s.split(c, limit)] *)
Definition split_limit (c : N) (limit : nat) (s : jsstring) : list jsstring :=
  firstn limit (split c s).

(** [s.replace(/\/$/, '')]: the pattern has no [m] flag, so [$] matches at
    the end of the string only and at most one slash goes. *)
Definition c_slash : N := 47.

Definition stripTrailingSlash (s : jsstring) : jsstring :=
  if endsWith s [c_slash] then removelast s else s.

(** [n.toString()] for a non-negative integer. *)
Fixpoint digits_fuel (fuel : nat) (n : N) (acc : jsstring) : jsstring :=
  match fuel with
  | O => acc
  | S fuel' =>
      let acc' := (48 + n mod 10)%N :: acc in
      if (n <? 10)%N then acc' else digits_fuel fuel' (n / 10)%N acc'
  end.

Definition N_toString (n : N) : jsstring :=
  digits_fuel (S (N.to_nat (N.log2 n))) n [].

Definition nat_toString (n : nat) : jsstring := N_toString (N.of_nat n).

End JsString.
Import JsString.

(* ===================================================================== *)
(** * JavaScript values and errors *)
(* ===================================================================== *)

(** binary64 *)
Definition prec64 : Z := 53.
Definition emax64 : Z := 1024.
Definition number := spec_float.

Inductive value : Type :=
| VUndefined
| VNull
| VBool (b : bool)
| VNum (x : number)
| VStr (s : jsstring)
| VArr (elems : list value)
| VObj (fields : list (jsstring * value)).

(** ToBoolean *)
Definition truthy (v : value) : bool :=
  match v with
  | VUndefined | VNull => false
  | VBool b => b
  | VNum (S754_zero _) | VNum S754_nan => false
  | VNum _ => true
  | VStr s => negb (is_empty s)
  | VArr _ | VObj _ => true
  end.

(** [a || b] *)
Definition js_or (a b : value) : value := if truthy a then a else b.

Inductive js_error : Type :=
| Error (message : jsstring)
| TypeError (message : jsstring)
| SyntaxError (message : jsstring)
| ThrownValue (v : value).

Inductive outcome (A : Type) : Type :=
| Ok (a : A)
| Throw (e : js_error).
Arguments Ok {A} a.
Arguments Throw {A} e.

Definition obind {A B} (x : outcome A) (f : A -> outcome B) : outcome B :=
  match x with
  | Ok a => f a
  | Throw e => Throw e
  end.

(** [xs.map(f)] when [f] may throw: the first throw ends the traversal. *)
Fixpoint omap {A B} (f : A -> outcome B) (xs : list A) : outcome (list B) :=
  match xs with
  | [] => Ok []
  | x :: xs' =>
      obind (f x) (fun y => obind (omap f xs') (fun ys => Ok (y :: ys)))
  end.

Fixpoint lookup (k : jsstring) (fields : list (jsstring * value)) : option value :=
  match fields with
  | [] => None
  | (k', v) :: rest => if JsString.eqb k' k then Some v else lookup k rest
  end.

(** Node's wording of the TypeError of a property read on null/undefined. *)
Definition cannot_read (what : string) (prop : string) : js_error :=
  TypeError (lit "Cannot read properties of " ++ lit what ++ lit " (reading '"
             ++ lit prop ++ lit "')").

(** [v.name] for one of the data property names the action reads
    ([url], [goal], [success], [reason], [error], [steps], [violations],
    [testRunId]): none of them lives on a prototype, so only the own
    properties of an object can answer. *)
Definition get (v : value) (name : string) : outcome value :=
  match v with
  | VUndefined => Throw (cannot_read "undefined" name)
  | VNull => Throw (cannot_read "null" name)
  | VObj fields =>
      Ok (match lookup (lit name) fields with Some x => x | None => VUndefined end)
  | _ => Ok VUndefined
  end.

(** [v.length === 0]: an array or a string has its own exact length; on
    any other value [length] is an ordinary property read. *)
Definition is_number_zero (v : value) : bool :=
  match v with
  | VNum (S754_zero _) => true
  | _ => false
  end.

Definition length_is_zero (v : value) : outcome bool :=
  match v with
  | VArr l => Ok (Nat.eqb (List.length l) 0)
  | VStr s => Ok (Nat.eqb (List.length s) 0)
  | _ => obind (get v "length") (fun len => Ok (is_number_zero len))
  end.

(* ===================================================================== *)
(** * The configuration loader (run, lines 278-304) *)
(* ===================================================================== *)

(** The two properties of a [TestConfig] that the action reads. *)
Record TestConfig : Type := mkTestConfig { url : value; goal : value }.

Definition config_value (t : TestConfig) : value :=
  VObj [(lit "url", url t); (lit "goal", goal t)].

Definition c_newline : N := 10.
Definition c_pipe : N := 124.

(** The callback of the second [map]:
    [const [url, goal] = line.split('|', 2);
     return { url: url.trim(), goal: goal.trim() }] *)
Definition parseLine (line : jsstring) : outcome TestConfig :=
  match split_limit c_pipe 2 line with
  | u :: g :: _ => Ok (mkTestConfig (VStr (trim u)) (VStr (trim g)))
  | _ => Throw (cannot_read "undefined" "trim")
  end.

(** The lines that reach [parseLine]. *)
Definition effectiveLines (content : jsstring) : list jsstring :=
  filter (fun line => negb (is_empty line) && negb (startsWith line (lit "#")))
         (List.map trim (split c_newline content)).

Definition parseTextConfig (content : jsstring) : outcome (list TestConfig) :=
  obind (omap parseLine (effectiveLines content)) (fun ts =>
  Ok (filter (fun t => truthy (url t) && truthy (goal t)) ts)).

Definition no_tests_found : js_error :=
  Error (lit "No tests found in configuration file").

Section Loader.

Variable JSON_parse : jsstring -> outcome value.

(** [tests] after the format switch of lines 287-300. *)
Definition parseConfig (testConfigPath content : jsstring) : outcome value :=
  if endsWith testConfigPath (lit ".json") then JSON_parse content
  else obind (parseTextConfig content) (fun ts => Ok (VArr (List.map config_value ts))).

(** Lines 287-304: the format switch and the emptiness check. *)
Definition loadTests (testConfigPath content : jsstring) : outcome value :=
  obind (parseConfig testConfigPath content) (fun tests =>
  obind (length_is_zero tests) (fun empty =>
  if empty then Throw no_tests_found else Ok tests)).

End Loader.

(* ===================================================================== *)
(** * The world of the action: logs, outputs, process status *)
(* ===================================================================== *)

(** A template literal, kept as its pieces. *)
Inductive fragment : Type :=
| Txt (s : string)
| Str (s : jsstring)
| Val (v : value)
| Int (n : Z)
| Seconds (ms : Z)
| Err (e : js_error).

Definition message := list fragment.

Inductive log_entry : Type :=
| LInfo (m : message)
| LWarning (m : message)
| LError (m : message)
| LDebug (m : message).

Record TestResult : Type := mkTestResult {
  result_url : value;
  result_goal : value;
  success : value;
  reason : value;
  error : value;
  steps : value;
  violations : value;
  duration : Z
}.

Inductive output_value : Type :=
| OutStr (s : jsstring)
| OutResultsJson (results : list TestResult).

Record world : Type := mkWorld {
  logs : list log_entry;
  outputs : list (string * output_value);
  failed : option jsstring
}.

Definition initial_world : world := mkWorld [] [] None.

Definition M (A : Type) : Type := world -> outcome A * world.

Definition ret {A} (a : A) : M A := fun w => (Ok a, w).

Definition bind {A B} (m : M A) (f : A -> M B) : M B :=
  fun w => match m w with
           | (Ok a, w') => f a w'
           | (Throw e, w') => (Throw e, w')
           end.

Definition lift {A} (o : outcome A) : M A := fun w => (o, w).

(** [try { body } catch (e) { handler e }] *)
Definition try_catch {A} (body : M A) (handler : js_error -> M A) : M A :=
  fun w => match body w with
           | (Ok a, w') => (Ok a, w')
           | (Throw e, w') => handler e w'
           end.

Declare Scope action_scope.
Delimit Scope action_scope with action.
Notation "x <- m ;; k" := (bind m (fun x => k))
  (at level 61, m at next level, right associativity) : action_scope.
Notation "m ;; k" := (bind m (fun _ => k))
  (at level 61, right associativity) : action_scope.
Local Open Scope action_scope.

Definition log (e : log_entry) : M unit :=
  fun w => (Ok tt, mkWorld (logs w ++ [e]) (outputs w) (failed w)).

Definition info (m : message) : M unit := log (LInfo m).
Definition warning (m : message) : M unit := log (LWarning m).
Definition error_log (m : message) : M unit := log (LError m).
Definition debug (m : message) : M unit := log (LDebug m).

(** [core.setOutput(name, v)] *)
Definition setOutput (name : string) (v : output_value) : M unit :=
  fun w => (Ok tt, mkWorld (logs w) (outputs w ++ [(name, v)]) (failed w)).

(** [core.setFailed(msg)] *)
Definition setFailed (msg : jsstring) : M unit :=
  fun w => (Ok tt, mkWorld (logs w) (outputs w) (Some msg)).

Definition output_set (name : string) (w : world) : bool :=
  existsb (fun o => String.eqb (fst o) name) (outputs w).

(* ===================================================================== *)
(** * Dashboard URLs (lines 65-67, 114-116, 128) *)
(* ===================================================================== *)

Definition startEndpoint (dashboardUrl : jsstring) : jsstring :=
  if endsWith dashboardUrl (lit "/")
  then dashboardUrl ++ lit "api/live/start"
  else dashboardUrl ++ lit "/api/live/start".

Definition completeEndpoint (dashboardUrl : jsstring) : jsstring :=
  if endsWith dashboardUrl (lit "/")
  then dashboardUrl ++ lit "api/live/complete"
  else dashboardUrl ++ lit "/api/live/complete".

Definition viewerUrl (dashboardUrl testRunId : jsstring) : jsstring :=
  stripTrailingSlash dashboardUrl ++ lit "/runs/" ++ testRunId.

(* ===================================================================== *)
(** * The JSON extractor of the executor (lines 210-228) *)
(* ===================================================================== *)

Definition c_lbrace : N := 123.
Definition c_rbrace : N := 125.

Definition anchor : jsstring := quoted "{'url'".

(** The [for] loop of lines 216-225 on the rest of [jsonStr] from index
    [i] on, with the current [braceCount]; the value is [jsonEnd]. *)
Fixpoint scanBraces (s : jsstring) (i : Z) (braceCount : Z) : Z :=
  match s with
  | [] => (-1)%Z
  | c :: s' =>
      if N.eqb c c_lbrace then scanBraces s' (i + 1)%Z (braceCount + 1)%Z
      else if N.eqb c c_rbrace then
        let braceCount' := (braceCount - 1)%Z in
        if (braceCount' =? 0)%Z then (i + 1)%Z
        else scanBraces s' (i + 1)%Z braceCount'
      else scanBraces s' (i + 1)%Z braceCount
  end.

(** The text handed to [JSON.parse], if the scan gets that far. *)
Definition extractJson (stdout : jsstring) : option jsstring :=
  let jsonStart := indexOf stdout anchor in
  if (jsonStart >=? 0)%Z then
    let jsonStr := substring_from stdout jsonStart in
    let jsonEnd := scanBraces jsonStr 0 0 in
    if (jsonEnd >? 0)%Z then Some (substring_to jsonStr jsonEnd) else None
  else None.

(* ===================================================================== *)
(** * Numbers: the pass rate (lines 387-390) *)
(* ===================================================================== *)

(** The Number of a non-negative integer. *)
Definition Number_of_nat (n : nat) : number :=
  binary_normalize prec64 emax64 (Z.of_nat n) 0 false.

Definition Number_div : number -> number -> number := SFdiv prec64 emax64.
Definition Number_mul : number -> number -> number := SFmul prec64 emax64.

(** The integer [n] of [Number.prototype.toFixed(1)] for the finite
    positive real [m * 2^e]: the one for which [n / 10] is nearest, the
    larger of two. *)
Definition tenths (m : positive) (e : Z) : Z :=
  if (0 <=? e)%Z then (10 * Z.pos m * 2 ^ e)%Z
  else ((20 * Z.pos m + 2 ^ (- e)) / 2 ^ (1 - e))%Z.

(** The digits of [n] with a point before the last one, after padding to
    two digits. *)
Definition render_tenths (n : Z) : jsstring :=
  let m := N_toString (Z.to_N n) in
  let m := if Nat.leb (List.length m) 1 then lit "0" ++ m else m in
  let k := List.length m in
  firstn (k - 1) m ++ lit "." ++ skipn (k - 1) m.

Section Builtins.

(** [Number::toString], used where a number is rendered in full. *)
Variable Number_toString : number -> jsstring.

(** [x.toFixed(1)] *)
Definition toFixed1 (x : number) : jsstring :=
  match x with
  | S754_nan => lit "NaN"
  | S754_infinity s => if s then lit "-Infinity" else lit "Infinity"
  | S754_zero _ => lit "0.0"
  | S754_finite s m e =>
      (if s then lit "-" else []) ++
      (if (0 <=? e)%Z && (10 ^ 21 <=? Z.pos m * 2 ^ e)%Z
       then Number_toString (S754_finite false m e)
       else render_tenths (tenths m e))
  end.

Definition passed (r : TestResult) : bool := truthy (success r).

(** [passRate] of lines 387-390. *)
Definition passRate (results : list TestResult) : jsstring :=
  let totalTests := List.length results in
  let passedTests := List.length (filter passed results) in
  if Nat.ltb 0 totalTests
  then toFixed1 (Number_mul (Number_div (Number_of_nat passedTests)
                                        (Number_of_nat totalTests))
                            (Number_of_nat 100))
  else lit "0.0".

Fixpoint join (sep : jsstring) (parts : list jsstring) : jsstring :=
  match parts with
  | [] => []
  | [p] => p
  | p :: rest => p ++ sep ++ join sep rest
  end.

(** ToString, as a template literal applies it. *)
Fixpoint ToString (v : value) : jsstring :=
  match v with
  | VUndefined => lit "undefined"
  | VNull => lit "null"
  | VBool b => if b then lit "true" else lit "false"
  | VNum x => Number_toString x
  | VStr s => s
  | VArr elems =>
      join (lit ",")
           (List.map (fun e => match e with
                               | VUndefined | VNull => []
                               | _ => ToString e
                               end) elems)
  | VObj _ => lit "[object Object]"
  end.

End Builtins.

(* ===================================================================== *)
(** * The action proper *)
(* ===================================================================== *)

(** What [exec.exec('npm', args, {cwd, env, ...})] is asked to run: the
    arguments and the variables put on top of [process.env]. *)
Record exec_request : Type := mkExecRequest {
  args : list value;
  env_overrides : list (string * value)
}.

(** What comes back from one subprocess: the text the two listeners
    collected, whether the [exec] promise rejected, and the wall-clock
    [Date.now() - startTime]. *)
Record proc_outcome : Type := mkProcOutcome {
  stdout : jsstring;
  stderr : jsstring;
  rejected : bool;
  elapsed : Z
}.

(** [github.context], as far as the start payload reads it. *)
Record gh_context : Type := mkContext {
  owner : jsstring;
  repo : jsstring;
  runNumber : Z;
  runId : Z;
  ref : jsstring;
  sha : jsstring
}.

Inductive http_body : Type :=
| StartBody (ctx : gh_context) (totalTests : nat) (tests : list TestConfig)
| CompleteBody (testRunId : value) (results : list TestResult) (totalDuration : Z).

Record http_request : Type := mkRequest {
  endpoint : jsstring;
  x_api_key : jsstring;
  body : http_body
}.

(** A [Response]: [ok], [status], and what [response.json()] resolves or
    rejects with. *)
Record http_response : Type := mkResponse {
  ok : bool;
  status : Z;
  json : outcome value
}.

Section Action.

Variable JSON_parse : jsstring -> outcome value.
Variable Number_toString : number -> jsstring.

(** The collaborators: the agent subprocess of the [testIndex]-th test, the
    dashboard behind [fetch] (a transport error is a rejection), and the
    [github.context] getters, which throw without their environment. *)
Variable agent : nat -> exec_request -> proc_outcome.
Variable fetch : http_request -> outcome http_response.
Variable github_context : outcome gh_context.

(** The reads [t.url] and [t.goal] of one entry of [tests]. *)
Definition as_config (t : value) : outcome TestConfig :=
  obind (get t "url") (fun u =>
  obind (get t "goal") (fun g => Ok (mkTestConfig u g))).

(** ** startLiveRun (lines 46-89) *)
Definition startLiveRun (dashboardUrl apiKey : jsstring) (tests : list value)
  : M value :=
  try_catch
    (context <- lift github_context ;;
     ts <- lift (omap as_config tests) ;;
     let payload := StartBody context (List.length tests) ts in
     let endpoint := startEndpoint dashboardUrl in
     response <- lift (fetch (mkRequest endpoint apiKey payload)) ;;
     if ok response then
       data <- lift (json response) ;;
       lift (get data "testRunId")
     else
       warning [Txt "Failed to start live run: HTTP "; Int (status response)] ;;
       ret VNull)
    (fun error =>
       warning [Txt "Error starting live run: "; Err error] ;;
       ret VNull).

(** [startLiveRun] on a [tests] that is no array: the payload gets as far
    as line 62, where [tests.map] is not a function. *)
Definition startLiveRunOther : M value :=
  try_catch
    (context <- lift github_context ;;
     lift (@Throw value (TypeError (lit "tests.map is not a function"))))
    (fun error =>
       warning [Txt "Error starting live run: "; Err error] ;;
       ret VNull).

(** ** completeLiveRun (lines 91-138) *)
Definition completeLiveRun (dashboardUrl apiKey : jsstring) (testRunId : value)
    (results : list TestResult) (totalDuration : Z) : M value :=
  try_catch
    (let payload := CompleteBody testRunId results totalDuration in
     let endpoint := completeEndpoint dashboardUrl in
     response <- lift (fetch (mkRequest endpoint apiKey payload)) ;;
     if ok response then
       ret (VStr (viewerUrl dashboardUrl (ToString Number_toString testRunId)))
     else
       warning [Txt "Failed to complete live run: HTTP "; Int (status response)] ;;
       ret VNull)
    (fun error =>
       warning [Txt "Error completing live run: "; Err error] ;;
       ret VNull).

(** ** runSingleTest (lines 140-258) *)

(** [dashboardUrl] and [dashboardApiKey] arrive as [string | null]. *)
Definition truthy_opt (s : option jsstring) : bool :=
  match s with
  | Some s => negb (is_empty s)
  | None => false
  end.

Definition text_of (s : option jsstring) : jsstring :=
  match s with Some s => s | None => [] end.

Definition agentRequest (config : TestConfig) (provider apiKey : jsstring)
    (headless : bool) (liveTestRunId : value) (testIndex : nat)
    (dashboardUrl dashboardApiKey : option jsstring) : exec_request :=
  let env :=
    [("HEADLESS"%string, VStr (if headless then lit "true" else lit "false"))]
    ++ (if JsString.eqb provider (lit "openai")
        then [("OPENAI_API_KEY"%string, VStr apiKey)]
        else [("GEMINI_API_KEY"%string, VStr apiKey)])
    ++ (if truthy liveTestRunId && truthy_opt dashboardUrl
           && truthy_opt dashboardApiKey
        then [("DASHBOARD_URL"%string, VStr (stripTrailingSlash (text_of dashboardUrl)));
              ("DASHBOARD_API_KEY"%string, VStr (text_of dashboardApiKey));
              ("TEST_RUN_ID"%string, liveTestRunId);
              ("TEST_INDEX"%string, VStr (nat_toString testIndex))]
        else []) in
  let args :=
    [VStr (lit "run"); VStr (lit "start:agent-cli"); VStr (lit "--");
     url config; goal config; VStr provider; VStr (lit "--json")]
    ++ (if truthy liveTestRunId then [VStr (lit "--live")] else []) in
  mkExecRequest args env.

Definition fallback_message : jsstring := lit "Could not parse agent output".

(** The result of lines 248-257. *)
Definition errorResult (config : TestConfig) (stderr : jsstring) (duration : Z)
  : TestResult :=
  mkTestResult (url config) (goal config) (VBool false) VNull
               (js_or (VStr stderr) (VStr fallback_message))
               (VArr []) (VArr []) duration.

(** The object literal of lines 231-240. *)
Definition parsedResult (config : TestConfig) (parsed : value) (duration : Z)
  : outcome TestResult :=
  obind (get parsed "success") (fun p_success =>
  obind (get parsed "reason") (fun p_reason =>
  obind (get parsed "error") (fun p_error =>
  obind (get parsed "steps") (fun p_steps =>
  obind (get parsed "violations") (fun p_violations =>
  Ok (mkTestResult (url config) (goal config)
                   (js_or p_success (VBool false))
                   (js_or p_reason VNull)
                   (js_or p_error VNull)
                   (js_or p_steps (VArr []))
                   (js_or p_violations (VArr []))
                   duration)))))).

(** The [try] block of lines 209-242: [Some r] is its [return r], [None]
    is falling out of it. *)
Definition parseOutput (config : TestConfig) (stdout : jsstring) (duration : Z)
  : outcome (option TestResult) :=
  match extractJson stdout with
  | Some jsonStr =>
      obind (JSON_parse jsonStr) (fun parsed =>
      obind (parsedResult config parsed duration) (fun r => Ok (Some r)))
  | None => Ok None
  end.

Definition runSingleTest (config : TestConfig) (provider apiKey : jsstring)
    (headless : bool) (liveTestRunId : value) (testIndex : nat)
    (dashboardUrl dashboardApiKey : option jsstring) : M TestResult :=
  let request := agentRequest config provider apiKey headless liveTestRunId
                              testIndex dashboardUrl dashboardApiKey in
  (* try { await exec.exec(...) } catch { }: a rejection changes nothing *)
  let proc := agent testIndex request in
  let duration := elapsed proc in
  found <- try_catch (lift (parseOutput config (stdout proc) duration))
                     (fun parseError =>
                        debug [Txt "Failed to parse JSON output: "; Err parseError] ;;
                        ret None) ;;
  match found with
  | Some r => ret r
  | None => ret (errorResult config (stderr proc) duration)
  end.

(** ** run (lines 260-429) *)

(** The inputs of the action: [test-config] as the runner hands it over,
    since [required] looks at it before it is trimmed, and the other seven
    as [core.getInput] returns them. *)
Record inputs : Type := mkInputs {
  raw_test_config : jsstring;
  in_provider : jsstring;
  in_openai_api_key : jsstring;
  in_gemini_api_key : jsstring;
  in_headless : jsstring;
  in_continue_on_failure : jsstring;
  in_dashboard_url : jsstring;
  in_dashboard_api_key : jsstring
}.

(** What [core.getInput('test-config', { required: true })] returns when
    it returns: the value, trimmed. *)
Definition in_test_config (inp : inputs) : jsstring := trim (raw_test_config inp).

(** What lines 262-304 leave behind for the rest of [run]. *)
Record settings : Type := mkSettings {
  provider : jsstring;
  apiKey : jsstring;
  headless : bool;
  continueOnFailure : bool;
  dashboardUrl : jsstring;
  dashboardApiKey : jsstring
}.

(** [s || null] for a string [s] *)
Definition or_null (s : jsstring) : option jsstring :=
  if is_empty s then None else Some s.

(** The file system under [process.cwd()] and the clock of the run. *)
Variable existsSync : jsstring -> bool.
Variable readFileSync : jsstring -> outcome jsstring.
Variable totalDuration : Z.

(** Lines 262-304: nothing is logged or set before line 306. An input
    that is missing or empty makes [required] throw; one that is blank
    gets through as the empty path, and what becomes of it is up to the
    file system. *)
Definition setup (inp : inputs) : outcome (settings * value) :=
  if is_empty (raw_test_config inp)
  then Throw (Error (lit "Input required and not supplied: test-config"))
  else
  let testConfigPath := in_test_config inp in
  let provider := if is_empty (in_provider inp) then lit "openai" else in_provider inp in
  let headless := negb (JsString.eqb (in_headless inp) (lit "false")) in
  let continueOnFailure :=
    negb (JsString.eqb (in_continue_on_failure inp) (lit "false")) in
  let apiKey := if JsString.eqb provider (lit "openai")
                then in_openai_api_key inp else in_gemini_api_key inp in
  if is_empty apiKey
  then Throw (Error (lit "API key required for provider: " ++ provider
                     ++ lit ". Set " ++ provider ++ lit "-api-key input."))
  else if negb (existsSync testConfigPath)
  then Throw (Error (lit "Test configuration file not found: " ++ testConfigPath))
  else
  obind (readFileSync testConfigPath) (fun configContent =>
  obind (loadTests JSON_parse testConfigPath configContent) (fun tests =>
  Ok (mkSettings provider apiKey headless continueOnFailure
                 (in_dashboard_url inp) (in_dashboard_api_key inp), tests))).

Section Run.

Variable cfg : settings.

(** The [for] loop of lines 333-370 from index [i] on; [remaining] is
    [tests.slice(i)] and [total] is [tests.length]. *)
Fixpoint testLoop (liveTestRunId : value) (total : nat) (remaining : list value)
    (i : nat) (results : list TestResult) (hasFailure : bool)
  : M (list TestResult * bool) :=
  match remaining with
  | [] => ret (results, hasFailure)
  | test :: rest =>
      info [Txt "-------------------------------------------"] ;;
      info [Txt "Test "; Int (Z.of_nat i + 1); Txt "/"; Int (Z.of_nat total)] ;;
      test_url <- lift (get test "url") ;;
      info [Txt "URL: "; Val test_url] ;;
      test_goal <- lift (get test "goal") ;;
      info [Txt "Goal: "; Val test_goal] ;;
      info [Txt "-------------------------------------------"] ;;
      result <- runSingleTest (mkTestConfig test_url test_goal) (provider cfg)
                  (apiKey cfg) (headless cfg) liveTestRunId i
                  (or_null (dashboardUrl cfg)) (or_null (dashboardApiKey cfg)) ;;
      let results := results ++ [result] in
      if truthy (success result) then
        info [Txt "PASSED: ";
              Val (js_or (reason result) (VStr (lit "Test completed successfully")))] ;;
        info [] ;;
        testLoop liveTestRunId total rest (S i) results hasFailure
      else
        let failReason := js_or (error result)
                            (js_or (reason result) (VStr (lit "Test did not pass"))) in
        error_log [Txt "FAILED: "; Val failReason] ;;
        if negb (continueOnFailure cfg) then
          error_log [Txt "Stopping due to test failure (continue-on-failure=false)"] ;;
          ret (results, true)
        else
          info [] ;;
          testLoop liveTestRunId total rest (S i) results true
  end.

Definition failure_message (failedTests totalTests : nat) : jsstring :=
  nat_toString failedTests ++ lit " out of " ++ nat_toString totalTests
  ++ lit " accessibility tests failed".

(** Lines 386-420: statistics, summary, outputs, process status. *)
Definition report (results : list TestResult) (hasFailure : bool)
    (dashboardResultsUrl : value) : M unit :=
  let totalTests := List.length results in
  let passedTests := List.length (filter passed results) in
  let failedTests := totalTests - passedTests in
  let passRate := passRate Number_toString results in
  info [Txt "==========================================="] ;;
  info [Txt "  Test Summary"] ;;
  info [Txt "==========================================="] ;;
  info [Txt "Total: "; Int (Z.of_nat totalTests)] ;;
  info [Txt "Passed: "; Int (Z.of_nat passedTests)] ;;
  info [Txt "Failed: "; Int (Z.of_nat failedTests)] ;;
  info [Txt "Pass Rate: "; Str passRate; Txt "%"] ;;
  info [Txt "Duration: "; Seconds totalDuration; Txt "s"] ;;
  (if truthy dashboardResultsUrl
   then info [Txt "Dashboard: "; Val dashboardResultsUrl] else ret tt) ;;
  info [Txt "==========================================="] ;;
  setOutput "total-tests" (OutStr (nat_toString totalTests)) ;;
  setOutput "passed-tests" (OutStr (nat_toString passedTests)) ;;
  setOutput "failed-tests" (OutStr (nat_toString failedTests)) ;;
  setOutput "pass-rate" (OutStr passRate) ;;
  setOutput "results-json" (OutResultsJson results) ;;
  (if truthy dashboardResultsUrl
   then setOutput "dashboard-url"
          (OutStr (ToString Number_toString dashboardResultsUrl))
   else ret tt) ;;
  if hasFailure then setFailed (failure_message failedTests totalTests)
  else ret tt.

(** Lines 319-327 *)
Definition openLiveRun (tests : list value) : M value :=
  if negb (is_empty (dashboardUrl cfg)) && negb (is_empty (dashboardApiKey cfg))
  then
    liveTestRunId <- startLiveRun (dashboardUrl cfg) (dashboardApiKey cfg) tests ;;
    (if truthy liveTestRunId then
       info [Txt "[Live] Test run started: "; Val liveTestRunId] ;;
       info [Txt "[Live] View progress at: ";
             Str (stripTrailingSlash (dashboardUrl cfg)); Txt "/runs/";
             Val liveTestRunId]
     else ret tt) ;;
    ret liveTestRunId
  else ret VNull.

(** Lines 374-384 *)
Definition closeLiveRun (liveTestRunId : value) (results : list TestResult)
  : M value :=
  if truthy liveTestRunId && negb (is_empty (dashboardUrl cfg))
     && negb (is_empty (dashboardApiKey cfg))
  then completeLiveRun (dashboardUrl cfg) (dashboardApiKey cfg) liveTestRunId
                       results totalDuration
  else ret VNull.

(** Lines 306-420, for [tests] an array. *)
Definition runTests (tests : list value) : M unit :=
  info [Txt "==========================================="] ;;
  info [Txt "  Accessibility Agent Test Runner"] ;;
  info [Txt "==========================================="] ;;
  info [Txt "Tests to run: "; Int (Z.of_nat (List.length tests))] ;;
  info [Txt "LLM Provider: "; Str (provider cfg)] ;;
  info [Txt "Headless: "; Val (VBool (headless cfg))] ;;
  info [] ;;
  liveTestRunId <- openLiveRun tests ;;
  loop <- testLoop liveTestRunId (List.length tests) tests 0 [] false ;;
  dashboardResultsUrl <- closeLiveRun liveTestRunId (fst loop) ;;
  report (fst loop) (snd loop) dashboardResultsUrl.

(** Lines 319-327, for a [tests] that is no array. *)
Definition openLiveRunOther : M value :=
  if negb (is_empty (dashboardUrl cfg)) && negb (is_empty (dashboardApiKey cfg))
  then
    liveTestRunId <- startLiveRunOther ;;
    (if truthy liveTestRunId then
       info [Txt "[Live] Test run started: "; Val liveTestRunId] ;;
       info [Txt "[Live] View progress at: ";
             Str (stripTrailingSlash (dashboardUrl cfg)); Txt "/runs/";
             Val liveTestRunId]
     else ret tt) ;;
    ret liveTestRunId
  else ret VNull.

(** Lines 306-420, for a [tests] that is no array: [tests_length] is
    [tests.length] and [entries] are [tests[0]], [tests[1]], ... as far as
    the loop reads them. *)
Definition runOther (tests_length : value) (entries : list value) : M unit :=
  info [Txt "==========================================="] ;;
  info [Txt "  Accessibility Agent Test Runner"] ;;
  info [Txt "==========================================="] ;;
  info [Txt "Tests to run: "; Val tests_length] ;;
  info [Txt "LLM Provider: "; Str (provider cfg)] ;;
  info [Txt "Headless: "; Val (VBool (headless cfg))] ;;
  info [] ;;
  liveTestRunId <- openLiveRunOther ;;
  loop <- testLoop liveTestRunId (List.length entries) entries 0 [] false ;;
  dashboardResultsUrl <- closeLiveRun liveTestRunId (fst loop) ;;
  report (fst loop) (snd loop) dashboardResultsUrl.

End Run.

(** The [catch] of lines 422-428. *)
Definition fatal (error : js_error) : M unit :=
  match error with
  | Error message | TypeError message | SyntaxError message => setFailed message
  | ThrownValue _ => setFailed (lit "An unexpected error occurred")
  end.

(** [tests.length] and the entries the loop reads, for a [tests] that is
    no array and got past the emptiness check: a string has its length and
    its code units; a number, a boolean and an object without a member
    [length] have no [length], and [0 < undefined] is false. An object with
    a member [length] is read through [i < tests.length] on a value of any
    type and is outside the embedding ([None]); [null] and [undefined] do
    not get past line 302. *)
Definition entries_of (tests : value) : option (value * list value) :=
  match tests with
  | VStr s => Some (VNum (Number_of_nat (List.length s)),
                    List.map (fun c => VStr [c]) s)
  | VNum _ | VBool _ => Some (VUndefined, [])
  | VObj fields =>
      match lookup (lit "length") fields with
      | None => Some (VUndefined, [])
      | Some _ => None
      end
  | _ => None
  end.

(** [run()]: a configuration that is an array, as the declared type
    [TestConfig[]] says, and a JSON document of another shape as far as
    [entries_of] goes. *)
Definition run (inp : inputs) : option (M unit) :=
  match setup inp with
  | Throw e => Some (fatal e)
  | Ok (cfg, VArr tests) => Some (try_catch (runTests cfg tests) fatal)
  | Ok (cfg, tests) =>
      match entries_of tests with
      | Some (tests_length, entries) =>
          Some (try_catch (runOther cfg tests_length entries) fatal)
      | None => None
      end
  end.

End Action.

(* ===================================================================== *)
(** * A reference [JSON.parse], for the examples *)
(* ===================================================================== *)

(** The theorems below quantify over the built-ins; the examples run them
    with this parser of the JSON grammar (ECMA-404), whose numbers are
    rounded to the nearest binary64, and with [integer_toString]. *)
Module JsonRef.

Definition is_ws (c : N) : bool :=
  ((c =? 32) || (c =? 9) || (c =? 10) || (c =? 13))%N.

Fixpoint skip_ws (s : jsstring) : jsstring :=
  match s with
  | c :: s' => if is_ws c then skip_ws s' else s
  | [] => []
  end.

Definition is_digit (c : N) : bool := ((48 <=? c) && (c <=? 57))%N.

Definition hex_value (c : N) : option N :=
  if is_digit c then Some (c - 48)%N
  else if ((97 <=? c) && (c <=? 102))%N then Some (c - 87)%N
  else if ((65 <=? c) && (c <=? 70))%N then Some (c - 55)%N
  else None.

Definition hex4 (a b c d : N) : option N :=
  match hex_value a, hex_value b, hex_value c, hex_value d with
  | Some a, Some b, Some c, Some d => Some (((a * 16 + b) * 16 + c) * 16 + d)%N
  | _, _, _, _ => None
  end.

(** The characters of a string literal after its opening quote. *)
Fixpoint string_body (s acc : jsstring) : option (jsstring * jsstring) :=
  match s with
  | [] => None
  | c :: s1 =>
      if (c =? 34)%N then Some (rev acc, s1)
      else if (c =? 92)%N then
        match s1 with
        | e :: s2 =>
            if (e =? 34)%N || (e =? 92)%N || (e =? 47)%N
            then string_body s2 (e :: acc)
            else if (e =? 98)%N then string_body s2 (8%N :: acc)
            else if (e =? 102)%N then string_body s2 (12%N :: acc)
            else if (e =? 110)%N then string_body s2 (10%N :: acc)
            else if (e =? 114)%N then string_body s2 (13%N :: acc)
            else if (e =? 116)%N then string_body s2 (9%N :: acc)
            else if (e =? 117)%N then
              match s2 with
              | h1 :: h2 :: h3 :: h4 :: s6 =>
                  match hex4 h1 h2 h3 h4 with
                  | Some u => string_body s6 (u :: acc)
                  | None => None
                  end
              | _ => None
              end
            else None
        | [] => None
        end
      else if (c <? 32)%N then None
      else string_body s1 (c :: acc)
  end.

Fixpoint take_digits (s : jsstring) : jsstring * jsstring :=
  match s with
  | c :: s' =>
      if is_digit c then let (ds, rest) := take_digits s' in (c :: ds, rest)
      else ([], s)
  | [] => ([], [])
  end.

Definition digits_value (ds : jsstring) : Z :=
  fold_left (fun acc d => (10 * acc + (Z.of_N d - 48))%Z) ds 0%Z.

(** The binary64 nearest to [m * 10^e], ties to even. *)
Definition decimal_to_number (negative : bool) (m e : Z) : number :=
  match m with
  | Zpos mp =>
      if (0 <=? e)%Z
      then binary_normalize prec64 emax64
             (if negative then Z.opp (m * 10 ^ e) else m * 10 ^ e)%Z 0 false
      else let '(q, e', l) :=
             SFdiv_core_binary prec64 emax64 m 0 (10 ^ (- e)) 0 in
           binary_round_aux prec64 emax64 negative q e' l
  | _ => S754_zero negative
  end.

Definition number_token (s : jsstring) : option (number * jsstring) :=
  let (negative, s1) :=
    match s with
    | c :: r => if (c =? 45)%N then (true, r) else (false, s)
    | [] => (false, s)
    end in
  let (int_part, s2) := take_digits s1 in
  match int_part with
  | [] => None
  | d :: more =>
      if (d =? 48)%N && negb (is_empty more) then None
      else
        let frac :=
          match s2 with
          | c :: r =>
              if (c =? 46)%N then
                let (f, r') := take_digits r in
                if is_empty f then None else Some (f, r')
              else Some ([], s2)
          | [] => Some ([], s2)
          end in
        match frac with
        | None => None
        | Some (frac_part, s3) =>
            let expo :=
              match s3 with
              | c :: r =>
                  if (c =? 101)%N || (c =? 69)%N then
                    let (neg_e, r1) :=
                      match r with
                      | g :: r' => if (g =? 45)%N then (true, r')
                                   else if (g =? 43)%N then (false, r')
                                   else (false, r)
                      | [] => (false, r)
                      end in
                    let (ds, r2) := take_digits r1 in
                    if is_empty ds then None
                    else Some (if neg_e then Z.opp (digits_value ds)
                               else digits_value ds, r2)
                  else Some (0%Z, s3)
              | [] => Some (0%Z, s3)
              end in
            match expo with
            | None => None
            | Some (ex, s4) =>
                Some (decimal_to_number negative
                        (digits_value (int_part ++ frac_part))
                        (ex - Z.of_nat (List.length frac_part)), s4)
            end
        end
  end.

(** A later member with the same name replaces the value of the earlier. *)
Fixpoint set_field (k : jsstring) (v : value) (fields : list (jsstring * value))
  : list (jsstring * value) :=
  match fields with
  | [] => [(k, v)]
  | (k', v') :: rest =>
      if JsString.eqb k' k then (k', v) :: rest else (k', v') :: set_field k v rest
  end.

Definition keyword (s : jsstring) (word : string) (v : value)
  : option (value * jsstring) :=
  if startsWith s (lit word)
  then Some (v, skipn (List.length (lit word)) s) else None.

Fixpoint parse_value (fuel : nat) (s : jsstring) : option (value * jsstring) :=
  match fuel with
  | O => None
  | S fuel' =>
      match s with
      | [] => None
      | c :: r =>
          if (c =? 123)%N then
            match skip_ws r with
            | d :: r' => if (d =? 125)%N then Some (VObj [], r')
                         else parse_members fuel' (d :: r') []
            | [] => None
            end
          else if (c =? 91)%N then
            match skip_ws r with
            | d :: r' => if (d =? 93)%N then Some (VArr [], r')
                         else parse_elements fuel' (d :: r') []
            | [] => None
            end
          else if (c =? 34)%N then
            match string_body r [] with
            | Some (str, r') => Some (VStr str, r')
            | None => None
            end
          else if (c =? 116)%N then keyword s "true" (VBool true)
          else if (c =? 102)%N then keyword s "false" (VBool false)
          else if (c =? 110)%N then keyword s "null" VNull
          else match number_token s with
               | Some (x, r') => Some (VNum x, r')
               | None => None
               end
      end
  end
with parse_elements (fuel : nat) (s : jsstring) (acc : list value)
  : option (value * jsstring) :=
  match fuel with
  | O => None
  | S fuel' =>
      match parse_value fuel' s with
      | Some (v, r) =>
          match skip_ws r with
          | d :: r' =>
              if (d =? 44)%N then parse_elements fuel' (skip_ws r') (acc ++ [v])
              else if (d =? 93)%N then Some (VArr (acc ++ [v]), r')
              else None
          | [] => None
          end
      | None => None
      end
  end
with parse_members (fuel : nat) (s : jsstring) (acc : list (jsstring * value))
  : option (value * jsstring) :=
  match fuel with
  | O => None
  | S fuel' =>
      match s with
      | q :: r0 =>
          if (q =? 34)%N then
            match string_body r0 [] with
            | Some (k, r1) =>
                match skip_ws r1 with
                | colon :: r2 =>
                    if (colon =? 58)%N then
                      match parse_value fuel' (skip_ws r2) with
                      | Some (v, r3) =>
                          match skip_ws r3 with
                          | d :: r4 =>
                              if (d =? 44)%N
                              then parse_members fuel' (skip_ws r4) (set_field k v acc)
                              else if (d =? 125)%N
                              then Some (VObj (set_field k v acc), r4)
                              else None
                          | [] => None
                          end
                      | None => None
                      end
                    else None
                | [] => None
                end
            | None => None
            end
          else None
      | [] => None
      end
  end.

Definition syntax_error : js_error :=
  SyntaxError (lit "Unexpected token in JSON").

Definition JSON_parse (s : jsstring) : outcome value :=
  match parse_value (2 * List.length s + 2) (skip_ws s) with
  | Some (v, rest) => if is_empty (skip_ws rest) then Ok v else Throw syntax_error
  | None => Throw syntax_error
  end.

(** [Number::toString] on the integers below 2^53, which is all the
    examples render; on other numbers it is not the built-in. *)
Definition integer_toString (x : number) : jsstring :=
  match x with
  | S754_zero _ => lit "0"
  | S754_finite s m e =>
      (if s then lit "-" else []) ++
      N_toString (Z.to_N (if (0 <=? e)%Z then Z.pos m * 2 ^ e
                          else Z.pos m / 2 ^ (- e)))
  | S754_infinity s => if s then lit "-Infinity" else lit "Infinity"
  | S754_nan => lit "NaN"
  end.

End JsonRef.

(* ===================================================================== *)
(** * The JSON grammar, for the statements about the extractor *)
(* ===================================================================== *)

(** The texts of the JSON grammar (ECMA-404). [plain] is a further
    condition on the characters that stand unescaped inside string
    literals: [any_char] gives all of JSON, [not_brace] the texts whose
    string literals hold no raw [{] or [}]. *)
Module JsonText.

Definition ws (s : jsstring) : Prop := forallb JsonRef.is_ws s = true.

Definition digits (s : jsstring) : Prop :=
  s <> [] /\ forallb JsonRef.is_digit s = true.

Definition is_hex (c : N) : bool :=
  match JsonRef.hex_value c with Some _ => true | None => false end.

(** The character after a backslash in a two-character escape. *)
Definition is_escape (c : N) : bool :=
  ((c =? 34) || (c =? 92) || (c =? 47) || (c =? 98) || (c =? 102)
   || (c =? 110) || (c =? 114) || (c =? 116))%N.

(** A character that may stand for itself in a string literal. *)
Definition unescaped (c : N) : bool :=
  ((32 <=? c) && negb (c =? 34) && negb (c =? 92))%N.

Definition any_char (c : N) : bool := true.

Definition not_brace (c : N) : bool :=
  negb (N.eqb c c_lbrace) && negb (N.eqb c c_rbrace).

Inductive json_number : jsstring -> Prop :=
| number_intro (sign int frac exp : jsstring) :
    sign = [] \/ sign = lit "-" ->
    int = lit "0"
    \/ (exists d ds, int = d :: ds /\ (49 <= d <= 57)%N
                     /\ forallb JsonRef.is_digit ds = true) ->
    frac = [] \/ (exists ds, frac = 46%N :: ds /\ digits ds) ->
    exp = []
    \/ (exists e sg ds, exp = e :: sg ++ ds /\ (e = 101%N \/ e = 69%N)
                        /\ (sg = [] \/ sg = lit "+" \/ sg = lit "-")
                        /\ digits ds) ->
    json_number (sign ++ int ++ frac ++ exp).

Section Grammar.

Variable plain : N -> bool.

Inductive json_chars : jsstring -> Prop :=
| chars_nil : json_chars []
| chars_plain (c : N) (s : jsstring) :
    unescaped c = true -> plain c = true -> json_chars s -> json_chars (c :: s)
| chars_escape (e : N) (s : jsstring) :
    is_escape e = true -> json_chars s -> json_chars (92%N :: e :: s)
| chars_unicode (h1 h2 h3 h4 : N) (s : jsstring) :
    is_hex h1 = true -> is_hex h2 = true -> is_hex h3 = true ->
    is_hex h4 = true -> json_chars s ->
    json_chars (92%N :: 117%N :: h1 :: h2 :: h3 :: h4 :: s).

Inductive json_string : jsstring -> Prop :=
| string_intro (chars : jsstring) :
    json_chars chars -> json_string (34%N :: chars ++ [34%N]).

Inductive json_value : jsstring -> Prop :=
| value_null : json_value (lit "null")
| value_true : json_value (lit "true")
| value_false : json_value (lit "false")
| value_number (s : jsstring) : json_number s -> json_value s
| value_string (s : jsstring) : json_string s -> json_value s
| value_array (s : jsstring) : json_array s -> json_value s
| value_object (s : jsstring) : json_object s -> json_value s
with json_array : jsstring -> Prop :=
| array_empty (w : jsstring) : ws w -> json_array (91%N :: w ++ [93%N])
| array_elements (es : jsstring) :
    json_elements es -> json_array (91%N :: es ++ [93%N])
with json_elements : jsstring -> Prop :=
| elements_last (w1 v w2 : jsstring) :
    ws w1 -> json_value v -> ws w2 -> json_elements (w1 ++ v ++ w2)
| elements_more (w1 v w2 es : jsstring) :
    ws w1 -> json_value v -> ws w2 -> json_elements es ->
    json_elements (w1 ++ v ++ w2 ++ 44%N :: es)
with json_object : jsstring -> Prop :=
| object_empty (w : jsstring) : ws w -> json_object (c_lbrace :: w ++ [c_rbrace])
| object_members (ms : jsstring) :
    json_members ms -> json_object (c_lbrace :: ms ++ [c_rbrace])
with json_members : jsstring -> Prop :=
| members_last (w1 k w2 w3 v w4 : jsstring) :
    ws w1 -> json_string k -> ws w2 -> ws w3 -> json_value v -> ws w4 ->
    json_members (w1 ++ k ++ w2 ++ 58%N :: w3 ++ v ++ w4)
| members_more (w1 k w2 w3 v w4 ms : jsstring) :
    ws w1 -> json_string k -> ws w2 -> ws w3 -> json_value v -> ws w4 ->
    json_members ms ->
    json_members (w1 ++ k ++ w2 ++ 58%N :: w3 ++ v ++ w4 ++ 44%N :: ms).

End Grammar.

Scheme json_value_mut := Minimality for json_value Sort Prop
  with json_array_mut := Minimality for json_array Sort Prop
  with json_elements_mut := Minimality for json_elements Sort Prop
  with json_object_mut := Minimality for json_object Sort Prop
  with json_members_mut := Minimality for json_members Sort Prop.

End JsonText.

(** A text over which the brace scan passes at any positive depth without
    stopping and without a change of depth. *)
Definition neutral (s : jsstring) : Prop :=
  forall (rest : jsstring) (i d : Z),
    (0 < d)%Z ->
    scanBraces (s ++ rest) i d = scanBraces rest (i + Z.of_nat (List.length s)) d.

(* ===================================================================== *)
(** * Reference behaviour, for the statements below *)
(* ===================================================================== *)

(** What the second [map] makes of a line that has a separator. *)
Definition lineConfig (line : jsstring) : TestConfig :=
  match split_limit c_pipe 2 line with
  | u :: g :: _ => mkTestConfig (VStr (trim u)) (VStr (trim g))
  | _ => mkTestConfig (VStr (trim line)) VUndefined
  end.

Definition complete (t : TestConfig) : bool := truthy (url t) && truthy (goal t).

(** The text rules on their own: what the loader does with a file that is
    not named [*.json]. *)
Definition loadTextTests (content : jsstring) : outcome value :=
  obind (parseTextConfig content) (fun ts =>
  if Nat.eqb (List.length ts) 0 then Throw no_tests_found
  else Ok (VArr (List.map config_value ts))).

(** The Number behind the pass rate. *)
Definition passValue (passedTests totalTests : nat) : number :=
  Number_mul (Number_div (Number_of_nat passedTests) (Number_of_nat totalTests))
             (Number_of_nat 100).





(** The dashboard answers a request to [endpoint] with a transport error
    or with a status that is not OK, whatever the body. *)
Definition unavailable (fetch : http_request -> outcome http_response)
    (endpoint apiKey : jsstring) : Prop :=
  forall body, match fetch (mkRequest endpoint apiKey body) with
               | Ok response => ok response = false
               | Throw _ => True
               end.

(** The world a run of the action ends in, when it ends without an
    uncaught exception. *)
Definition final_world (r : option (M unit)) : option world :=
  match r with
  | Some m => match m initial_world with
              | (Ok _, w) => Some w
              | (Throw _, _) => None
              end
  | None => None
  end.

(** The settings with the two dashboard inputs left empty. *)
Definition without_dashboard (cfg : settings) : settings :=
  mkSettings (provider cfg) (apiKey cfg) (headless cfg) (continueOnFailure cfg)
             [] [].

(** The five outputs that [report] always sets. *)
Definition summary_outputs (Number_toString : number -> jsstring)
    (results : list TestResult) : list (string * output_value) :=
  let totalTests := List.length results in
  let passedTests := List.length (filter passed results) in
  [("total-tests"%string, OutStr (nat_toString totalTests));
   ("passed-tests"%string, OutStr (nat_toString passedTests));
   ("failed-tests"%string, OutStr (nat_toString (totalTests - passedTests)));
   ("pass-rate"%string, OutStr (passRate Number_toString results));
   ("results-json"%string, OutResultsJson results)].

(** [parsed.name] as a value, [undefined] when there is no such member. *)
Definition field (fields : list (jsstring * value)) (name : string) : value :=
  match lookup (lit name) fields with
  | Some v => v
  | None => VUndefined
  end.

Section Expected.

Variable JSON_parse : jsstring -> outcome value.
Variable agent : nat -> exec_request -> proc_outcome.

(** The result the executor returns for one subprocess outcome. *)
Definition singleResult (config : TestConfig) (proc : proc_outcome) : TestResult :=
  match parseOutput JSON_parse config (stdout proc) (elapsed proc) with
  | Ok (Some r) => r
  | _ => errorResult config (stderr proc) (elapsed proc)
  end.

Variable cfg : settings.
Variable liveTestRunId : value.

(** The result of the executor for test case [i]. *)
Definition resultAt (i : nat) (config : TestConfig) : TestResult :=
  singleResult config
    (agent i (agentRequest config (provider cfg) (apiKey cfg) (headless cfg)
                liveTestRunId i (or_null (dashboardUrl cfg))
                (or_null (dashboardApiKey cfg)))).

(** The results of all test cases, the first one having index [i]. *)
Fixpoint allResults (i : nat) (configs : list TestConfig) : list TestResult :=
  match configs with
  | [] => []
  | c :: rest => resultAt i c :: allResults (S i) rest
  end.

(** A sequence of results cut after its first failure. *)
Fixpoint upToFirstFailure (rs : list TestResult) : list TestResult :=
  match rs with
  | [] => []
  | r :: rest => if passed r then r :: upToFirstFailure rest else [r]
  end.

(** What the loop appends, given what the executor returns for each case. *)
Definition appended (rs : list TestResult) : list TestResult :=
  if continueOnFailure cfg then rs else upToFirstFailure rs.

Definition anyFailed (rs : list TestResult) : bool :=
  existsb (fun r => negb (passed r)) rs.

End Expected.

(* ===================================================================== *)
(** * Sample data of the examples *)
(* ===================================================================== *)

Module Sample.

Definition home : TestConfig :=
  mkTestConfig (VStr (lit "http://localhost:3000"))
               (VStr (lit "verify the heading hierarchy")).

(** An agent that prints log noise around a payload whose [success] is a
    non-empty string and whose [reason] and [error] are empty strings. *)
Definition loose_stdout : jsstring :=
  quoted "> start:agent-cli
{'url':'http://localhost:3000','success':'yes','reason':'','error':'','steps':[]}
done".

Definition loose_agent (i : nat) (request : exec_request) : proc_outcome :=
  mkProcOutcome loose_stdout [] false 1200.

(** An agent whose payload has a number for [success]. *)
Definition numeric_agent (n : string) (i : nat) (request : exec_request)
  : proc_outcome :=
  mkProcOutcome (quoted "{'url':'http://localhost:3000','success':" ++ lit n
                 ++ lit "}") [] false 800.

(** An agent that crashes before printing any payload. *)
Definition crashed_agent (i : nat) (request : exec_request) : proc_outcome :=
  mkProcOutcome (lit "npm ERR! missing script: start:agent-cli")
                (lit "npm ERR! code 1") true 35.

Definition products : TestConfig :=
  mkTestConfig (VStr (lit "http://localhost:3000/products"))
               (VStr (lit "verify that every image has a text alternative")).

Definition two_tests : list value := [config_value home; config_value products].

(** An agent whose first test fails and whose later tests pass. *)
Definition failing_first_agent (i : nat) (request : exec_request) : proc_outcome :=
  if Nat.eqb i 0
  then mkProcOutcome
         (quoted "{'url':'http://localhost:3000','success':false,'reason':'h3 follows h1'}")
         [] true 900
  else mkProcOutcome
         (quoted "{'url':'http://localhost:3000/products','success':true,'reason':'ok'}")
         [] false 700.

(** An agent that always reports a pass. *)
Definition passing_agent (i : nat) (request : exec_request) : proc_outcome :=
  mkProcOutcome (quoted "{'url':'http://x','success':true,'reason':'ok'}")
                [] false 500.

(** A dashboard that answers every request with HTTP 500. *)
Definition down_fetch (request : http_request) : outcome http_response :=
  Ok (mkResponse false 500 (Throw JsonRef.syntax_error)).

Definition context : outcome gh_context :=
  Ok (mkContext (lit "octo") (lit "shop") 42 9001 (lit "refs/heads/main")
                (lit "0a1b2c3")).

(** Stop on the first failure, with a dashboard configured. *)
Definition stop_settings : settings :=
  mkSettings (lit "openai") (lit "sk-test") true false
             (lit "https://dash.example.com/") (lit "dk-1").

(** The inputs and the file of the two end-to-end scenarios. *)
(** A result that passed or failed, as the statistics see it. *)
Definition outcome_of (ok : bool) : TestResult :=
  mkTestResult (url home) (goal home) (VBool ok) VNull VNull (VArr []) (VArr []) 10.

Definition scenario_inputs (continue_on_failure : jsstring) : inputs :=
  mkInputs (lit "tests.json") [] (lit "sk-test") [] [] continue_on_failure [] [].

Definition scenario_exists (path : jsstring) : bool :=
  JsString.eqb path (lit "tests.json").

Definition scenario_read (path : jsstring) : outcome jsstring :=
  Ok (quoted "[{'url':'http://x','goal':'g1'},{'url':'http://x','goal':'g2'}]").

(** An agent that reports a failure on the first test and passes after. *)
Definition scenario_agent (i : nat) (request : exec_request) : proc_outcome :=
  if Nat.eqb i 0
  then mkProcOutcome (quoted "{'url':'http://x','success':false}") [] true 500
  else passing_agent i request.

End Sample.

(* ===================================================================== *)
(** * Further notions: lines, requests, dashboards *)
(* ===================================================================== *)

(** Nothing for [trim] to remove at either end. *)
Definition trimmed (s : jsstring) : Prop := trimStart s = s /\ trimEnd s = s.

(** A line that the first filter of the text format removes: blank, or a
    comment. *)
Definition ignored (line : jsstring) : Prop :=
  ~ In c_newline line
  /\ (trim line = [] \/ startsWith (trim line) (lit "#") = true).

(** The message [run] hands to [core.setFailed] for a caught error
    (lines 423-427). *)
Definition message_of (e : js_error) : jsstring :=
  match e with
  | Error m | TypeError m | SyntaxError m => m
  | ThrownValue _ => lit "An unexpected error occurred"
  end.

(** The variable [name] among those put on top of [process.env]. *)
Definition env_var (name : string) (request : exec_request) : option value :=
  match find (fun kv => String.eqb (fst kv) name) (env_overrides request) with
  | Some kv => Some (snd kv)
  | None => None
  end.

(** The variable [name] in [process.env], the environment the action
    itself runs in. *)
Definition parent_var (name : string) (process_env : list (string * jsstring))
  : option value :=
  match find (fun kv => String.eqb (fst kv) name) process_env with
  | Some kv => Some (VStr (snd kv))
  | None => None
  end.

(** [env] of lines 153-171, which is what the agent gets: [process.env]
    with the variables of the request on top. *)
Definition agent_env (process_env : list (string * jsstring))
    (request : exec_request) (name : string) : option value :=
  match env_var name request with
  | Some v => Some v
  | None => parent_var name process_env
  end.

(** The verdict that a log line gives on a test (lines 357 and 361). *)
Definition verdict (e : log_entry) : option bool :=
  match e with
  | LInfo (Txt t :: _) => if String.eqb t "PASSED: " then Some true else None
  | LError (Txt t :: _) => if String.eqb t "FAILED: " then Some false else None
  | _ => None
  end.

(** The verdicts of a log, oldest first. *)
Fixpoint verdicts (l : list log_entry) : list bool :=
  match l with
  | [] => []
  | e :: l' =>
      match verdict e with
      | Some b => b :: verdicts l'
      | None => verdicts l'
      end
  end.

(** The loop is not cut short inside these results. *)
Definition not_stopped (cfg : settings) (rs : list TestResult) : Prop :=
  continueOnFailure cfg = true \/ anyFailed rs = false.

(** The provider [run] settles on (line 264). *)
Definition chosenProvider (inp : inputs) : jsstring :=
  if is_empty (in_provider inp) then lit "openai" else in_provider inp.

(** Opening braces minus closing braces, inside string literals or not:
    what [braceCount] has added up to after the text. *)
Fixpoint depth (s : jsstring) : Z :=
  match s with
  | [] => 0%Z
  | c :: s' =>
      ((if N.eqb c c_lbrace then 1 else if N.eqb c c_rbrace then -1 else 0)
       + depth s')%Z
  end.

(** The dashboard answers every call to [endpoint] with an OK response
    whose body is JSON with [id] for its [testRunId]. *)
Definition hands_out (fetch : http_request -> outcome http_response)
    (endpoint apiKey : jsstring) (id : value) : Prop :=
  forall body, exists response data,
    fetch (mkRequest endpoint apiKey body) = Ok response
    /\ ok response = true
    /\ json response = Ok data
    /\ get data "testRunId" = Ok id.

(** The dashboard answers every call to [endpoint] with an OK response. *)
Definition accepts (fetch : http_request -> outcome http_response)
    (endpoint apiKey : jsstring) : Prop :=
  forall body, exists response,
    fetch (mkRequest endpoint apiKey body) = Ok response /\ ok response = true.

(** More sample data: dashboards, files and inputs. *)
Module Fixture.

(** A dashboard that accepts every call and hands out the id [run-17]. *)
Definition accepting_fetch (request : http_request) : outcome http_response :=
  Ok (mkResponse true 200 (Ok (VObj [(lit "testRunId", VStr (lit "run-17"))]))).

(** A dashboard that answers OK with an empty object. *)
Definition blank_fetch (request : http_request) : outcome http_response :=
  Ok (mkResponse true 200 (Ok (VObj []))).

Definition build_context : gh_context :=
  mkContext (lit "octo") (lit "shop") 42 9001 (lit "refs/heads/main")
            (lit "0a1b2c3").

(** All tests are run, with a dashboard configured. *)
Definition live_settings : settings :=
  mkSettings (lit "openai") (lit "sk-test") true true
             (lit "https://dash.example.com/") (lit "dk-1").

(** What [setup] makes of [Sample.scenario_inputs] with the defaults. *)
Definition scenario_settings : settings :=
  mkSettings (lit "openai") (lit "sk-test") true true [] [].

Definition first_test : TestConfig :=
  mkTestConfig (VStr (lit "http://x")) (VStr (lit "g1")).

Definition second_test : TestConfig :=
  mkTestConfig (VStr (lit "http://x")) (VStr (lit "g2")).

(** A JSON configuration whose second entry is [null]. *)
Definition null_read (path : jsstring) : outcome jsstring :=
  Ok (quoted "[{'url':'http://x','goal':'g1'}, null]").

(** A text configuration: two tests around a comment. *)
Definition text_inputs : inputs :=
  mkInputs (lit "tests.txt") [] (lit "sk-test") [] [] [] [] [].

Definition text_content : jsstring :=
  lit "http://a | open the menu
# staging only
http://b|check the headings".

Definition text_read (path : jsstring) : outcome jsstring := Ok text_content.

Definition always_there (path : jsstring) : bool := true.

(** A JSON configuration that wraps its tests in an object. *)
Definition wrapped_read (path : jsstring) : outcome jsstring :=
  Ok (quoted "{'tests':[{'url':'http://x','goal':'g1'}]}").

(** The environment of a workflow that sets variables of its own. *)
Definition workflow_env : list (string * jsstring) :=
  [("GEMINI_API_KEY"%string, lit "g-parent");
   ("OPENAI_API_KEY"%string, lit "o-parent");
   ("DASHBOARD_URL"%string, lit "https://other.example.com")].

(** The inputs of a run that asks for Gemini and brings the other key. *)
Definition gemini_inputs : inputs :=
  mkInputs (lit "tests.json") (lit "gemini") (lit "sk-test") [] [] [] [] [].

(** The inputs of a run with both switches off. *)
Definition switched_off_inputs : inputs :=
  mkInputs (lit "tests.json") [] (lit "sk-test") [] (lit "false") (lit "false")
           [] [].

End Fixture.

(* ===================================================================== *)
(** * Facts about strings *)
(* ===================================================================== *)

Lemma startsWith_app (p rest : jsstring) : startsWith (p ++ rest) p = true.
Proof.
  induction p as [|c p IH]; simpl; [reflexivity|].
  now rewrite N.eqb_refl, IH.
Qed.

Lemma endsWith_snoc (s : jsstring) (c : N) : endsWith (s ++ [c]) [c] = true.
Proof.
  unfold endsWith. rewrite rev_app_distr. simpl. now rewrite N.eqb_refl.
Qed.

Lemma stripTrailingSlash_snoc (s : jsstring) :
  stripTrailingSlash (s ++ [c_slash]) = s.
Proof.
  unfold stripTrailingSlash. rewrite endsWith_snoc. apply removelast_last.
Qed.

Lemma split_nonempty (c : N) (s : jsstring) : split c s <> [].
Proof.
  destruct s as [|x s]; simpl; [discriminate|].
  destruct (N.eqb x c); [discriminate|].
  destruct (split c s); discriminate.
Qed.

(** A string without the separator is one segment. *)
Lemma split_without (c : N) (s : jsstring) :
  ~ In c s -> split c s = [s].
Proof.
  induction s as [|x s IH]; simpl; intros H; [reflexivity|].
  destruct (N.eqb_spec x c) as [->|Hne]; [exfalso; apply H; now left|].
  rewrite IH; [reflexivity|]. intros Hin. apply H. now right.
Qed.

(** A string with the separator has at least two segments, the first of
    which is what precedes the first separator. *)
Lemma split_with (c : N) (s : jsstring) :
  In c s ->
  exists u g more, split c s = u :: g :: more /\ ~ In c u /\
                   exists tail, s = u ++ c :: tail.
Proof.
  induction s as [|x s IH]; simpl; intros H; [contradiction|].
  destruct (N.eqb_spec x c) as [->|Hne].
  - destruct (split c s) as [|g more] eqn:E; [now apply split_nonempty in E|].
    exists [], g, more. repeat split; auto. now exists s.
  - destruct H as [H|H]; [congruence|].
    destruct (IH H) as (u & g & more & -> & Hu & tail & ->).
    exists (x :: u), g, more. repeat split.
    + intros [Hx|Hx]; [congruence | contradiction].
    + now exists tail.
Qed.

(* ===================================================================== *)
(** * The configuration loader: text format *)
(* ===================================================================== *)

Lemma parseLine_without_separator (line : jsstring) :
  ~ In c_pipe line -> parseLine line = Throw (cannot_read "undefined" "trim").
Proof.
  intros H. unfold parseLine, split_limit. now rewrite (split_without _ _ H).
Qed.

Lemma parseLine_with_separator (line : jsstring) :
  In c_pipe line ->
  exists u g, parseLine line = Ok (mkTestConfig (VStr (trim u)) (VStr (trim g))).
Proof.
  intros H. destruct (split_with _ _ H) as (u & g & more & E & _).
  exists u, g. unfold parseLine, split_limit. now rewrite E.
Qed.

Lemma omap_throws_iff {A B} (f : A -> outcome B) (xs : list A) :
  (exists e, omap f xs = Throw e) <-> (exists x e, In x xs /\ f x = Throw e).
Proof.
  induction xs as [|x xs IH]; simpl.
  - split; [intros [e H]; discriminate | intros (x & e & [] & _)].
  - destruct (f x) as [y|e] eqn:Ex; simpl.
    + destruct (omap f xs) as [ys|e'] eqn:Exs; simpl.
      * split; [intros [e H]; discriminate|].
        intros (x' & e & [<-|Hin] & Hf); [congruence|].
        destruct (proj2 IH) as [e0 He0]; [now exists x', e | discriminate].
      * split; [|intros _; now exists e'].
        intros _. destruct (proj1 IH) as (x' & e0 & Hin & Hf); [now exists e'|].
        exists x', e0. split; [now right | assumption].
    + split; [|intros _; now exists e].
      intros _. exists x, e. split; [now left | assumption].
Qed.

(** The text loader throws exactly when some line that survives the first
    filter has no separator. *)
Lemma parseTextConfig_throws_iff (content : jsstring) :
  (exists e, parseTextConfig content = Throw e)
  <-> (exists line, In line (effectiveLines content) /\ ~ In c_pipe line).
Proof.
  unfold parseTextConfig.
  destruct (omap parseLine (effectiveLines content)) as [ts|e] eqn:E; simpl.
  - split; [intros [e H]; discriminate|].
    intros (line & Hin & Hno).
    destruct (proj2 (omap_throws_iff parseLine (effectiveLines content))) as [e He].
    + exists line, (cannot_read "undefined" "trim").
      split; [assumption | now apply parseLine_without_separator].
    + congruence.
  - split; [|intros _; now exists e].
    intros _.
    destruct (proj1 (omap_throws_iff parseLine (effectiveLines content)))
      as (line & e0 & Hin & Hf); [now exists e|].
    exists line. split; [assumption|].
    intros Hp. destruct (parseLine_with_separator _ Hp) as (u & g & Hok). congruence.
Qed.

Lemma omap_parseLine (lines : list jsstring) :
  (forall line, In line lines -> In c_pipe line) ->
  omap parseLine lines = Ok (List.map lineConfig lines).
Proof.
  induction lines as [|line lines IH]; intros Hall; [reflexivity|].
  destruct (split_with c_pipe line) as (u & g & more & Hs & _);
    [apply Hall; now left|].
  cbn [omap List.map]. rewrite IH by (intros l Hl; apply Hall; now right).
  unfold parseLine, lineConfig, split_limit. rewrite Hs. reflexivity.
Qed.

(** When every line that survives the first filter has a separator, the
    loader keeps the lines whose url and goal are both non-empty after
    trimming and drops the others without an error. *)
Lemma parseTextConfig_with_separators (content : jsstring) :
  (forall line, In line (effectiveLines content) -> In c_pipe line) ->
  parseTextConfig content
  = Ok (filter complete (List.map lineConfig (effectiveLines content))).
Proof.
  unfold parseTextConfig. intros Hall.
  now rewrite (omap_parseLine _ Hall).
Qed.

(** Then an empty result is the one failure of the text loader. *)
Lemma loadTextTests_with_separators (content : jsstring) :
  (forall line, In line (effectiveLines content) -> In c_pipe line) ->
  loadTextTests content
  = match filter complete (List.map lineConfig (effectiveLines content)) with
    | [] => Throw no_tests_found
    | kept => Ok (VArr (List.map config_value kept))
    end.
Proof.
  intros Hall. unfold loadTextTests.
  rewrite (parseTextConfig_with_separators content Hall). simpl.
  now destruct (filter complete (List.map lineConfig (effectiveLines content))).
Qed.

Lemma loadTests_text JSON_parse (path content : jsstring) :
  endsWith path (lit ".json") = false ->
  loadTests JSON_parse path content = loadTextTests content.
Proof.
  intros H. unfold loadTests, parseConfig, loadTextTests. rewrite H.
  destruct (parseTextConfig content) as [ts|e]; simpl; [|reflexivity].
  now rewrite length_map.
Qed.

(** C1: a text configuration with one line that has no [|] separator. The
    line is not dropped: the second [map] calls [trim] on the missing
    second segment, and the loader ends in a TypeError whatever the
    JSON parser, where "silently dropped" would give the fatal error of an
    empty configuration. *)
Theorem C1_line_without_separator_throws :
  forall JSON_parse,
    loadTests JSON_parse (lit "tests.txt") (lit "http://localhost:3000")
    = Throw (cannot_read "undefined" "trim")
    /\ loadTests JSON_parse (lit "tests.txt") (lit "http://localhost:3000")
       <> Throw no_tests_found
    /\ loadTests JSON_parse (lit "tests.txt")
         (lit "http://localhost:3000/|check the headings
http://localhost:3000/products")
       = Throw (cannot_read "undefined" "trim").
Proof.
  intros JSON_parse. repeat split; try reflexivity. discriminate.
Qed.

(* ===================================================================== *)
(** * Dashboard URLs *)
(* ===================================================================== *)

(** C8: for a base URL [u] without a trailing slash, the start endpoint,
    the complete endpoint and the viewer URL built from [u ++ "/"] are the
    ones built from [u]. *)
Theorem C8_trailing_slash_tolerated :
  forall (u testRunId : jsstring),
    endsWith u (lit "/") = false ->
    startEndpoint (u ++ lit "/") = startEndpoint u
    /\ completeEndpoint (u ++ lit "/") = completeEndpoint u
    /\ viewerUrl (u ++ lit "/") testRunId = viewerUrl u testRunId.
Proof.
  intros u testRunId Hu.
  unfold startEndpoint, completeEndpoint, viewerUrl.
  change (lit "/") with [c_slash] in *.
  rewrite endsWith_snoc, stripTrailingSlash_snoc, Hu.
  unfold stripTrailingSlash. rewrite Hu.
  repeat split; now rewrite <- app_assoc.
Qed.

Lemma C8_trailing_slash_tolerated_witness :
  endsWith (lit "https://dash.example.com") (lit "/") = false
  /\ startEndpoint (lit "https://dash.example.com/")
     = lit "https://dash.example.com/api/live/start"
  /\ completeEndpoint (lit "https://dash.example.com/")
     = completeEndpoint (lit "https://dash.example.com")
  /\ viewerUrl (lit "https://dash.example.com/") (lit "run-17")
     = viewerUrl (lit "https://dash.example.com") (lit "run-17").
Proof.
  split; [reflexivity|].
  exact (C8_trailing_slash_tolerated (lit "https://dash.example.com")
           (lit "run-17") eq_refl).
Defined.

(* ===================================================================== *)
(** * The configuration loader: format switch *)
(* ===================================================================== *)


(* ===================================================================== *)
(** * The single-test executor *)
(* ===================================================================== *)

(** Without the anchor nothing is extracted. *)
Lemma extractJson_no_anchor (stdout : jsstring) :
  indexOf stdout anchor = (-1)%Z -> extractJson stdout = None.
Proof. intros H. unfold extractJson. now rewrite H. Qed.

Lemma js_or_false_default (v : value) :
  truthy (js_or v (VBool false)) = false -> js_or v (VBool false) = VBool false.
Proof. unfold js_or. destruct (truthy v) eqn:E; [congruence | reflexivity]. Qed.

Lemma errorResult_shape (config : TestConfig) (stderr : jsstring) (duration : Z) :
  errorResult config stderr duration
  = mkTestResult (url config) (goal config) (VBool false) VNull
      (VStr (if is_empty stderr then fallback_message else stderr))
      (VArr []) (VArr []) duration.
Proof. unfold errorResult, js_or. simpl. now destruct stderr. Qed.

(** Every result of the executor either passes or has [success = false]. *)
Lemma singleResult_success JSON_parse (config : TestConfig) (proc : proc_outcome) :
  passed (singleResult JSON_parse config proc) = false ->
  success (singleResult JSON_parse config proc) = VBool false.
Proof.
  unfold singleResult, parseOutput, passed.
  destruct (extractJson (stdout proc)) as [jsonStr|]; [|reflexivity].
  destruct (JSON_parse jsonStr) as [parsed|e]; simpl; [|reflexivity].
  unfold parsedResult.
  destruct (get parsed "success"); simpl; [|reflexivity].
  destruct (get parsed "reason"); simpl; [|reflexivity].
  destruct (get parsed "error"); simpl; [|reflexivity].
  destruct (get parsed "steps"); simpl; [|reflexivity].
  destruct (get parsed "violations"); simpl; [|reflexivity].
  apply js_or_false_default.
Qed.

Lemma singleResult_config JSON_parse (config : TestConfig) (proc : proc_outcome) :
  result_url (singleResult JSON_parse config proc) = url config
  /\ result_goal (singleResult JSON_parse config proc) = goal config.
Proof.
  unfold singleResult, parseOutput.
  destruct (extractJson (stdout proc)) as [jsonStr|]; [|now split].
  destruct (JSON_parse jsonStr) as [parsed|e]; simpl; [|now split].
  unfold parsedResult.
  destruct (get parsed "success"); simpl; [|now split].
  destruct (get parsed "reason"); simpl; [|now split].
  destruct (get parsed "error"); simpl; [|now split].
  destruct (get parsed "steps"); simpl; [|now split].
  destruct (get parsed "violations"); simpl; now split.
Qed.

(** The executor always returns, with [singleResult], and touches nothing
    of the world but the log. *)
Lemma runSingleTest_returns JSON_parse agent (config : TestConfig)
    (provider apiKey : jsstring) (headless : bool) (liveTestRunId : value)
    (testIndex : nat) (dashboardUrl dashboardApiKey : option jsstring) (w : world) :
  exists w',
    runSingleTest JSON_parse agent config provider apiKey headless liveTestRunId
                  testIndex dashboardUrl dashboardApiKey w
    = (Ok (singleResult JSON_parse config
             (agent testIndex
                (agentRequest config provider apiKey headless liveTestRunId
                              testIndex dashboardUrl dashboardApiKey))), w')
    /\ outputs w' = outputs w /\ failed w' = failed w.
Proof.
  unfold runSingleTest, singleResult, bind, try_catch, lift, ret.
  set (proc := agent testIndex _).
  destruct (parseOutput JSON_parse config (stdout proc) (elapsed proc))
    as [[r|]|e]; simpl; eauto.
Qed.

(** C3: whatever the test case and whatever the subprocess did, the
    executor returns one result and does not throw; when stdout has no
    anchor, or no balanced object follows it, or [JSON.parse] throws on the
    extracted text, that result has [success = false], the captured stderr
    (the fallback message when stderr is empty) as its non-null [error],
    and empty [steps] and [violations]. *)
Theorem C3_runSingleTest_never_throws :
  forall JSON_parse agent (config : TestConfig) (provider apiKey : jsstring)
         (headless : bool) (liveTestRunId : value) (testIndex : nat)
         (dashboardUrl dashboardApiKey : option jsstring) (w : world),
    let proc := agent testIndex
                  (agentRequest config provider apiKey headless liveTestRunId
                                testIndex dashboardUrl dashboardApiKey) in
    exists r w',
      runSingleTest JSON_parse agent config provider apiKey headless liveTestRunId
                    testIndex dashboardUrl dashboardApiKey w = (Ok r, w')
      /\ ((indexOf (stdout proc) anchor = (-1)%Z
           \/ extractJson (stdout proc) = None
           \/ (exists jsonStr e, extractJson (stdout proc) = Some jsonStr
                                 /\ JSON_parse jsonStr = Throw e)) ->
          r = mkTestResult (url config) (goal config) (VBool false) VNull
                (VStr (if is_empty (stderr proc) then fallback_message
                       else stderr proc))
                (VArr []) (VArr []) (elapsed proc)
          /\ error r <> VNull).
Proof.
  intros JSON_parse agent config provider apiKey headless liveTestRunId testIndex
         dashboardUrl dashboardApiKey w proc.
  destruct (runSingleTest_returns JSON_parse agent config provider apiKey headless
              liveTestRunId testIndex dashboardUrl dashboardApiKey w)
    as (w' & Hrun & _).
  fold proc in Hrun. eexists. exists w'. split; [exact Hrun|].
  intros Hfail.
  assert (E : singleResult JSON_parse config proc
              = errorResult config (stderr proc) (elapsed proc)).
  { unfold singleResult, parseOutput.
    destruct Hfail as [H|[H|(jsonStr & e & H & Hp)]].
    - now rewrite (extractJson_no_anchor _ H).
    - now rewrite H.
    - now rewrite H, Hp. }
  rewrite E, errorResult_shape. split; [reflexivity | discriminate].
Qed.

Lemma C3_runSingleTest_never_throws_witness :
  exists r w',
    runSingleTest JsonRef.JSON_parse Sample.crashed_agent Sample.home
                  (lit "openai") (lit "sk-test") true VNull 0 None None
                  initial_world = (Ok r, w')
    /\ success r = VBool false
    /\ error r = VStr (lit "npm ERR! code 1").
Proof.
  destruct (C3_runSingleTest_never_throws JsonRef.JSON_parse Sample.crashed_agent
              Sample.home (lit "openai") (lit "sk-test") true VNull 0 None None
              initial_world) as (r & w' & Hrun & Hshape).
  exists r, w'. split; [exact Hrun|].
  destruct Hshape as [-> _]; [left; reflexivity|].
  split; reflexivity.
Defined.


(** C10: once [JSON.parse] has returned an object for the extracted text,
    every field of the result that has a default is chosen by truthiness:
    a falsy [success], [reason] or [error], present or not, gives [false],
    [null], [null], and a falsy [steps] or [violations] gives the empty
    array; a truthy [success] of any type is kept as it is and counts as a
    pass, and a truthy [reason], [error], [steps] or [violations] is kept.
    The three fields without a default, [url], [goal] and [duration], are
    the test case's and the clock's. *)
Theorem C10_defaults_by_truthiness :
  forall JSON_parse agent (config : TestConfig) (provider apiKey : jsstring)
         (headless : bool) (liveTestRunId : value) (testIndex : nat)
         (dashboardUrl dashboardApiKey : option jsstring) (w : world)
         (jsonStr : jsstring) (fields : list (jsstring * value)),
    let proc := agent testIndex
                  (agentRequest config provider apiKey headless liveTestRunId
                                testIndex dashboardUrl dashboardApiKey) in
    extractJson (stdout proc) = Some jsonStr ->
    JSON_parse jsonStr = Ok (VObj fields) ->
    exists r w',
      runSingleTest JSON_parse agent config provider apiKey headless liveTestRunId
                    testIndex dashboardUrl dashboardApiKey w = (Ok r, w')
      /\ (truthy (field fields "success") = false -> success r = VBool false /\ passed r = false)
      /\ (truthy (field fields "reason") = false -> reason r = VNull)
      /\ (truthy (field fields "error") = false -> error r = VNull)
      /\ (truthy (field fields "success") = true ->
            success r = field fields "success" /\ passed r = true)
      /\ (truthy (field fields "reason") = true -> reason r = field fields "reason")
      /\ (truthy (field fields "error") = true -> error r = field fields "error")
      /\ (truthy (field fields "steps") = false -> steps r = VArr [])
      /\ (truthy (field fields "violations") = false -> violations r = VArr [])
      /\ (truthy (field fields "steps") = true -> steps r = field fields "steps")
      /\ (truthy (field fields "violations") = true ->
            violations r = field fields "violations")
      /\ result_url r = url config
      /\ result_goal r = goal config
      /\ duration r = elapsed proc.
Proof.
  intros JSON_parse agent config provider apiKey headless liveTestRunId testIndex
         dashboardUrl dashboardApiKey w jsonStr fields proc Hext Hparse.
  destruct (runSingleTest_returns JSON_parse agent config provider apiKey headless
              liveTestRunId testIndex dashboardUrl dashboardApiKey w)
    as (w' & Hrun & _).
  fold proc in Hrun. eexists. exists w'. split; [exact Hrun|].
  unfold singleResult, parseOutput. rewrite Hext, Hparse. simpl.
  unfold passed, js_or. simpl.
  change (match lookup (lit "success") fields with Some x => x | None => VUndefined end)
    with (field fields "success").
  change (match lookup (lit "reason") fields with Some x => x | None => VUndefined end)
    with (field fields "reason").
  change (match lookup (lit "error") fields with Some x => x | None => VUndefined end)
    with (field fields "error").
  change (match lookup (lit "steps") fields with Some x => x | None => VUndefined end)
    with (field fields "steps").
  change (match lookup (lit "violations") fields with Some x => x | None => VUndefined end)
    with (field fields "violations").
  repeat match goal with |- _ /\ _ => split end;
    try reflexivity;
    intros Ht; rewrite ?Ht; simpl; rewrite ?Ht; auto.
Qed.

Lemma C10_defaults_by_truthiness_witness :
  exists r w',
    runSingleTest JsonRef.JSON_parse Sample.loose_agent Sample.home
                  (lit "openai") (lit "sk-test") true VNull 0 None None
                  initial_world = (Ok r, w')
    /\ success r = VStr (lit "yes") /\ passed r = true
    /\ reason r = VNull /\ error r = VNull
    /\ steps r = VArr [] /\ violations r = VArr []
    /\ result_url r = url Sample.home /\ duration r = 1200%Z.
Proof.
  destruct (C10_defaults_by_truthiness JsonRef.JSON_parse Sample.loose_agent
              Sample.home (lit "openai") (lit "sk-test") true VNull 0 None None
              initial_world
              (quoted "{'url':'http://localhost:3000','success':'yes','reason':'','error':'','steps':[]}")
              [(lit "url", VStr (lit "http://localhost:3000"));
               (lit "success", VStr (lit "yes")); (lit "reason", VStr []);
               (lit "error", VStr []); (lit "steps", VArr [])]
              eq_refl eq_refl)
    as (r & w' & Hrun & _ & Hreason & Herror & Hsuccess & _ & _ & _ & Hviolations
        & Hsteps & _ & Hurl & _ & Hduration).
  exists r, w'. split; [exact Hrun|].
  destruct (Hsuccess eq_refl) as [Hs Hp].
  repeat split;
    [exact Hs | exact Hp | exact (Hreason eq_refl) | exact (Herror eq_refl)
     | exact (Hsteps eq_refl) | exact (Hviolations eq_refl) | exact Hurl
     | exact Hduration].
Defined.

(** [success: 0] is recorded as [false]; [success: 1] stays the number 1
    and counts as a pass. *)
Example numeric_success :
  (exists w, runSingleTest JsonRef.JSON_parse (Sample.numeric_agent "0") Sample.home
               (lit "openai") (lit "sk-test") true VNull 0 None None initial_world
             = (Ok (mkTestResult (url Sample.home) (goal Sample.home) (VBool false)
                      VNull VNull (VArr []) (VArr []) 800), w))
  /\ (exists w, runSingleTest JsonRef.JSON_parse (Sample.numeric_agent "1") Sample.home
                  (lit "openai") (lit "sk-test") true VNull 0 None None initial_world
                = (Ok (mkTestResult (url Sample.home) (goal Sample.home)
                         (VNum (Number_of_nat 1)) VNull VNull (VArr []) (VArr [])
                         800), w))
  /\ passed (mkTestResult (url Sample.home) (goal Sample.home)
               (VNum (Number_of_nat 1)) VNull VNull (VArr []) (VArr []) 800) = true.
Proof. repeat split; eexists; vm_compute; reflexivity. Qed.

(* ===================================================================== *)
(** * The orchestration loop *)
(* ===================================================================== *)

Ltac live_done :=
  do 2 eexists; repeat split; simpl; eauto; try contradiction.

Ltac run_monad :=
  unfold bind, info, warning, error_log, debug, log, lift, ret, setOutput,
         setFailed, try_catch; simpl.

Lemma omap_cons_inv {A B} (f : A -> outcome B) (x : A) (xs : list A) (ys : list B) :
  omap f (x :: xs) = Ok ys ->
  exists y ys', f x = Ok y /\ omap f xs = Ok ys' /\ ys = y :: ys'.
Proof.
  simpl. destruct (f x) as [y|e]; simpl; [|discriminate].
  destruct (omap f xs) as [ys'|e]; simpl; [|discriminate].
  intros [= <-]. now exists y, ys'.
Qed.

Lemma omap_length {A B} (f : A -> outcome B) (xs : list A) (ys : list B) :
  omap f xs = Ok ys -> List.length ys = List.length xs.
Proof.
  revert ys. induction xs as [|x xs IH]; intros ys H.
  - now injection H as <-.
  - apply omap_cons_inv in H. destruct H as (y & ys' & _ & H & ->).
    simpl. now rewrite (IH _ H).
Qed.

Lemma as_config_inv (t : value) (c : TestConfig) :
  as_config t = Ok c -> get t "url" = Ok (url c) /\ get t "goal" = Ok (goal c).
Proof.
  unfold as_config.
  destruct (get t "url") as [u|e]; simpl; [|discriminate].
  destruct (get t "goal") as [g|e]; simpl; [|discriminate].
  now intros [= <-].
Qed.

Section LoopFacts.

Variable JSON_parse : jsstring -> outcome value.
Variable agent : nat -> exec_request -> proc_outcome.
Variable cfg : settings.
Variable liveTestRunId : value.

Let all := allResults JSON_parse agent cfg liveTestRunId.

Lemma testLoop_returns (total : nat) (rest : list value) :
  forall (configs : list TestConfig) (i : nat) (acc : list TestResult)
         (hasFailure : bool) (w : world),
    omap as_config rest = Ok configs ->
    exists w',
      testLoop JSON_parse agent cfg liveTestRunId total rest i acc hasFailure w
      = (Ok (acc ++ appended cfg (all i configs),
             hasFailure || anyFailed (appended cfg (all i configs))), w')
      /\ outputs w' = outputs w /\ failed w' = failed w.
Proof.
  induction rest as [|test rest IH]; intros configs i acc hasFailure w Hcfg.
  - injection Hcfg as <-. exists w. unfold appended, all. simpl.
    destruct (continueOnFailure cfg); simpl; now rewrite app_nil_r, orb_false_r.
  - apply omap_cons_inv in Hcfg. destruct Hcfg as (c & cs & Hc & Hcs & ->).
    apply as_config_inv in Hc. destruct Hc as [Hurl Hgoal].
    simpl testLoop. run_monad. rewrite Hurl. simpl. rewrite Hgoal. simpl.
    destruct c as [u g]; simpl in *.
    match goal with |- context [runSingleTest ?a ?b ?c ?d ?e ?f ?g ?h ?i ?j ?w0] =>
      destruct (runSingleTest_returns a b c d e f g h i j w0) as (w1 & -> & Ho & Hf)
    end.
    simpl in Ho, Hf.
    fold (resultAt JSON_parse agent cfg liveTestRunId i (mkTestConfig u g)).
    set (r := resultAt JSON_parse agent cfg liveTestRunId i (mkTestConfig u g)).
    unfold all. simpl allResults. fold r. fold all.
    destruct (truthy (success r)) eqn:Hpass;
      assert (Hp : passed r = truthy (success r)) by reflexivity;
      rewrite Hpass in Hp.
    + destruct (IH cs (S i) (acc ++ [r]) hasFailure
                  (mkWorld ((logs w1 ++ [LInfo [Txt "PASSED: ";
                       Val (js_or (reason r) (VStr (lit "Test completed successfully")))]])
                            ++ [LInfo []]) (outputs w1) (failed w1)) Hcs)
        as (w' & -> & Ho' & Hf').
      exists w'. simpl in Ho', Hf'. split; [|split; congruence].
      unfold appended, anyFailed.
      destruct (continueOnFailure cfg); simpl; rewrite ?Hp; simpl; rewrite ?Hp;
        simpl; rewrite <- app_assoc; reflexivity.
    + destruct (continueOnFailure cfg) eqn:Hcont; simpl.
      * destruct (IH cs (S i) (acc ++ [r]) true
                    (mkWorld ((logs w1 ++ [LError [Txt "FAILED: ";
                         Val (js_or (error r)
                                (js_or (reason r) (VStr (lit "Test did not pass"))))]])
                              ++ [LInfo []]) (outputs w1) (failed w1)) Hcs)
          as (w' & -> & Ho' & Hf').
        exists w'. simpl in Ho', Hf'. split; [|split; congruence].
        unfold appended, anyFailed. rewrite Hcont. simpl. rewrite Hp. simpl.
        rewrite <- app_assoc, orb_true_r. reflexivity.
      * eexists. split.
        -- unfold appended, anyFailed. rewrite Hcont. simpl. rewrite Hp. simpl.
           rewrite Hp. simpl. rewrite orb_true_r. reflexivity.
        -- split; simpl; assumption.
Qed.

End LoopFacts.

(** ** What a sequence cut after its first failure looks like *)

Lemma upToFirstFailure_prefix (rs : list TestResult) :
  upToFirstFailure rs = firstn (List.length (upToFirstFailure rs)) rs.
Proof.
  induction rs as [|r rs IH]; simpl; [reflexivity|].
  destruct (passed r); simpl; [now rewrite <- IH | reflexivity].
Qed.

Lemma upToFirstFailure_length (rs : list TestResult) :
  List.length (upToFirstFailure rs) <= List.length rs.
Proof.
  induction rs as [|r rs IH]; simpl; [lia|].
  destruct (passed r); simpl; lia.
Qed.

(** A cut sequence that is shorter ends in the failure that cut it. *)
Lemma upToFirstFailure_short (rs : list TestResult) :
  List.length (upToFirstFailure rs) < List.length rs ->
  exists earlier r, upToFirstFailure rs = earlier ++ [r]
                    /\ passed r = false /\ forallb passed earlier = true.
Proof.
  induction rs as [|r rs IH]; simpl; [lia|].
  destruct (passed r) eqn:Hp; simpl; intros Hlen.
  - destruct IH as (earlier & r' & -> & Hr' & Hall); [lia|].
    exists (r :: earlier), r'. simpl. now rewrite Hp.
  - now exists [], r.
Qed.

(** Nothing follows a failure in a cut sequence. *)
Lemma upToFirstFailure_failure_last (rs earlier later : list TestResult)
    (r : TestResult) :
  upToFirstFailure rs = earlier ++ r :: later -> passed r = false -> later = [].
Proof.
  revert earlier. induction rs as [|r0 rs IH]; simpl; intros earlier H Hr.
  - now destruct earlier.
  - destruct (passed r0) eqn:Hp0.
    + destruct earlier as [|e earlier]; simpl in H; injection H as <- H.
      * congruence.
      * now apply (IH earlier).
    + destruct earlier as [|e earlier]; simpl in H; injection H as <- H.
      * now subst.
      * now destruct earlier.
Qed.

Lemma allResults_length JSON_parse agent cfg live (i : nat) (configs : list TestConfig) :
  List.length (allResults JSON_parse agent cfg live i configs) = List.length configs.
Proof.
  revert i. induction configs as [|c cs IH]; intros i; simpl; [reflexivity|].
  now rewrite IH.
Qed.

Lemma allResults_nth JSON_parse agent cfg live (configs : list TestConfig) :
  forall (i k : nat) (r : TestResult),
    nth_error (allResults JSON_parse agent cfg live i configs) k = Some r ->
    exists c, nth_error configs k = Some c
              /\ r = resultAt JSON_parse agent cfg live (i + k) c.
Proof.
  induction configs as [|c cs IH]; intros i k r; simpl.
  - now destruct k.
  - destruct k as [|k]; simpl.
    + intros [= <-]. exists c. now rewrite Nat.add_0_r.
    + intros H. destruct (IH (S i) k r H) as (c' & Hc' & ->).
      exists c'. split; [assumption|]. f_equal. lia.
Qed.

Lemma nth_error_firstn_some {A} (l : list A) (n k : nat) (x : A) :
  nth_error (firstn n l) k = Some x -> nth_error l k = Some x.
Proof.
  revert n k. induction l as [|a l IH]; intros n k.
  - now rewrite firstn_nil.
  - destruct n as [|n]; simpl; [now destruct k|].
    destruct k as [|k]; simpl; [trivial | apply IH].
Qed.

Lemma appended_prefix cfg (rs : list TestResult) :
  appended cfg rs = firstn (List.length (appended cfg rs)) rs.
Proof.
  unfold appended. destruct (continueOnFailure cfg).
  - now rewrite firstn_all.
  - apply upToFirstFailure_prefix.
Qed.

Lemma appended_length cfg (rs : list TestResult) :
  List.length (appended cfg rs) <= List.length rs.
Proof.
  unfold appended. destruct (continueOnFailure cfg);
    [lia | apply upToFirstFailure_length].
Qed.

(** C4: on a configuration of N test cases the loop returns a prefix of the
    sequence of the executor's results for test cases 0, 1, ..., N-1:
    result [i] is the result of test case [i] and carries its url and goal;
    the prefix is shorter than N only when continue-on-failure is false, and
    then its last result is a failure and all before it passed; with
    continue-on-failure false nothing is ever appended after a failure. *)
Theorem C4_results_follow_test_order :
  forall JSON_parse agent (cfg : settings) (liveTestRunId : value)
         (tests : list value) (configs : list TestConfig) (w : world),
    omap as_config tests = Ok configs ->
    exists results hasFailure w',
      testLoop JSON_parse agent cfg liveTestRunId (List.length tests) tests 0
               [] false w = (Ok (results, hasFailure), w')
      /\ results = firstn (List.length results)
                     (allResults JSON_parse agent cfg liveTestRunId 0 configs)
      /\ List.length results <= List.length tests
      /\ (forall i r, nth_error results i = Some r ->
            exists c, nth_error configs i = Some c
                      /\ r = resultAt JSON_parse agent cfg liveTestRunId i c
                      /\ result_url r = url c /\ result_goal r = goal c)
      /\ (List.length results < List.length tests ->
            continueOnFailure cfg = false
            /\ exists earlier r, results = earlier ++ [r]
                                 /\ passed r = false
                                 /\ forallb passed earlier = true)
      /\ (continueOnFailure cfg = false ->
            forall earlier r later,
              results = earlier ++ r :: later -> passed r = false -> later = [])
      /\ (continueOnFailure cfg = true -> List.length results = List.length tests).
Proof.
  intros JSON_parse agent cfg live tests configs w Hcfg.
  destruct (testLoop_returns JSON_parse agent cfg live (List.length tests) tests
              configs 0 [] false w Hcfg) as (w' & Hrun & _).
  simpl in Hrun.
  set (all := allResults JSON_parse agent cfg live 0 configs) in *.
  assert (Hlen : List.length all = List.length tests).
  { unfold all. now rewrite allResults_length, (omap_length _ _ _ Hcfg). }
  exists (appended cfg all), (anyFailed (appended cfg all)), w'.
  split; [exact Hrun|]. split; [apply appended_prefix|].
  split; [rewrite <- Hlen; apply appended_length|].
  split; [|split; [|split]].
  - intros i r Hi. rewrite appended_prefix in Hi.
    apply nth_error_firstn_some in Hi.
    destruct (allResults_nth _ _ _ _ _ _ _ _ Hi) as (c & Hc & ->).
    exists c. simpl. repeat split; trivial; apply singleResult_config.
  - rewrite <- Hlen. unfold appended.
    destruct (continueOnFailure cfg); [lia|].
    intros Hshort. split; [reflexivity|]. now apply upToFirstFailure_short.
  - unfold appended. intros -> earlier r later.
    apply upToFirstFailure_failure_last.
  - unfold appended. intros ->. exact Hlen.
Qed.

(* ===================================================================== *)
(** * The live reporter and the rest of [run] *)
(* ===================================================================== *)

Section RunFacts.

Variable JSON_parse : jsstring -> outcome value.
Variable Number_toString : number -> jsstring.
Variable agent : nat -> exec_request -> proc_outcome.
Variable fetch : http_request -> outcome http_response.
Variable github_context : outcome gh_context.
Variable totalDuration : Z.

(** [startLiveRun] returns, whatever happens inside its [try]; when the
    start endpoint is unavailable it returns [null] and the one thing it
    does to the world is a warning. *)
Lemma startLiveRun_returns (dashboardUrl apiKey : jsstring) (tests : list value)
    (w : world) :
  exists v w',
    startLiveRun fetch github_context dashboardUrl apiKey tests w = (Ok v, w')
    /\ outputs w' = outputs w /\ failed w' = failed w
    /\ (unavailable fetch (startEndpoint dashboardUrl) apiKey ->
        v = VNull /\ exists m, logs w' = logs w ++ [LWarning m]).
Proof.
  unfold startLiveRun. run_monad.
  destruct github_context as [context|e]; simpl;
    [|live_done].
  destruct (omap as_config tests) as [ts|e]; simpl;
    [|live_done].
  destruct (fetch (mkRequest (startEndpoint dashboardUrl) apiKey
                     (StartBody context (List.length tests) ts)))
    as [response|e] eqn:Hfetch; simpl;
    [|live_done].
  destruct (ok response) eqn:Hok; simpl;
    [|live_done].
  assert (Hav : ~ unavailable fetch (startEndpoint dashboardUrl) apiKey).
  { intros Hun. specialize (Hun (StartBody context (List.length tests) ts)).
    rewrite Hfetch in Hun. congruence. }
  destruct (json response) as [data|e]; simpl;
    [|live_done].
  destruct (get data "testRunId") as [id|e]; simpl;
    live_done.
Qed.

(** [completeLiveRun] returns as well: the viewer URL, a non-empty string,
    or [null] after a warning; [null] whenever the complete endpoint is
    unavailable. *)
Lemma completeLiveRun_returns (dashboardUrl apiKey : jsstring) (testRunId : value)
    (results : list TestResult) (w : world) :
  exists v w',
    completeLiveRun Number_toString fetch dashboardUrl apiKey testRunId results
                    totalDuration w = (Ok v, w')
    /\ outputs w' = outputs w /\ failed w' = failed w
    /\ (v = VNull /\ (exists m, logs w' = logs w ++ [LWarning m])
        \/ v = VStr (viewerUrl dashboardUrl (ToString Number_toString testRunId))
           /\ w' = w)
    /\ (unavailable fetch (completeEndpoint dashboardUrl) apiKey -> v = VNull).
Proof.
  unfold completeLiveRun. run_monad.
  destruct (fetch (mkRequest (completeEndpoint dashboardUrl) apiKey
                     (CompleteBody testRunId results totalDuration)))
    as [response|e] eqn:Hfetch; simpl;
    [|live_done].
  destruct (ok response) eqn:Hok; simpl;
    [|live_done].
  do 2 eexists. repeat split; simpl; eauto.
  intros Hun. specialize (Hun (CompleteBody testRunId results totalDuration)).
  rewrite Hfetch in Hun. congruence.
Qed.

Variable cfg : settings.

Lemma openLiveRun_returns (tests : list value) (w : world) :
  exists live w',
    openLiveRun fetch github_context cfg tests w = (Ok live, w')
    /\ outputs w' = outputs w /\ failed w' = failed w
    /\ (is_empty (dashboardUrl cfg) = true \/ is_empty (dashboardApiKey cfg) = true
        \/ unavailable fetch (startEndpoint (dashboardUrl cfg)) (dashboardApiKey cfg)
        -> live = VNull).
Proof.
  unfold openLiveRun.
  destruct (is_empty (dashboardUrl cfg)) eqn:Hu; simpl;
    [exists VNull, w; repeat split; auto|].
  destruct (is_empty (dashboardApiKey cfg)) eqn:Hk; simpl;
    [exists VNull, w; repeat split; auto|].
  destruct (startLiveRun_returns (dashboardUrl cfg) (dashboardApiKey cfg) tests w)
    as (v & w1 & Hstart & Ho & Hf & Hnull).
  unfold bind at 1. rewrite Hstart.
  destruct (truthy v) eqn:Hv; run_monad; do 2 eexists;
    (split; [reflexivity|]); simpl; repeat split; auto;
    intros [H|[H|H]]; try discriminate; now apply Hnull.
Qed.

Lemma closeLiveRun_returns (live : value) (results : list TestResult) (w : world) :
  exists url w',
    closeLiveRun Number_toString fetch totalDuration cfg live results w = (Ok url, w')
    /\ outputs w' = outputs w /\ failed w' = failed w
    /\ (truthy live = false
        \/ unavailable fetch (completeEndpoint (dashboardUrl cfg)) (dashboardApiKey cfg)
        -> url = VNull).
Proof.
  unfold closeLiveRun.
  destruct (truthy live) eqn:Hl; simpl;
    [|exists VNull, w; repeat split; auto].
  destruct (is_empty (dashboardUrl cfg)) eqn:Hu; simpl;
    [exists VNull, w; repeat split; auto|].
  destruct (is_empty (dashboardApiKey cfg)) eqn:Hk; simpl;
    [exists VNull, w; repeat split; auto|].
  destruct (completeLiveRun_returns (dashboardUrl cfg) (dashboardApiKey cfg) live
              results w) as (v & w' & Hc & Ho & Hf & _ & Hnull).
  exists v, w'. repeat split; auto.
  intros [H|H]; [discriminate | now apply Hnull].
Qed.

(** [report] sets the five summary outputs, the dashboard URL when there
    is one, and the failed status when [hasFailure] is set. *)
Lemma report_returns (results : list TestResult) (hasFailure : bool)
    (dashboardResultsUrl : value) (w : world) :
  exists w',
    report Number_toString totalDuration results hasFailure dashboardResultsUrl w
    = (Ok tt, w')
    /\ outputs w' = outputs w ++ summary_outputs Number_toString results
                    ++ (if truthy dashboardResultsUrl
                        then [("dashboard-url"%string,
                               OutStr (ToString Number_toString dashboardResultsUrl))]
                        else [])
    /\ failed w' = if hasFailure
                   then Some (failure_message
                                (List.length results
                                 - List.length (filter passed results))
                                (List.length results))
                   else failed w.
Proof.
  unfold report. run_monad.
  destruct (truthy dashboardResultsUrl), hasFailure; simpl;
    eexists; (split; [reflexivity|]); simpl; split; try reflexivity;
    now rewrite <- ?app_assoc.
Qed.

(** Lines 306-420 on a configuration of test cases: the run gets to its
    end, with the live run id and the results URL it went through. *)
Lemma runTests_returns (tests : list value) (configs : list TestConfig) (w : world) :
  omap as_config tests = Ok configs ->
  exists live url w',
    let results := appended cfg (allResults JSON_parse agent cfg live 0 configs) in
    runTests JSON_parse Number_toString agent fetch github_context totalDuration
             cfg tests w = (Ok tt, w')
    /\ outputs w' = outputs w ++ summary_outputs Number_toString results
                    ++ (if truthy url
                        then [("dashboard-url"%string,
                               OutStr (ToString Number_toString url))]
                        else [])
    /\ failed w' = (if anyFailed results
                    then Some (failure_message
                                 (List.length results
                                  - List.length (filter passed results))
                                 (List.length results))
                    else failed w)
    /\ (is_empty (dashboardUrl cfg) = true \/ is_empty (dashboardApiKey cfg) = true
        \/ unavailable fetch (startEndpoint (dashboardUrl cfg)) (dashboardApiKey cfg)
        -> live = VNull)
    /\ (truthy live = false
        \/ unavailable fetch (completeEndpoint (dashboardUrl cfg)) (dashboardApiKey cfg)
        -> url = VNull).
Proof.
  intros Hcfg. unfold runTests. run_monad.
  match goal with |- context [openLiveRun _ _ _ _ ?w0] =>
    destruct (openLiveRun_returns tests w0) as (live & w1 & -> & Ho1 & Hf1 & Hlive)
  end.
  destruct (testLoop_returns JSON_parse agent cfg live (List.length tests) tests
              configs 0 [] false w1 Hcfg) as (w2 & -> & Ho2 & Hf2).
  simpl.
  set (results := appended cfg (allResults JSON_parse agent cfg live 0 configs)).
  destruct (closeLiveRun_returns live results w2) as (url & w3 & -> & Ho3 & Hf3 & Hurl).
  destruct (report_returns results (anyFailed results) url w3)
    as (w4 & -> & Ho4 & Hf4).
  exists live, url, w4. simpl in *. fold results.
  split; [reflexivity|]. split; [congruence|]. split; [|split; assumption].
  rewrite Hf4. destruct (anyFailed results); congruence.
Qed.

End RunFacts.

Lemma upToFirstFailure_In (rs : list TestResult) (r : TestResult) :
  In r (upToFirstFailure rs) -> In r rs.
Proof.
  induction rs as [|r0 rs IH]; simpl; [trivial|].
  destruct (passed r0); simpl; intros [H|H]; auto; contradiction.
Qed.

Lemma appended_In cfg (rs : list TestResult) (r : TestResult) :
  In r (appended cfg rs) -> In r rs.
Proof.
  unfold appended. destruct (continueOnFailure cfg);
    [trivial | apply upToFirstFailure_In].
Qed.

(** A result of the loop that did not pass has [success = false]. *)
Lemma allResults_success JSON_parse agent cfg live (configs : list TestConfig) :
  forall (i : nat) (r : TestResult),
    In r (allResults JSON_parse agent cfg live i configs) ->
    passed r = false -> success r = VBool false.
Proof.
  induction configs as [|c cs IH]; intros i r; simpl; [contradiction|].
  intros [<-|Hin]; [apply singleResult_success | now apply (IH (S i))].
Qed.

Lemma anyFailed_iff (rs : list TestResult) :
  anyFailed rs = true <-> exists r, In r rs /\ passed r = false.
Proof.
  unfold anyFailed. rewrite existsb_exists.
  split; intros (r & Hin & H); exists r; split; trivial;
    now destruct (passed r).
Qed.

Lemma output_set_app (name : string) (w : world) (extra : list (string * output_value))
    (w' : world) :
  outputs w' = outputs w ++ extra ->
  output_set name w'
  = output_set name w || existsb (fun o => String.eqb (fst o) name) extra.
Proof. unfold output_set. intros ->. apply existsb_app. Qed.

Lemma resultAt_without_dashboard JSON_parse agent cfg (i : nat) (c : TestConfig) :
  resultAt JSON_parse agent (without_dashboard cfg) VNull i c
  = resultAt JSON_parse agent cfg VNull i c.
Proof. reflexivity. Qed.

Lemma allResults_without_dashboard JSON_parse agent cfg (configs : list TestConfig) :
  forall i, allResults JSON_parse agent (without_dashboard cfg) VNull i configs
            = allResults JSON_parse agent cfg VNull i configs.
Proof.
  induction configs as [|c cs IH]; intros i; simpl; [reflexivity|].
  now rewrite IH, resultAt_without_dashboard.
Qed.

(** C5: on a configuration of test cases the run gets past the loop and
    reports; it sets the failed status exactly when one of the results it
    produced has [success = false], with the message
    "<failed> out of <total> accessibility tests failed" in which total is
    the number of results produced and failed is total minus the number of
    passed ones; otherwise the status stays as it was, not failed. *)
Theorem C5_failed_status_iff_a_test_failed :
  forall JSON_parse Number_toString agent fetch github_context totalDuration
         (cfg : settings) (tests : list value) (configs : list TestConfig)
         (w : world),
    omap as_config tests = Ok configs ->
    failed w = None ->
    exists results w',
      runTests JSON_parse Number_toString agent fetch github_context totalDuration
               cfg tests w = (Ok tt, w')
      /\ In ("results-json"%string, OutResultsJson results) (outputs w')
      /\ List.length results <= List.length tests
      /\ ((exists r, In r results /\ success r = VBool false) <-> failed w' <> None)
      /\ ((exists r, In r results /\ success r = VBool false) ->
            failed w'
            = Some (nat_toString (List.length results
                                  - List.length (filter passed results))
                    ++ lit " out of " ++ nat_toString (List.length results)
                    ++ lit " accessibility tests failed"))
      /\ (~ (exists r, In r results /\ success r = VBool false) -> failed w' = None).
Proof.
  intros JSON_parse Number_toString agent fetch github_context totalDuration cfg
         tests configs w Hcfg Hw.
  destruct (runTests_returns JSON_parse Number_toString agent fetch github_context
              totalDuration cfg tests configs w Hcfg)
    as (live & url & w' & Hrun & Hout & Hfail & _).
  set (all := allResults JSON_parse agent cfg live 0 configs) in *.
  set (results := appended cfg all) in *.
  assert (Hiff : (exists r, In r results /\ success r = VBool false)
                 <-> anyFailed results = true).
  { rewrite anyFailed_iff. split; intros (r & Hin & H); exists r; split; trivial.
    - unfold passed. now rewrite H.
    - apply (allResults_success JSON_parse agent cfg live configs 0); trivial.
      now apply (appended_In cfg). }
  exists results, w'. split; [exact Hrun|]. split; [|split; [|split; [|split]]].
  - rewrite Hout. apply in_or_app. right. apply in_or_app. left.
    unfold summary_outputs. simpl. auto 6.
  - unfold results. rewrite <- (omap_length _ _ _ Hcfg).
    rewrite <- (allResults_length JSON_parse agent cfg live 0 configs).
    apply appended_length.
  - rewrite Hiff, Hfail, Hw. destruct (anyFailed results); split; congruence.
  - rewrite Hiff, Hfail. intros ->. reflexivity.
  - rewrite Hiff, Hfail, Hw. now destruct (anyFailed results).
Qed.

(** C7: neither dashboard call throws. [startLiveRun] and
    [completeLiveRun] return for every dashboard URL, key and argument;
    when the endpoint answers with a transport error or a non-OK status
    they return [null] after one warning. A run whose start call came back
    that way goes on to its end with the outputs and the status of the
    same run without a dashboard, and a run whose start or complete call
    came back that way does not set the [dashboard-url] output. *)
Theorem C7_live_reporting_never_aborts :
  forall JSON_parse Number_toString agent fetch github_context totalDuration,
    (forall dashboardUrl apiKey tests w,
       exists v w',
         startLiveRun fetch github_context dashboardUrl apiKey tests w = (Ok v, w')
         /\ (unavailable fetch (startEndpoint dashboardUrl) apiKey ->
             v = VNull /\ exists m, logs w' = logs w ++ [LWarning m]))
    /\ (forall dashboardUrl apiKey testRunId results w,
          exists v w',
            completeLiveRun Number_toString fetch dashboardUrl apiKey testRunId
                            results totalDuration w = (Ok v, w')
            /\ (unavailable fetch (completeEndpoint dashboardUrl) apiKey ->
                v = VNull /\ exists m, logs w' = logs w ++ [LWarning m]))
    /\ (forall cfg tests configs w,
          omap as_config tests = Ok configs ->
          unavailable fetch (startEndpoint (dashboardUrl cfg)) (dashboardApiKey cfg) ->
          exists w' w0,
            runTests JSON_parse Number_toString agent fetch github_context
                     totalDuration cfg tests w = (Ok tt, w')
            /\ runTests JSON_parse Number_toString agent fetch github_context
                        totalDuration (without_dashboard cfg) tests w = (Ok tt, w0)
            /\ outputs w' = outputs w0 /\ failed w' = failed w0
            /\ output_set "dashboard-url" w' = output_set "dashboard-url" w)
    /\ (forall cfg tests configs w,
          omap as_config tests = Ok configs ->
          unavailable fetch (completeEndpoint (dashboardUrl cfg)) (dashboardApiKey cfg) ->
          exists w',
            runTests JSON_parse Number_toString agent fetch github_context
                     totalDuration cfg tests w = (Ok tt, w')
            /\ output_set "dashboard-url" w' = output_set "dashboard-url" w).
Proof.
  intros JSON_parse Number_toString agent fetch github_context totalDuration.
  split; [|split; [|split]].
  - intros u k tests w.
    destruct (startLiveRun_returns fetch github_context u k tests w)
      as (v & w' & Hrun & _ & _ & Hnull).
    now exists v, w'.
  - intros u k id results w.
    destruct (completeLiveRun_returns Number_toString fetch totalDuration u k id
                results w) as (v & w' & Hrun & _ & _ & Hcases & Hnull).
    exists v, w'. split; [exact Hrun|]. intros Hun.
    specialize (Hnull Hun). split; [exact Hnull|].
    destruct Hcases as [[_ Hm]|[Hv _]]; [exact Hm | congruence].
  - intros cfg tests configs w Hcfg Hun.
    destruct (runTests_returns JSON_parse Number_toString agent fetch github_context
                totalDuration cfg tests configs w Hcfg)
      as (live & url & w' & Hrun & Hout & Hfail & Hlive & Hurl).
    destruct (runTests_returns JSON_parse Number_toString agent fetch github_context
                totalDuration (without_dashboard cfg) tests configs w Hcfg)
      as (live0 & url0 & w0 & Hrun0 & Hout0 & Hfail0 & Hlive0 & Hurl0).
    assert (live = VNull) as -> by (apply Hlive; auto).
    assert (live0 = VNull) as -> by (apply Hlive0; left; reflexivity).
    assert (url = VNull) as -> by (apply Hurl; left; reflexivity).
    assert (url0 = VNull) as -> by (apply Hurl0; left; reflexivity).
    rewrite allResults_without_dashboard in Hout0, Hfail0.
    change (appended (without_dashboard cfg)) with (appended cfg) in Hout0, Hfail0.
    exists w', w0. split; [exact Hrun|]. split; [exact Hrun0|].
    split; [congruence|]. split; [congruence|].
    rewrite (output_set_app "dashboard-url" w _ w' Hout). simpl.
    apply orb_false_r.
  - intros cfg tests configs w Hcfg Hun.
    destruct (runTests_returns JSON_parse Number_toString agent fetch github_context
                totalDuration cfg tests configs w Hcfg)
      as (live & url & w' & Hrun & Hout & _ & _ & Hurl).
    assert (url = VNull) as -> by (apply Hurl; auto).
    exists w'. split; [exact Hrun|].
    rewrite (output_set_app "dashboard-url" w _ w' Hout). simpl.
    apply orb_false_r.
Qed.

(* ===================================================================== *)
(** * The extractor on JSON texts *)
(* ===================================================================== *)

Section ExtractorFacts.

Import JsonText.

Lemma neutral_nil : neutral [].
Proof. intros rest i d _. simpl. f_equal. lia. Qed.

Lemma neutral_cons (c : N) (s : jsstring) :
  not_brace c = true -> neutral s -> neutral (c :: s).
Proof.
  unfold not_brace. intros Hc Hs rest i d Hd. simpl.
  apply andb_prop in Hc. destruct Hc as [Hl Hr].
  apply negb_true_iff in Hl, Hr. rewrite Hl, Hr, (Hs rest (i + 1)%Z d Hd).
  f_equal. lia.
Qed.

Lemma neutral_app (a b : jsstring) : neutral a -> neutral b -> neutral (a ++ b).
Proof.
  intros Ha Hb rest i d Hd.
  rewrite <- app_assoc, (Ha _ _ _ Hd), (Hb _ _ _ Hd), length_app. f_equal. lia.
Qed.

(** Around a neutral text, a pair of braces is neutral. *)
Lemma neutral_braces (s : jsstring) :
  neutral s -> neutral (c_lbrace :: s ++ [c_rbrace]).
Proof.
  intros Hs rest i d Hd. simpl.
  rewrite <- app_assoc, (Hs _ _ (d + 1)%Z) by lia. simpl.
  replace (d + 1 - 1)%Z with d by lia.
  destruct (Z.eqb_spec d 0) as [->|_]; [lia|].
  rewrite length_app. simpl. f_equal. lia.
Qed.

Lemma neutral_forallb (allowed : N -> bool) (s : jsstring) :
  (forall c, allowed c = true -> not_brace c = true) ->
  forallb allowed s = true -> neutral s.
Proof.
  intros Hallowed. induction s as [|c s IH]; simpl; intros H.
  - apply neutral_nil.
  - apply andb_prop in H. destruct H as [Hc Hs].
    apply neutral_cons; auto.
Qed.

Lemma is_ws_not_brace (c : N) : JsonRef.is_ws c = true -> not_brace c = true.
Proof.
  unfold JsonRef.is_ws, not_brace, c_lbrace, c_rbrace. intros H.
  repeat (apply orb_prop in H; destruct H as [H|H]);
    apply N.eqb_eq in H; now subst.
Qed.

Lemma is_digit_not_brace (c : N) : JsonRef.is_digit c = true -> not_brace c = true.
Proof.
  unfold JsonRef.is_digit, not_brace, c_lbrace, c_rbrace. intros H.
  apply andb_prop in H. destruct H as [H1 H2].
  apply N.leb_le in H1, H2.
  apply andb_true_intro. split; apply negb_true_iff, N.eqb_neq; lia.
Qed.

Lemma is_hex_not_brace (c : N) : is_hex c = true -> not_brace c = true.
Proof.
  unfold is_hex, JsonRef.hex_value, not_brace, c_lbrace, c_rbrace.
  destruct (JsonRef.is_digit c) eqn:Hd.
  - intros _. now apply is_digit_not_brace.
  - destruct ((97 <=? c) && (c <=? 102))%N eqn:Hl.
    + intros _. apply andb_prop in Hl. destruct Hl as [H1 H2].
      apply N.leb_le in H1, H2.
      apply andb_true_intro. split; apply negb_true_iff, N.eqb_neq; lia.
    + destruct ((65 <=? c) && (c <=? 70))%N eqn:Hu; [|discriminate].
      intros _. apply andb_prop in Hu. destruct Hu as [H1 H2].
      apply N.leb_le in H1, H2.
      apply andb_true_intro. split; apply negb_true_iff, N.eqb_neq; lia.
Qed.

Lemma is_escape_not_brace (c : N) : is_escape c = true -> not_brace c = true.
Proof.
  unfold is_escape, not_brace, c_lbrace, c_rbrace. intros H.
  repeat (apply orb_prop in H; destruct H as [H|H]);
    apply N.eqb_eq in H; now subst.
Qed.

Lemma ws_neutral (w : jsstring) : ws w -> neutral w.
Proof. apply neutral_forallb, is_ws_not_brace. Qed.

Lemma digits_neutral (ds : jsstring) :
  forallb JsonRef.is_digit ds = true -> neutral ds.
Proof. apply neutral_forallb, is_digit_not_brace. Qed.

Lemma json_number_neutral (s : jsstring) : json_number s -> neutral s.
Proof.
  intros [sign int frac exp Hsign Hint Hfrac Hexp].
  repeat apply neutral_app.
  - destruct Hsign as [->| ->]; [apply neutral_nil|].
    apply neutral_cons; [reflexivity | apply neutral_nil].
  - destruct Hint as [->|(d & ds & -> & Hd & Hds)].
    + apply neutral_cons; [reflexivity | apply neutral_nil].
    + apply neutral_cons; [|now apply digits_neutral].
      apply is_digit_not_brace. unfold JsonRef.is_digit.
      apply andb_true_intro. split; apply N.leb_le; lia.
  - destruct Hfrac as [->|(ds & -> & _ & Hds)]; [apply neutral_nil|].
    apply neutral_cons; [reflexivity | now apply digits_neutral].
  - destruct Hexp as [->|(e & sg & ds & -> & He & Hsg & _ & Hds)];
      [apply neutral_nil|].
    apply neutral_cons; [destruct He as [->| ->]; reflexivity|].
    apply neutral_app; [|now apply digits_neutral].
    destruct Hsg as [->|[->| ->]];
      [apply neutral_nil | |]; (apply neutral_cons; [reflexivity | apply neutral_nil]).
Qed.

Lemma json_chars_neutral (s : jsstring) : json_chars not_brace s -> neutral s.
Proof.
  induction 1 as [|c s _ Hc _ IH|e s He _ IH|h1 h2 h3 h4 s H1 H2 H3 H4 _ IH].
  - apply neutral_nil.
  - now apply neutral_cons.
  - apply neutral_cons; [reflexivity|].
    apply neutral_cons; [now apply is_escape_not_brace | assumption].
  - do 2 (apply neutral_cons; [reflexivity|]).
    repeat (apply neutral_cons; [now apply is_hex_not_brace|]). assumption.
Qed.

Lemma json_string_neutral (s : jsstring) : json_string not_brace s -> neutral s.
Proof.
  intros [chars Hchars]. apply neutral_cons; [reflexivity|].
  apply neutral_app; [now apply json_chars_neutral|].
  apply neutral_cons; [reflexivity | apply neutral_nil].
Qed.

(** The members of an object whose string literals hold no raw brace are
    neutral, by induction over the grammar. *)
Lemma json_members_neutral (ms : jsstring) :
  json_members not_brace ms -> neutral ms.
Proof.
  apply (json_members_mut not_brace neutral neutral neutral neutral neutral);
    intros.
  - repeat (apply neutral_cons; [reflexivity|]). apply neutral_nil.
  - repeat (apply neutral_cons; [reflexivity|]). apply neutral_nil.
  - repeat (apply neutral_cons; [reflexivity|]). apply neutral_nil.
  - now apply json_number_neutral.
  - now apply json_string_neutral.
  - assumption.
  - assumption.
  - apply neutral_cons; [reflexivity|].
    apply neutral_app; [now apply ws_neutral|].
    apply neutral_cons; [reflexivity | apply neutral_nil].
  - apply neutral_cons; [reflexivity|].
    apply neutral_app; [assumption|].
    apply neutral_cons; [reflexivity | apply neutral_nil].
  - repeat apply neutral_app; auto using ws_neutral.
  - repeat apply neutral_app; auto using ws_neutral.
    apply neutral_cons; [reflexivity | assumption].
  - now apply neutral_braces, ws_neutral.
  - now apply neutral_braces.
  - repeat apply neutral_app; auto using ws_neutral, json_string_neutral.
    apply neutral_cons; [reflexivity|].
    repeat apply neutral_app; auto using ws_neutral.
  - repeat apply neutral_app; auto using ws_neutral, json_string_neutral.
    apply neutral_cons; [reflexivity|].
    repeat apply neutral_app; auto using ws_neutral.
    apply neutral_cons; [reflexivity | assumption].
Qed.

(** The scan of an object with a neutral inside stops on its closing
    brace. *)
Lemma scanBraces_object (inner post : jsstring) :
  neutral inner ->
  scanBraces ((c_lbrace :: inner ++ [c_rbrace]) ++ post) 0 0
  = Z.of_nat (List.length (c_lbrace :: inner ++ [c_rbrace])).
Proof.
  intros Hinner.
  change (scanBraces ((c_lbrace :: inner ++ [c_rbrace]) ++ post) 0 0)
    with (scanBraces ((inner ++ [c_rbrace]) ++ post) 1 1).
  rewrite <- app_assoc, (Hinner _ _ 1%Z) by lia.
  change (scanBraces ([c_rbrace] ++ post) (1 + Z.of_nat (List.length inner)) 1)
    with (1 + Z.of_nat (List.length inner) + 1)%Z.
  rewrite length_cons, length_app, length_cons, length_nil. lia.
Qed.

(** The anchor does not overlap itself: in front of a text that starts
    with the anchor, an occurrence that starts earlier lies before it. *)
Lemma startsWith_before_anchor (s rest : jsstring) :
  s <> [] -> startsWith s anchor = false ->
  startsWith (s ++ anchor ++ rest) anchor = false.
Proof.
  intros Hne H.
  destruct s as [|c1 [|c2 [|c3 [|c4 [|c5 [|c6 s]]]]]]; [congruence|..];
    simpl in *;
    repeat match goal with
           | |- context [N.eqb ?a ?b] => destruct (N.eqb a b); simpl in *
           end; congruence.
Qed.

Lemma indexOf_from_here (needle s : jsstring) (i : Z) :
  startsWith s needle = true -> indexOf_from needle s i = i.
Proof. intros H. destruct s; cbn [indexOf_from]; now rewrite H. Qed.

Lemma indexOf_from_absent (s : jsstring) (i : Z) :
  (0 <= i)%Z -> indexOf_from anchor s i = (-1)%Z ->
  startsWith s anchor = false
  /\ forall c s', s = c :: s' -> indexOf_from anchor s' (i + 1) = (-1)%Z.
Proof.
  intros Hi H. destruct s as [|c s].
  - split; [reflexivity | discriminate].
  - cbn [indexOf_from] in H.
    destruct (startsWith (c :: s) anchor) eqn:E; [lia|].
    split; [reflexivity|]. now intros c' s' [= <- <-].
Qed.

(** With no anchor in the noise before it, a text that starts with the
    anchor is where [indexOf] finds the anchor. *)
Lemma indexOf_after_noise (pre rest : jsstring) :
  forall i, (0 <= i)%Z -> indexOf_from anchor pre i = (-1)%Z ->
            indexOf_from anchor (pre ++ anchor ++ rest) i
            = (i + Z.of_nat (List.length pre))%Z.
Proof.
  induction pre as [|c pre IH]; intros i Hi H.
  - change ([] ++ anchor ++ rest) with (anchor ++ rest).
    rewrite indexOf_from_here by apply startsWith_app.
    rewrite length_nil. lia.
  - destruct (indexOf_from_absent _ _ Hi H) as [Hs Hrest].
    change ((c :: pre) ++ anchor ++ rest) with (c :: (pre ++ anchor ++ rest)).
    cbn [indexOf_from].
    change (c :: pre ++ anchor ++ rest) with ((c :: pre) ++ anchor ++ rest).
    rewrite startsWith_before_anchor by (trivial; discriminate).
    rewrite IH by (try lia; now apply (Hrest c pre)).
    rewrite length_cons. lia.
Qed.

Lemma skipn_length_app {A} (a b : list A) : skipn (List.length a) (a ++ b) = b.
Proof. induction a as [|x a IH]; simpl; auto. Qed.

Lemma firstn_length_app {A} (a b : list A) : firstn (List.length a) (a ++ b) = a.
Proof. induction a as [|x a IH]; simpl; [reflexivity | now rewrite IH]. Qed.

Lemma startsWith_split (s p : jsstring) :
  startsWith s p = true -> exists rest, s = p ++ rest.
Proof.
  revert s. induction p as [|c p IH]; intros s; simpl.
  - now exists s.
  - destruct s as [|x s]; [discriminate|].
    intros H. apply andb_prop in H. destruct H as [Hx Hs].
    apply N.eqb_eq in Hx. subst x.
    destruct (IH _ Hs) as [rest ->]. now exists rest.
Qed.

(** The extractor on noise, a text with a neutral inside between braces
    that starts with the anchor, and more noise. *)
Lemma extractJson_neutral_object (pre inner post : jsstring) :
  indexOf pre anchor = (-1)%Z ->
  neutral inner ->
  startsWith (c_lbrace :: inner ++ [c_rbrace]) anchor = true ->
  extractJson (pre ++ (c_lbrace :: inner ++ [c_rbrace]) ++ post)
  = Some (c_lbrace :: inner ++ [c_rbrace]).
Proof.
  intros Hpre Hinner Hanchor.
  destruct (startsWith_split _ _ Hanchor) as [tail Htail].
  unfold extractJson, indexOf.
  assert (Hidx : indexOf_from anchor
                   (pre ++ (c_lbrace :: inner ++ [c_rbrace]) ++ post) 0
                 = Z.of_nat (List.length pre)).
  { rewrite Htail, <- app_assoc. now rewrite indexOf_after_noise. }
  rewrite Hidx.
  destruct (Z.geb_spec (Z.of_nat (List.length pre)) 0) as [_|]; [|lia].
  unfold substring_from, substring_to.
  rewrite Nat2Z.id, skipn_length_app, (scanBraces_object inner post Hinner).
  destruct (Z.gtb_spec (Z.of_nat (List.length (c_lbrace :: inner ++ [c_rbrace]))) 0)
    as [_|Hle]; [|rewrite length_cons in Hle; lia].
  now rewrite Nat2Z.id, firstn_length_app.
Qed.

End ExtractorFacts.

Ltac json_chars_done :=
  repeat first [ apply JsonText.chars_nil
               | apply JsonText.chars_plain; [reflexivity | reflexivity |] ].

(** A well-formed object whose [reason] holds a closing brace. *)
Lemma unbalanced_reason_is_json :
  JsonText.json_object JsonText.any_char
    (quoted "{'url':'http://x','reason':'no label on }'}").
Proof.
  apply (JsonText.object_members JsonText.any_char
           (quoted "'url':'http://x','reason':'no label on }'")).
  apply (JsonText.members_more JsonText.any_char
           [] (quoted "'url'") [] [] (quoted "'http://x'") []
           (quoted "'reason':'no label on }'")); try reflexivity.
  - apply (JsonText.string_intro _ (lit "url")). json_chars_done.
  - apply JsonText.value_string.
    apply (JsonText.string_intro _ (lit "http://x")). json_chars_done.
  - apply (JsonText.members_last JsonText.any_char
             [] (quoted "'reason'") [] [] (quoted "'no label on }'") []);
      try reflexivity.
    + apply (JsonText.string_intro _ (lit "reason")). json_chars_done.
    + apply JsonText.value_string.
      apply (JsonText.string_intro _ (lit "no label on }")). json_chars_done.
Qed.

(** A flat object without a brace in its strings. *)
Lemma flat_payload_is_json :
  JsonText.json_object JsonText.not_brace (quoted "{'url':'http://x'}").
Proof.
  apply (JsonText.object_members JsonText.not_brace (quoted "'url':'http://x'")).
  apply (JsonText.members_last JsonText.not_brace
           [] (quoted "'url'") [] [] (quoted "'http://x'") []); try reflexivity.
  - apply (JsonText.string_intro _ (lit "url")). json_chars_done.
  - apply JsonText.value_string.
    apply (JsonText.string_intro _ (lit "http://x")). json_chars_done.
Qed.

(** C2, as stated, fails twice over. A stdout that is nothing but a
    well-formed JSON object beginning with the anchor, which the reference
    parser reads, comes back cut at the brace inside its [reason]; and
    with the anchor in the log noise before the object, what comes back is
    a piece of the noise. *)
Lemma C2_any_object_counterexample :
  let obj := quoted "{'url':'http://x','reason':'no label on }'}" in
  let noise := quoted "echo {'url'} > out
" in
  let flat := quoted "{'url':'http://x'}" in
  JsonText.json_object JsonText.any_char obj
  /\ startsWith obj anchor = true
  /\ JsonRef.JSON_parse obj
     = Ok (VObj [(lit "url", VStr (lit "http://x"));
                 (lit "reason", VStr (lit "no label on }"))])
  /\ extractJson ([] ++ obj ++ [])
     = Some (quoted "{'url':'http://x','reason':'no label on }")
  /\ JsonText.json_object JsonText.not_brace flat
  /\ startsWith flat anchor = true
  /\ extractJson (noise ++ flat ++ []) = Some (quoted "{'url'}")
  /\ ~ (forall pre o post,
          JsonText.json_object JsonText.any_char o ->
          startsWith o anchor = true ->
          extractJson (pre ++ o ++ post) = Some o).
Proof.
  repeat split; try reflexivity.
  - exact unbalanced_reason_is_json.
  - exact flat_payload_is_json.
  - intros H.
    specialize (H [] _ [] unbalanced_reason_is_json eq_refl). discriminate H.
Qed.

(** C2, amended: when the noise before it holds no anchor and its string
    literals hold no raw brace, a well-formed JSON object that begins with
    the anchor is what the extractor returns, whatever the noise and
    however deep the object nests. *)
Theorem C2_extractor_recovers_object :
  forall (pre obj post : jsstring),
    indexOf pre anchor = (-1)%Z ->
    JsonText.json_object JsonText.not_brace obj ->
    startsWith obj anchor = true ->
    extractJson (pre ++ obj ++ post) = Some obj.
Proof.
  intros pre obj post Hpre Hobj Hanchor.
  destruct Hobj as [w Hw|ms Hms].
  - apply extractJson_neutral_object; auto using ws_neutral.
  - apply extractJson_neutral_object; auto using json_members_neutral.
Qed.

Lemma nested_payload_is_json :
  JsonText.json_object JsonText.not_brace
    (quoted "{'url':'http://x', 'steps':[{'n':1}]}").
Proof.
  apply (JsonText.object_members JsonText.not_brace
           (quoted "'url':'http://x', 'steps':[{'n':1}]")).
  apply (JsonText.members_more JsonText.not_brace
           [] (quoted "'url'") [] [] (quoted "'http://x'") []
           (quoted " 'steps':[{'n':1}]")); try reflexivity.
  - apply (JsonText.string_intro _ (lit "url")). json_chars_done.
  - apply JsonText.value_string.
    apply (JsonText.string_intro _ (lit "http://x")). json_chars_done.
  - apply (JsonText.members_last JsonText.not_brace
             (lit " ") (quoted "'steps'") [] [] (quoted "[{'n':1}]") []);
      try reflexivity.
    + apply (JsonText.string_intro _ (lit "steps")). json_chars_done.
    + apply JsonText.value_array.
      apply (JsonText.array_elements JsonText.not_brace (quoted "{'n':1}")).
      apply (JsonText.elements_last JsonText.not_brace [] (quoted "{'n':1}") []);
        try reflexivity.
      apply JsonText.value_object.
      apply (JsonText.object_members JsonText.not_brace (quoted "'n':1")).
      apply (JsonText.members_last JsonText.not_brace
               [] (quoted "'n'") [] [] (lit "1") []); try reflexivity.
      * apply (JsonText.string_intro _ (lit "n")). json_chars_done.
      * apply JsonText.value_number.
        apply (JsonText.number_intro [] (lit "1") [] []); auto.
        right. exists 49%N, []. repeat split; lia.
Defined.

Lemma C2_extractor_recovers_object_witness :
  extractJson (lit "> start:agent-cli
" ++ quoted "{'url':'http://x', 'steps':[{'n':1}]}" ++ lit "
npm notice }")
  = Some (quoted "{'url':'http://x', 'steps':[{'n':1}]}").
Proof.
  exact (C2_extractor_recovers_object
           (lit "> start:agent-cli
")
           (quoted "{'url':'http://x', 'steps':[{'n':1}]}")
           (lit "
npm notice }")
           eq_refl nested_payload_is_json eq_refl).
Defined.

(* ===================================================================== *)
(** * Runs on sample data *)
(* ===================================================================== *)

Lemma C4_results_follow_test_order_witness :
  exists results hasFailure w',
    testLoop JsonRef.JSON_parse Sample.failing_first_agent Sample.stop_settings
             VNull 2 Sample.two_tests 0 [] false initial_world
    = (Ok (results, hasFailure), w')
    /\ List.length results <= 2
    /\ nth_error results 0
       = Some (resultAt JsonRef.JSON_parse Sample.failing_first_agent
                 Sample.stop_settings VNull 0 Sample.home).
Proof.
  destruct (C4_results_follow_test_order JsonRef.JSON_parse
              Sample.failing_first_agent Sample.stop_settings VNull
              Sample.two_tests [Sample.home; Sample.products] initial_world
              eq_refl)
    as (results & hasFailure & w' & Hrun & _ & Hlen & _).
  exists results, hasFailure, w'. split; [exact Hrun|]. split; [exact Hlen|].
  vm_compute in Hrun. injection Hrun as <- _ _. vm_compute. reflexivity.
Defined.

Lemma C5_failed_status_iff_a_test_failed_witness :
  exists results w',
    runTests JsonRef.JSON_parse JsonRef.integer_toString
             Sample.failing_first_agent Sample.down_fetch Sample.context 1650
             Sample.stop_settings Sample.two_tests initial_world = (Ok tt, w')
    /\ In ("results-json"%string, OutResultsJson results) (outputs w')
    /\ List.length results = 1
    /\ failed w' = Some (lit "1 out of 1 accessibility tests failed").
Proof.
  destruct (C5_failed_status_iff_a_test_failed JsonRef.JSON_parse
              JsonRef.integer_toString Sample.failing_first_agent
              Sample.down_fetch Sample.context 1650 Sample.stop_settings
              Sample.two_tests [Sample.home; Sample.products] initial_world
              eq_refl eq_refl)
    as (results & w' & Hrun & Hin & _).
  exists results, w'. split; [exact Hrun|]. split; [exact Hin|].
  vm_compute in Hrun. injection Hrun as <-.
  destruct Hin as [H|[H|[H|[H|[H|[]]]]]]; try discriminate H.
  injection H as <-. split; vm_compute; reflexivity.
Defined.

Lemma C7_live_reporting_never_aborts_witness :
  exists w' w0,
    runTests JsonRef.JSON_parse JsonRef.integer_toString
             Sample.failing_first_agent Sample.down_fetch Sample.context 1650
             Sample.stop_settings Sample.two_tests initial_world = (Ok tt, w')
    /\ runTests JsonRef.JSON_parse JsonRef.integer_toString
                Sample.failing_first_agent Sample.down_fetch Sample.context 1650
                (without_dashboard Sample.stop_settings) Sample.two_tests
                initial_world = (Ok tt, w0)
    /\ outputs w' = outputs w0 /\ failed w' = failed w0
    /\ output_set "dashboard-url" w' = false.
Proof.
  destruct (proj1 (proj2 (proj2
              (C7_live_reporting_never_aborts JsonRef.JSON_parse
                 JsonRef.integer_toString Sample.failing_first_agent
                 Sample.down_fetch Sample.context 1650)))
              Sample.stop_settings Sample.two_tests
              [Sample.home; Sample.products] initial_world eq_refl
              (fun body => eq_refl))
    as (w' & w0 & Hrun & Hrun0 & Hout & Hfail & Hset).
  exists w', w0. split; [exact Hrun|]. split; [exact Hrun0|].
  split; [exact Hout|]. split; [exact Hfail|]. exact Hset.
Defined.

(** The first end-to-end scenario of the specification: two tests, an
    agent that always reports success. *)
Example run_all_passed :
  let w := final_world
             (run JsonRef.JSON_parse JsonRef.integer_toString Sample.passing_agent
                  Sample.down_fetch Sample.context Sample.scenario_exists
                  Sample.scenario_read 1000 (Sample.scenario_inputs [])) in
  option_map failed w = Some None
  /\ option_map (fun w => firstn 4 (outputs w)) w
     = Some [("total-tests"%string, OutStr (lit "2"));
             ("passed-tests"%string, OutStr (lit "2"));
             ("failed-tests"%string, OutStr (lit "0"));
             ("pass-rate"%string, OutStr (lit "100.0"))].
Proof. vm_compute. split; reflexivity. Qed.

(** The second: the first test fails and continue-on-failure is false. *)
Example run_stopped_on_first_failure :
  let w := final_world
             (run JsonRef.JSON_parse JsonRef.integer_toString Sample.scenario_agent
                  Sample.down_fetch Sample.context Sample.scenario_exists
                  Sample.scenario_read 1000 (Sample.scenario_inputs (lit "false"))) in
  option_map failed w = Some (Some (lit "1 out of 1 accessibility tests failed"))
  /\ option_map (fun w => firstn 4 (outputs w)) w
     = Some [("total-tests"%string, OutStr (lit "1"));
             ("passed-tests"%string, OutStr (lit "0"));
             ("failed-tests"%string, OutStr (lit "1"));
             ("pass-rate"%string, OutStr (lit "0.0"))].
Proof. vm_compute. split; reflexivity. Qed.

(** A text configuration with a line that has no separator, through the
    whole of [run]: the process fails with the TypeError's message and no
    test is run. *)
Example run_on_line_without_separator :
  let w := final_world
             (run JsonRef.JSON_parse JsonRef.integer_toString Sample.passing_agent
                  Sample.down_fetch Sample.context (fun _ => true)
                  (fun _ => Ok (lit "http://localhost:3000/|check the headings
http://localhost:3000/products"))
                  1000
                  (mkInputs (lit "tests.txt") [] (lit "sk-test") [] [] [] [] [])) in
  option_map failed w
  = Some (Some (lit "Cannot read properties of undefined (reading 'trim')"))
  /\ option_map outputs w = Some [] /\ option_map logs w = Some [].
Proof. vm_compute. repeat split; reflexivity. Qed.

(* ===================================================================== *)
(** * Numbers: binary64 rounding and the pass rate *)
(* ===================================================================== *)

Section NumberFacts.

Local Open Scope Z_scope.

Lemma digits2_pos_bounds (m : positive) :
  2 ^ (Z.pos (digits2_pos m) - 1) <= Z.pos m < 2 ^ Z.pos (digits2_pos m).
Proof.
  induction m as [m IH|m IH|]; cbn [digits2_pos].
  - rewrite Pos2Z.inj_succ.
    replace (Z.succ (Z.pos (digits2_pos m)) - 1) with (Z.succ (Z.pos (digits2_pos m) - 1)) by lia.
    rewrite !Z.pow_succ_r by lia. lia.
  - rewrite Pos2Z.inj_succ.
    replace (Z.succ (Z.pos (digits2_pos m)) - 1) with (Z.succ (Z.pos (digits2_pos m) - 1)) by lia.
    rewrite !Z.pow_succ_r by lia. lia.
  - simpl. lia.
Qed.

Lemma Zdigits2_unique (m k : Z) :
  0 < m -> 2 ^ (k - 1) <= m < 2 ^ k -> 0 < k -> Zdigits2 m = k.
Proof.
  intros Hm [Hlo Hhi] Hk. destruct m as [|p|p]; try lia. simpl.
  pose proof (digits2_pos_bounds p) as [Blo Bhi].
  set (d := Z.pos (digits2_pos p)) in *.
  destruct (Z.lt_trichotomy d k) as [Hlt|[Heq|Hgt]]; [|assumption|].
  - assert (2 ^ d <= 2 ^ (k - 1)) by (apply Z.pow_le_mono_r; lia). lia.
  - assert (2 ^ k <= 2 ^ (d - 1)) by (apply Z.pow_le_mono_r; lia). lia.
Qed.

Lemma Zdigits2_bounds (m : Z) :
  0 < m -> 2 ^ (Zdigits2 m - 1) <= m < 2 ^ Zdigits2 m /\ 0 < Zdigits2 m.
Proof.
  intros Hm. destruct m as [|p|p]; try lia. simpl.
  split; [apply digits2_pos_bounds | lia].
Qed.

Lemma shr_1_m (r : shr_record) :
  0 <= shr_m r -> shr_m (shr_1 r) = shr_m r / 2.
Proof.
  destruct r as [m rb sb]. simpl. intros Hm.
  destruct m as [|[p|p|]|p]; cbn [shr_m]; try lia;
    Z.div_mod_to_equations; lia.
Qed.

Lemma iter_shr_1_m (n : positive) :
  forall r, 0 <= shr_m r -> shr_m (iter_pos shr_1 n r) = shr_m r / 2 ^ Z.pos n.
Proof.
  induction n as [n IH|n IH|]; intros r Hr; cbn [iter_pos].
  - assert (H1 : 0 <= shr_m (shr_1 r)) by (rewrite shr_1_m by trivial; apply Z.div_pos; lia).
    assert (H2 : 0 <= shr_m (iter_pos shr_1 n (shr_1 r)))
      by (rewrite IH by trivial; apply Z.div_pos; [trivial | apply Z.pow_pos_nonneg; lia]).
    rewrite IH, IH, shr_1_m by trivial.
    rewrite !Z.div_div by (try apply Z.pow_pos_nonneg; lia).
    f_equal. rewrite Pos2Z.inj_xI. rewrite <- Z.pow_add_r, <- (Z.pow_1_r 2) at 1 by lia.
    rewrite <- Z.pow_add_r by lia. f_equal. lia.
  - assert (H2 : 0 <= shr_m (iter_pos shr_1 n r))
      by (rewrite IH by trivial; apply Z.div_pos; [trivial | apply Z.pow_pos_nonneg; lia]).
    rewrite IH, IH by trivial.
    rewrite !Z.div_div by (try apply Z.pow_pos_nonneg; lia).
    f_equal. rewrite Pos2Z.inj_xO, <- Z.pow_add_r by lia. f_equal. lia.
  - rewrite shr_1_m by trivial. reflexivity.
Qed.

Lemma round_nearest_even_range (m : Z) (l : location) :
  round_nearest_even m l = m \/ round_nearest_even m l = m + 1.
Proof.
  destruct l as [|[]]; simpl; auto. destruct (Z.even m); auto.
Qed.

Lemma shr_record_of_loc_m (m : Z) (l : location) : shr_m (shr_record_of_loc m l) = m.
Proof. destruct l as [|[]]; reflexivity. Qed.

Lemma fexp64_normal (k : Z) : -1074 <= k - 53 -> fexp prec64 emax64 k = k - 53.
Proof. unfold fexp, emin, prec64, emax64. lia. Qed.

Lemma pow2_split (a b : Z) : 0 <= a -> 0 <= b -> 2 ^ (a + b) = 2 ^ a * 2 ^ b.
Proof. intros. now apply Z.pow_add_r. Qed.

(** Rounding a mantissa of at least 53 digits in the normal range keeps 53
    of them. *)
Lemma shr_fexp_normal (mx ex : Z) (lx : location) :
  0 < mx -> 53 <= Zdigits2 mx -> -1074 <= Zdigits2 mx + ex - 53 ->
  exists r, shr_fexp prec64 emax64 mx ex lx = (r, Zdigits2 mx + ex - 53)
            /\ 2 ^ 52 <= shr_m r < 2 ^ 53.
Proof.
  intros Hm Hd Hn. unfold shr_fexp. rewrite fexp64_normal by trivial.
  destruct (Zdigits2_bounds mx Hm) as [[Blo Bhi] _].
  replace (Zdigits2 mx + ex - 53 - ex) with (Zdigits2 mx - 53) by lia.
  destruct (Zdigits2 mx - 53) as [|p|p] eqn:Hs; [| |lia].
  - eexists. split; [unfold shr; f_equal; lia|].
    rewrite shr_record_of_loc_m.
    replace (Zdigits2 mx) with 53 in * by lia. simpl in Blo. lia.
  - eexists. split; [unfold shr; f_equal; lia|].
    rewrite iter_shr_1_m by (rewrite shr_record_of_loc_m; lia).
    rewrite shr_record_of_loc_m.
    assert (Hp : 0 < 2 ^ Z.pos p) by (apply Z.pow_pos_nonneg; lia).
    assert (E1 : 2 ^ (Zdigits2 mx - 1) = 2 ^ Z.pos p * 2 ^ 52)
      by (rewrite <- pow2_split by lia; f_equal; lia).
    assert (E2 : 2 ^ Zdigits2 mx = 2 ^ Z.pos p * 2 ^ 53)
      by (rewrite <- pow2_split by lia; f_equal; lia).
    split.
    + apply Z.div_le_lower_bound; lia.
    + apply Z.div_lt_upper_bound; lia.
Qed.

(** [binary_round_aux] on a positive mantissa of at least 53 digits, away
    from underflow and overflow: a finite number, mantissa of 53 digits. *)
Lemma binary_round_aux_finite (s : bool) (mx ex : Z) (lx : location) :
  0 < mx -> 53 <= Zdigits2 mx -> -1074 <= Zdigits2 mx + ex - 53 ->
  Zdigits2 mx + ex - 52 <= 971 ->
  exists m e,
    binary_round_aux prec64 emax64 s mx ex lx = S754_finite s m e
    /\ 2 ^ 52 <= Z.pos m < 2 ^ 53
    /\ Zdigits2 mx + ex - 53 <= e <= Zdigits2 mx + ex - 52.
Proof.
  intros Hm Hd Hn Ho. unfold binary_round_aux.
  destruct (shr_fexp_normal mx ex lx Hm Hd Hn) as (r1 & -> & B1).
  set (e1 := Zdigits2 mx + ex - 53) in *.
  set (m1 := round_nearest_even (shr_m r1) (loc_of_shr_record r1)).
  assert (Hm1 : 2 ^ 52 <= m1 <= 2 ^ 53)
    by (destruct (round_nearest_even_range (shr_m r1) (loc_of_shr_record r1));
        unfold m1; lia).
  assert (Hd1 : Zdigits2 m1 = 53 \/ Zdigits2 m1 = 54).
  { destruct (Z.eq_dec m1 (2 ^ 53)) as [->|Hne]; [right; reflexivity|].
    left. apply Zdigits2_unique; simpl; lia. }
  destruct (shr_fexp_normal m1 e1 loc_Exact) as (r2 & -> & B2); try lia.
  destruct (shr_m r2) as [|m|m] eqn:Hr2; try lia.
  exists m, (Zdigits2 m1 + e1 - 53).
  replace (Z.leb (Zdigits2 m1 + e1 - 53) (emax64 - prec64)) with true
    by (symmetry; apply Z.leb_le; unfold emax64, prec64; lia).
  repeat split; lia.
Qed.

Lemma iter_xO_value (k p : positive) :
  Z.pos (Pos.iter xO p k) = Z.pos p * 2 ^ Z.pos k.
Proof.
  induction k as [|k IH] using Pos.peano_ind.
  - simpl. lia.
  - rewrite Pos.iter_succ, Pos2Z.inj_xO, IH, Pos2Z.inj_succ, Z.pow_succ_r by lia.
    lia.
Qed.


(** The Number of a positive integer below 2^53. *)
Lemma Number_of_nat_finite (n : nat) :
  (0 < n)%nat -> Z.of_nat n < 2 ^ 53 ->
  exists m e,
    Number_of_nat n = S754_finite false m e
    /\ 2 ^ 52 <= Z.pos m < 2 ^ 53
    /\ Zdigits2 (Z.of_nat n) - 53 <= e <= Zdigits2 (Z.of_nat n) - 52.
Proof.
  intros Hn Hlt. unfold Number_of_nat, binary_normalize.
  destruct (Z.of_nat n) as [|p|p] eqn:Hp; try lia.
  unfold binary_round, shl_align.
  pose proof (digits2_pos_bounds p) as [Blo Bhi].
  assert (Hd : Z.pos (digits2_pos p) <= 53).
  { destruct (Z.le_gt_cases (Z.pos (digits2_pos p)) 53); [assumption|].
    assert (2 ^ 53 <= 2 ^ (Z.pos (digits2_pos p) - 1))
      by (apply Z.pow_le_mono_r; lia). lia. }
  rewrite fexp64_normal by lia.
  cbn [Zdigits2].
  set (d := Z.pos (digits2_pos p)) in *.
  destruct (d + 0 - 53 - 0) as [|k|k] eqn:Hk; try lia.
  - destruct (binary_round_aux_finite false (Z.pos p) 0 loc_Exact) as (m & e & -> & B & E);
      cbn [Zdigits2]; fold d; try lia.
    change (Zdigits2 (Z.pos p)) with d in E.
    exists m, e. repeat split; lia.
  - assert (Hv : Z.pos (Pos.iter xO p k) = Z.pos p * 2 ^ Z.pos k)
      by apply iter_xO_value.
    assert (Hk' : Z.pos k = 53 - d) by lia.
    assert (E1 : 2 ^ 52 = 2 ^ (d - 1) * 2 ^ Z.pos k)
      by (rewrite <- pow2_split by lia; f_equal; lia).
    assert (E2 : 2 ^ 53 = 2 ^ d * 2 ^ Z.pos k)
      by (rewrite <- pow2_split by lia; f_equal; lia).
    assert (Hpk : 0 < 2 ^ Z.pos k) by (apply Z.pow_pos_nonneg; lia).
    assert (Hdig : Zdigits2 (Z.pos (Pos.iter xO p k)) = 53).
    { apply Zdigits2_unique; try lia. rewrite Hv. change (53 - 1) with 52. nia. }
    destruct (binary_round_aux_finite false (Z.pos (Pos.iter xO p k)) (d + 0 - 53)
                loc_Exact) as (m & e & -> & B & E); rewrite ?Hdig; try lia.
    exists m, e. repeat split; lia.
Qed.







(** The fuel of [N_toString] is enough: the digits read back as [n]. *)
Lemma digits_fuel_value (fuel : nat) :
  forall n acc,
    (N.to_nat (N.log2 n) < fuel)%nat ->
    JsonRef.digits_value (digits_fuel fuel n acc)
    = fold_left (fun a d => 10 * a + (Z.of_N d - 48)) acc (Z.of_N n).
Proof.
  unfold JsonRef.digits_value.
  induction fuel as [|fuel IH]; intros n acc Hfuel; [lia|]. cbn [digits_fuel].
  destruct (N.ltb_spec n 10) as [Hlt|Hge].
  - cbn [fold_left]. rewrite N.mod_small by assumption. f_equal. lia.
  - rewrite IH.
    + cbn [fold_left]. f_equal. pose proof (N.div_mod n 10). lia.
    + destruct (N.log2_spec n) as [_ Hhi]; [lia|].
      rewrite N.pow_succ_r' in Hhi.
      assert (Hpos : (0 < n / 10)%N) by (apply N.div_str_pos; lia).
      assert (Hlt : (n / 10 < 2 ^ N.log2 n)%N)
        by (apply N.Div0.div_lt_upper_bound; lia).
      apply N.log2_lt_pow2 in Hlt; lia.
Qed.

Lemma N_toString_value (n : N) : JsonRef.digits_value (N_toString n) = Z.of_N n.
Proof. unfold N_toString. rewrite digits_fuel_value by lia. reflexivity. Qed.







Lemma passRate_passValue Number_toString (results : list TestResult) :
  (0 < List.length results)%nat ->
  passRate Number_toString results
  = toFixed1 Number_toString
      (passValue (List.length (filter passed results)) (List.length results)).
Proof.
  intros H. unfold passRate, passValue.
  destruct (Nat.ltb_spec 0 (List.length results)); [reflexivity | lia].
Qed.




End NumberFacts.



(** The Number, not the exact quotient, is what gets rounded: 23 passed
    out of 80 is 28.75 exactly, the product in binary64 lies just below it,
    and the pass rate reads 28.7. *)
Example pass_rate_23_of_80 :
  passRate JsonRef.integer_toString
    (repeat (Sample.outcome_of true) 23 ++ repeat (Sample.outcome_of false) 57)
  = lit "28.7".
Proof. vm_compute. reflexivity. Qed.

(* ===================================================================== *)
(** * Splitting and trimming *)
(* ===================================================================== *)

Lemma split_app (c : N) (a b : jsstring) :
  split c (a ++ c :: b) = split c a ++ split c b.
Proof.
  induction a as [|x a IH]; simpl.
  - now rewrite N.eqb_refl.
  - destruct (N.eqb x c); [now rewrite IH|].
    rewrite IH. destruct (split c a) as [|seg rest] eqn:E;
      [now apply split_nonempty in E | reflexivity].
Qed.

Lemma split_segment_free (c : N) (s : jsstring) :
  forall seg, In seg (split c s) -> ~ In c seg.
Proof.
  induction s as [|x s IH]; simpl; intros seg.
  - intros [<-|[]] [].
  - destruct (N.eqb_spec x c) as [->|Hne].
    + intros [<-|H]; [intros [] | now apply IH].
    + destruct (split c s) as [|seg0 rest] eqn:E; simpl.
      * intros [<-|[]] [H|[]]. congruence.
      * intros [<-|H].
        -- intros [Hx|Hin]; [congruence|]. apply (IH seg0); [now left | assumption].
        -- apply IH. now right.
Qed.

Lemma split_segment_sub (c : N) (s : jsstring) :
  forall seg x, In seg (split c s) -> In x seg -> In x s.
Proof.
  induction s as [|y s IH]; simpl; intros seg x.
  - intros [<-|[]] [].
  - destruct (N.eqb y c).
    + intros [<-|H] Hx; [contradiction | right; now apply (IH seg)].
    + destruct (split c s) as [|seg0 rest] eqn:E; simpl.
      * intros [<-|[]] [Hx|[]]. now left.
      * intros [<-|H] Hx.
        -- destruct Hx as [Hx|Hx]; [now left | right; apply (IH seg0); auto; now left].
        -- right. apply (IH seg); auto. now right.
Qed.

Lemma trimStart_sub (s : jsstring) (x : N) : In x (trimStart s) -> In x s.
Proof.
  induction s as [|c s IH]; simpl; [trivial|].
  destruct (is_space c); [intros H; right; now apply IH | trivial].
Qed.

Lemma trim_sub (s : jsstring) (x : N) : In x (trim s) -> In x s.
Proof.
  unfold trim, trimEnd. intros H. apply in_rev in H.
  apply trimStart_sub in H. apply in_rev in H. now apply trimStart_sub.
Qed.

Lemma trimStart_idem (s : jsstring) : trimStart (trimStart s) = trimStart s.
Proof.
  induction s as [|c s IH]; simpl; [reflexivity|].
  destruct (is_space c) eqn:E; [assumption|]. simpl. now rewrite E.
Qed.

(** [trimStart] cuts a run of spaces off the front. *)
Lemma trimStart_split (s : jsstring) :
  exists sp, s = sp ++ trimStart s /\ forallb is_space sp = true.
Proof.
  induction s as [|c s IH]; simpl.
  - now exists [].
  - destruct (is_space c) eqn:E.
    + destruct IH as (sp & Hs & Hsp). exists (c :: sp). simpl.
      rewrite E, Hsp. split; [now f_equal | reflexivity].
    + now exists [].
Qed.

Lemma trimEnd_split (s : jsstring) :
  exists sp, s = trimEnd s ++ sp /\ forallb is_space sp = true.
Proof.
  unfold trimEnd. destruct (trimStart_split (rev s)) as (sp & Hs & Hsp).
  exists (rev sp). split.
  - rewrite <- rev_app_distr, <- Hs. now rewrite rev_involutive.
  - rewrite forallb_forall in *. intros x Hx. apply Hsp. now apply in_rev.
Qed.

Lemma trimEnd_idem (s : jsstring) : trimEnd (trimEnd s) = trimEnd s.
Proof. unfold trimEnd. now rewrite rev_involutive, trimStart_idem. Qed.

Lemma trimStart_fixed_head (s : jsstring) :
  trimStart s = s <-> match s with [] => True | c :: _ => is_space c = false end.
Proof.
  destruct s as [|c s]; simpl; [tauto|].
  destruct (is_space c) eqn:E; split; try congruence; try reflexivity.
  intros H. destruct (trimStart_split s) as (sp & Hs & _).
  assert (Hlen : List.length (trimStart s) = S (List.length s)) by now rewrite H.
  apply (f_equal (@List.length N)) in Hs. rewrite length_app in Hs. lia.
Qed.

Lemma trim_trimmed (s : jsstring) : trimmed (trim s).
Proof.
  unfold trimmed, trim. split; [|apply trimEnd_idem].
  set (t := trimStart s).
  assert (Ht : trimStart t = t) by apply trimStart_idem.
  destruct (trimEnd_split t) as (sp & Hs & _).
  apply trimStart_fixed_head. apply trimStart_fixed_head in Ht.
  destruct (trimEnd t) as [|c r]; [trivial|].
  rewrite Hs in Ht. exact Ht.
Qed.

Lemma trim_idem (s : jsstring) : trim (trim s) = trim s.
Proof.
  destruct (trim_trimmed s) as [H1 H2]. unfold trim at 1. now rewrite H1, H2.
Qed.

(* ===================================================================== *)
(** * The text format, line by line *)
(* ===================================================================== *)

Lemma effectiveLines_app (a b : jsstring) :
  effectiveLines (a ++ c_newline :: b) = effectiveLines a ++ effectiveLines b.
Proof. unfold effectiveLines. now rewrite split_app, map_app, filter_app. Qed.

Lemma omap_app {A B} (f : A -> outcome B) (xs ys : list A) :
  omap f (xs ++ ys)
  = obind (omap f xs) (fun a => obind (omap f ys) (fun b => Ok (a ++ b))).
Proof.
  induction xs as [|x xs IH]; simpl.
  - now destruct (omap f ys).
  - destruct (f x) as [y|e]; simpl; [|reflexivity].
    rewrite IH. destruct (omap f xs) as [a|e]; simpl; [|reflexivity].
    now destruct (omap f ys).
Qed.

(** X1: the text format is read line by line. The tests of two texts
    joined by a line break are the tests of the first followed by the
    tests of the second, and an error in the first comes first. *)
Theorem parseTextConfig_app (a b : jsstring) :
  parseTextConfig (a ++ c_newline :: b)
  = obind (parseTextConfig a) (fun ta =>
    obind (parseTextConfig b) (fun tb => Ok (ta ++ tb))).
Proof.
  unfold parseTextConfig. rewrite effectiveLines_app, omap_app.
  destruct (omap parseLine (effectiveLines a)) as [ta|e]; simpl; [|reflexivity].
  destruct (omap parseLine (effectiveLines b)) as [tb|e]; simpl; [|reflexivity].
  now rewrite filter_app.
Qed.

Lemma effectiveLines_ignored (line : jsstring) :
  ignored line -> effectiveLines line = [].
Proof.
  intros [Hnl Hline]. unfold effectiveLines.
  rewrite (split_without _ _ Hnl). cbn [List.map filter].
  destruct Hline as [H|H]; rewrite H; [reflexivity|].
  now rewrite andb_false_r.
Qed.

Lemma parseTextConfig_same_lines (a b : jsstring) :
  effectiveLines a = effectiveLines b -> parseTextConfig a = parseTextConfig b.
Proof. unfold parseTextConfig. now intros ->. Qed.

(** X2: a blank line or a comment line, indented or not, changes nothing,
    wherever it stands: between two lines, first or last. *)
Theorem ignored_lines_have_no_effect :
  forall (a line b : jsstring),
    ignored line ->
    parseTextConfig (a ++ c_newline :: line ++ c_newline :: b)
    = parseTextConfig (a ++ c_newline :: b)
    /\ parseTextConfig (line ++ c_newline :: b) = parseTextConfig b
    /\ parseTextConfig (a ++ c_newline :: line) = parseTextConfig a.
Proof.
  intros a line b Hline.
  pose proof (effectiveLines_ignored _ Hline) as E.
  repeat split; apply parseTextConfig_same_lines;
    rewrite !effectiveLines_app, ?E, ?app_nil_r; reflexivity.
Qed.

Lemma ignored_lines_have_no_effect_witness :
  parseTextConfig (lit "http://a|g1
  # staging only
http://b|g2")
  = parseTextConfig (lit "http://a|g1
http://b|g2").
Proof.
  refine (proj1 (ignored_lines_have_no_effect (lit "http://a|g1")
                   (lit "  # staging only") (lit "http://b|g2") _)).
  split; [vm_compute; intuition discriminate | right; reflexivity].
Defined.

(** X3: a line with more than one separator gives the first two
    segments, trimmed; everything from the second separator on is
    dropped. *)
Theorem parseLine_second_separator :
  forall (u g rest : jsstring),
    ~ In c_pipe u -> ~ In c_pipe g ->
    parseLine (u ++ c_pipe :: g ++ c_pipe :: rest)
    = Ok (mkTestConfig (VStr (trim u)) (VStr (trim g)))
    /\ parseLine (u ++ c_pipe :: g ++ c_pipe :: rest) = parseLine (u ++ c_pipe :: g).
Proof.
  intros u g rest Hu Hg. unfold parseLine, split_limit.
  rewrite !split_app, (split_without _ _ Hu), (split_without _ _ Hg).
  split; reflexivity.
Qed.

Lemma parseLine_second_separator_witness :
  parseLine (lit "http://a | open the menu | then press Tab")
  = Ok (mkTestConfig (VStr (lit "http://a")) (VStr (lit "open the menu"))).
Proof.
  refine (proj1 (parseLine_second_separator (lit "http://a ") (lit " open the menu ")
                   (lit " then press Tab") _ _));
    vm_compute; intuition discriminate.
Defined.

Lemma omap_In {A B} (f : A -> outcome B) (xs : list A) (ys : list B) (y : B) :
  omap f xs = Ok ys -> In y ys -> exists x, In x xs /\ f x = Ok y.
Proof.
  revert ys. induction xs as [|x xs IH]; intros ys H Hy.
  - injection H as <-. contradiction.
  - apply omap_cons_inv in H. destruct H as (y0 & ys' & Hx & Hxs & ->).
    destruct Hy as [<-|Hy]; [exists x; split; [now left | assumption]|].
    destruct (IH _ Hxs Hy) as (x' & Hin & Hf). exists x'. split; [now right | assumption].
Qed.

(** X4: every test the text format yields has a url and a goal that are
    strings, not empty, without white space at either end, and free of
    separators and line breaks. *)
Theorem parseTextConfig_entries :
  forall (content : jsstring) (ts : list TestConfig) (t : TestConfig),
    parseTextConfig content = Ok ts -> In t ts ->
    exists u g,
      url t = VStr u /\ goal t = VStr g
      /\ u <> [] /\ g <> []
      /\ trim u = u /\ trim g = g
      /\ ~ In c_pipe u /\ ~ In c_pipe g
      /\ ~ In c_newline u /\ ~ In c_newline g.
Proof.
  intros content ts t Hparse Ht. unfold parseTextConfig in Hparse.
  destruct (omap parseLine (effectiveLines content)) as [all|e] eqn:Hall;
    simpl in Hparse; [|discriminate].
  injection Hparse as <-. apply filter_In in Ht. destruct Ht as [Ht Hkeep].
  destruct (omap_In _ _ _ _ Hall Ht) as (line & Hline & Hpl).
  unfold effectiveLines in Hline. apply filter_In in Hline.
  destruct Hline as [Hline _]. apply in_map_iff in Hline.
  destruct Hline as (raw & <- & Hraw).
  apply split_segment_free in Hraw.
  unfold parseLine, split_limit in Hpl.
  destruct (split c_pipe (trim raw)) as [|u0 [|g0 more]] eqn:Hs; simpl in Hpl;
    try discriminate.
  injection Hpl as <-. simpl in *.
  assert (Hu0 : In u0 (split c_pipe (trim raw))) by (rewrite Hs; now left).
  assert (Hg0 : In g0 (split c_pipe (trim raw))) by (rewrite Hs; right; now left).
  apply andb_prop in Hkeep. destruct Hkeep as [Hku Hkg].
  exists (trim u0), (trim g0). repeat split; try apply trim_idem.
  - intros E. rewrite E in Hku. discriminate.
  - intros E. rewrite E in Hkg. discriminate.
  - intros H. apply trim_sub in H. now apply (split_segment_free _ _ _ Hu0).
  - intros H. apply trim_sub in H. now apply (split_segment_free _ _ _ Hg0).
  - intros H. apply trim_sub in H. apply (split_segment_sub _ _ _ _ Hu0) in H.
    apply trim_sub in H. contradiction.
  - intros H. apply trim_sub in H. apply (split_segment_sub _ _ _ _ Hg0) in H.
    apply trim_sub in H. contradiction.
Qed.

Lemma parseTextConfig_entries_witness :
  exists u g,
    url Fixture.first_test = VStr u /\ goal Fixture.first_test = VStr g
    /\ u <> [] /\ g <> [] /\ trim u = u /\ trim g = g
    /\ ~ In c_pipe u /\ ~ In c_pipe g
    /\ ~ In c_newline u /\ ~ In c_newline g.
Proof.
  apply (parseTextConfig_entries (lit "  http://x | g1  ") [Fixture.first_test]
           Fixture.first_test);
    [vm_compute; reflexivity | left; reflexivity].
Defined.

(* ===================================================================== *)
(** * The executor: what the agent is told *)
(* ===================================================================== *)

Lemma jsstring_eqb_eq (a b : jsstring) : JsString.eqb a b = true <-> a = b.
Proof.
  revert b. induction a as [|x a IH]; intros [|y b]; simpl; split;
    try discriminate; try reflexivity.
  - intros H. apply andb_prop in H. destruct H as [Hx Ha].
    apply N.eqb_eq in Hx. apply IH in Ha. now subst.
  - intros [= -> ->]. rewrite N.eqb_refl. now apply IH.
Qed.

(** What [setup] leaves behind when it does not throw. *)
Lemma setup_inv JSON_parse existsSync readFileSync (inp : inputs)
    (cfg : settings) (tests : value) :
  setup JSON_parse existsSync readFileSync inp = Ok (cfg, tests) ->
  let key := if JsString.eqb (chosenProvider inp) (lit "openai")
             then in_openai_api_key inp else in_gemini_api_key inp in
  cfg = mkSettings (chosenProvider inp) key
          (negb (JsString.eqb (in_headless inp) (lit "false")))
          (negb (JsString.eqb (in_continue_on_failure inp) (lit "false")))
          (in_dashboard_url inp) (in_dashboard_api_key inp)
  /\ is_empty key = false
  /\ exists content,
       readFileSync (in_test_config inp) = Ok content
       /\ loadTests JSON_parse (in_test_config inp) content = Ok tests.
Proof.
  intros Hsetup key. unfold setup in Hsetup. fold (chosenProvider inp) in Hsetup.
  fold key in Hsetup.
  destruct (is_empty (raw_test_config inp)); [discriminate|].
  destruct (is_empty key) eqn:Hkey; [discriminate|].
  destruct (negb (existsSync (in_test_config inp))); [discriminate|].
  destruct (readFileSync (in_test_config inp)) as [content|e]; simpl in Hsetup;
    [|discriminate].
  destruct (loadTests JSON_parse (in_test_config inp) content) as [ts|e] eqn:Hl;
    simpl in Hsetup; [|discriminate].
  injection Hsetup as <- <-. split; [reflexivity|]. split; [reflexivity|].
  now exists content.
Qed.

(** X9: the key that reaches the agent is the key of the provider [run]
    settled on, under that provider's variable, whatever the environment
    of the action holds under that name; it is not empty. The other
    provider's variable is neither set nor cleared: the agent finds it as
    the environment of the action has it. *)
Theorem selected_key_reaches_agent :
  forall JSON_parse existsSync readFileSync (inp : inputs) (cfg : settings)
         (tests : value) (config : TestConfig) (live : value) (i : nat)
         (process_env : list (string * jsstring)),
    setup JSON_parse existsSync readFileSync inp = Ok (cfg, tests) ->
    let request := agentRequest config (provider cfg) (apiKey cfg) (headless cfg)
                     live i (or_null (dashboardUrl cfg))
                     (or_null (dashboardApiKey cfg)) in
    provider cfg = chosenProvider inp
    /\ apiKey cfg <> []
    /\ (chosenProvider inp = lit "openai" ->
        apiKey cfg = in_openai_api_key inp
        /\ agent_env process_env request "OPENAI_API_KEY"
           = Some (VStr (in_openai_api_key inp))
        /\ agent_env process_env request "GEMINI_API_KEY"
           = parent_var "GEMINI_API_KEY" process_env)
    /\ (chosenProvider inp <> lit "openai" ->
        apiKey cfg = in_gemini_api_key inp
        /\ agent_env process_env request "GEMINI_API_KEY"
           = Some (VStr (in_gemini_api_key inp))
        /\ agent_env process_env request "OPENAI_API_KEY"
           = parent_var "OPENAI_API_KEY" process_env).
Proof.
  intros JSON_parse existsSync readFileSync inp cfg tests config live i process_env
         Hsetup.
  destruct (setup_inv _ _ _ _ _ _ Hsetup) as (-> & Hkey & _). simpl.
  split; [reflexivity|]. split; [intros E; rewrite E in Hkey; discriminate|].
  unfold agent_env, agentRequest, env_var. simpl.
  destruct (JsString.eqb (chosenProvider inp) (lit "openai")) eqn:Hp;
    destruct (truthy live && truthy_opt (or_null (in_dashboard_url inp))
              && truthy_opt (or_null (in_dashboard_api_key inp)));
    simpl; (split; intros Hc);
    try (apply jsstring_eqb_eq in Hp; contradiction);
    try (apply jsstring_eqb_eq in Hc; congruence);
    repeat split.
Qed.

Lemma selected_key_reaches_agent_witness :
  let request := agentRequest Fixture.first_test (lit "openai") (lit "sk-test") true
                   VNull 0 None None in
  agent_env Fixture.workflow_env request "OPENAI_API_KEY"
  = Some (VStr (lit "sk-test"))
  /\ agent_env Fixture.workflow_env request "GEMINI_API_KEY"
     = Some (VStr (lit "g-parent")).
Proof.
  refine (proj2
    (proj1 (proj2 (proj2
      (selected_key_reaches_agent JsonRef.JSON_parse Sample.scenario_exists
         Sample.scenario_read (Sample.scenario_inputs []) Fixture.scenario_settings
         (VArr [config_value Fixture.first_test; config_value Fixture.second_test])
         Fixture.first_test VNull 0 Fixture.workflow_env _))) _)).
  - vm_compute. reflexivity.
  - reflexivity.
Defined.

(** X10: the two switches are off only for the exact input [false]; any
    other text, the empty one included, leaves them on, and the agent is
    told [HEADLESS=false] in that one case and [HEADLESS=true] in every
    other. *)
Theorem switches_off_only_by_false :
  forall JSON_parse existsSync readFileSync (inp : inputs) (cfg : settings)
         (tests : value) (config : TestConfig) (live : value) (i : nat),
    setup JSON_parse existsSync readFileSync inp = Ok (cfg, tests) ->
    (headless cfg = false <-> in_headless inp = lit "false")
    /\ (continueOnFailure cfg = false <-> in_continue_on_failure inp = lit "false")
    /\ env_var "HEADLESS"
         (agentRequest config (provider cfg) (apiKey cfg) (headless cfg) live i
                       (or_null (dashboardUrl cfg)) (or_null (dashboardApiKey cfg)))
       = Some (VStr (if headless cfg then lit "true" else lit "false")).
Proof.
  intros JSON_parse existsSync readFileSync inp cfg tests config live i Hsetup.
  destruct (setup_inv _ _ _ _ _ _ Hsetup) as (-> & _ & _). simpl.
  rewrite !negb_false_iff, !jsstring_eqb_eq. repeat split; trivial.
Qed.

Lemma switches_off_only_by_false_witness :
  env_var "HEADLESS"
    (agentRequest Fixture.first_test (lit "openai") (lit "sk-test") false VNull 0
                  None None)
  = Some (VStr (lit "false")).
Proof.
  refine (proj2 (proj2
    (switches_off_only_by_false JsonRef.JSON_parse Sample.scenario_exists
       Sample.scenario_read Fixture.switched_off_inputs
       (mkSettings (lit "openai") (lit "sk-test") false false [] [])
       (VArr [config_value Fixture.first_test; config_value Fixture.second_test])
       Fixture.first_test VNull 0 _))).
  vm_compute. reflexivity.
Defined.
(** X11: a run id that [openLiveRun] returned truthy reaches every agent:
    [--live] is the last argument, and the four variables carry the id,
    the index of the test in decimal, the dashboard URL without its
    trailing slash, and the dashboard key. *)
Theorem live_run_reaches_agents :
  forall fetch github_context (cfg : settings) (tests : list value)
         (w w' : world) (live : value),
    openLiveRun fetch github_context cfg tests w = (Ok live, w') ->
    truthy live = true ->
    forall (config : TestConfig) (i : nat),
      let request := agentRequest config (provider cfg) (apiKey cfg) (headless cfg)
                       live i (or_null (dashboardUrl cfg))
                       (or_null (dashboardApiKey cfg)) in
      last (args request) VUndefined = VStr (lit "--live")
      /\ env_var "TEST_RUN_ID" request = Some live
      /\ env_var "TEST_INDEX" request = Some (VStr (nat_toString i))
      /\ JsonRef.digits_value (nat_toString i) = Z.of_nat i
      /\ env_var "DASHBOARD_URL" request
         = Some (VStr (stripTrailingSlash (dashboardUrl cfg)))
      /\ env_var "DASHBOARD_API_KEY" request = Some (VStr (dashboardApiKey cfg)).
Proof.
  intros fetch github_context cfg tests w w' live Hopen Hlive config i.
  unfold openLiveRun in Hopen.
  destruct (is_empty (dashboardUrl cfg)) eqn:Hu; simpl in Hopen;
    [injection Hopen as <- _; discriminate|].
  destruct (is_empty (dashboardApiKey cfg)) eqn:Hk; simpl in Hopen;
    [injection Hopen as <- _; discriminate|].
  clear Hopen. unfold agentRequest, env_var, or_null, truthy_opt.
  rewrite Hu, Hk, Hlive. simpl. rewrite Hu, Hk. simpl.
  repeat split;
    try (destruct (JsString.eqb (provider cfg) (lit "openai")); reflexivity).
  unfold nat_toString. rewrite N_toString_value. lia.
Qed.

Lemma live_run_reaches_agents_witness :
  let request := agentRequest Fixture.first_test (lit "openai") (lit "sk-test") true
                   (VStr (lit "run-17")) 1
                   (Some (lit "https://dash.example.com/")) (Some (lit "dk-1")) in
  last (args request) VUndefined = VStr (lit "--live")
  /\ env_var "TEST_INDEX" request = Some (VStr (lit "1"))
  /\ env_var "DASHBOARD_URL" request = Some (VStr (lit "https://dash.example.com")).
Proof.
  destruct (live_run_reaches_agents Fixture.accepting_fetch (Ok Fixture.build_context)
              Fixture.live_settings Sample.two_tests initial_world
              (snd (openLiveRun Fixture.accepting_fetch (Ok Fixture.build_context)
                      Fixture.live_settings Sample.two_tests initial_world))
              (VStr (lit "run-17")))
    with (config := Fixture.first_test) (i := 1)
    as (Hlast & _ & Hindex & _ & Hurl & _);
    [vm_compute; reflexivity | reflexivity |].
  split; [exact Hlast|]. split; [exact Hindex | exact Hurl].
Defined.

(** X12: without a truthy run id the arguments end with [--json] and the
    action sets none of the four variables of live tracking, whatever the
    dashboard inputs are: the agent finds each of them as the environment
    of the action has it, a [DASHBOARD_URL] of the workflow included. *)
Theorem no_live_run_sets_no_variable :
  forall (config : TestConfig) (provider apiKey : jsstring) (headless : bool)
         (live : value) (i : nat) (dashboardUrl dashboardApiKey : option jsstring)
         (process_env : list (string * jsstring)),
    truthy live = false ->
    let request := agentRequest config provider apiKey headless live i
                     dashboardUrl dashboardApiKey in
    args request
    = [VStr (lit "run"); VStr (lit "start:agent-cli"); VStr (lit "--");
       url config; goal config; VStr provider; VStr (lit "--json")]
    /\ (forall name,
          In name ["DASHBOARD_URL"; "DASHBOARD_API_KEY"; "TEST_RUN_ID";
                   "TEST_INDEX"]%string ->
          agent_env process_env request name = parent_var name process_env).
Proof.
  intros config provider apiKey headless live i du dk process_env Hlive.
  unfold agent_env, agentRequest, env_var. rewrite Hlive. simpl.
  split; [reflexivity|].
  intros name [<-|[<-|[<-|[<-|[]]]]];
    destruct (JsString.eqb provider (lit "openai")); reflexivity.
Qed.

Lemma no_live_run_sets_no_variable_witness :
  let request := agentRequest Fixture.first_test (lit "openai") (lit "sk-test") true
                   (VStr []) 0 (Some (lit "https://dash.example.com/"))
                   (Some (lit "dk-1")) in
  agent_env Fixture.workflow_env request "DASHBOARD_URL"
  = Some (VStr (lit "https://other.example.com"))
  /\ agent_env Fixture.workflow_env request "TEST_RUN_ID" = None.
Proof.
  pose proof (proj2
    (no_live_run_sets_no_variable Fixture.first_test (lit "openai") (lit "sk-test")
       true (VStr []) 0 (Some (lit "https://dash.example.com/")) (Some (lit "dk-1"))
       Fixture.workflow_env eq_refl)) as H.
  split; [apply (H "DASHBOARD_URL"%string) | apply (H "TEST_RUN_ID"%string)];
    simpl; auto.
Defined.

(* ===================================================================== *)
(** * The executor: what a result is made of *)
(* ===================================================================== *)

(** X13: the url and the goal of a result are the test case's and its
    duration is the clock's, whatever the payload of the agent says; and
    the executor sets no output and leaves the process status alone. *)
Theorem result_keeps_test_case :
  forall JSON_parse agent (config : TestConfig) (provider apiKey : jsstring)
         (headless : bool) (liveTestRunId : value) (testIndex : nat)
         (dashboardUrl dashboardApiKey : option jsstring) (w : world),
  exists r w',
    runSingleTest JSON_parse agent config provider apiKey headless liveTestRunId
                  testIndex dashboardUrl dashboardApiKey w = (Ok r, w')
    /\ result_url r = url config /\ result_goal r = goal config
    /\ duration r
       = elapsed (agent testIndex
                    (agentRequest config provider apiKey headless liveTestRunId
                                  testIndex dashboardUrl dashboardApiKey))
    /\ outputs w' = outputs w /\ failed w' = failed w.
Proof.
  intros JSON_parse agent config provider apiKey headless live i du dk w.
  destruct (runSingleTest_returns JSON_parse agent config provider apiKey headless
              live i du dk w) as (w1 & Hret & Ho & Hf).
  eexists. exists w1. split; [exact Hret|].
  set (proc := agent i _).
  destruct (singleResult_config JSON_parse config proc) as [Hu Hg].
  repeat split; try assumption.
  unfold singleResult, parseOutput.
  destruct (extractJson (stdout proc)) as [jsonStr|]; [|reflexivity].
  destruct (JSON_parse jsonStr) as [parsed|e]; simpl; [|reflexivity].
  unfold parsedResult.
  destruct (get parsed "success"); simpl; [|reflexivity].
  destruct (get parsed "reason"); simpl; [|reflexivity].
  destruct (get parsed "error"); simpl; [|reflexivity].
  destruct (get parsed "steps"); simpl; [|reflexivity].
  destruct (get parsed "violations"); simpl; reflexivity.
Qed.

Lemma js_or_normal (v d : value) :
  truthy (js_or v d) = true \/ js_or v d = d.
Proof. unfold js_or. destruct (truthy v) eqn:E; auto. Qed.

Lemma singleResult_normal JSON_parse (config : TestConfig) (proc : proc_outcome) :
  let r := singleResult JSON_parse config proc in
  (truthy (success r) = true \/ success r = VBool false)
  /\ (truthy (reason r) = true \/ reason r = VNull)
  /\ (truthy (error r) = true \/ error r = VNull)
  /\ truthy (steps r) = true
  /\ truthy (violations r) = true.
Proof.
  unfold singleResult, parseOutput.
  assert (Herr : let r := errorResult config (stderr proc) (elapsed proc) in
                 (truthy (success r) = true \/ success r = VBool false)
                 /\ (truthy (reason r) = true \/ reason r = VNull)
                 /\ (truthy (error r) = true \/ error r = VNull)
                 /\ truthy (steps r) = true /\ truthy (violations r) = true).
  { rewrite errorResult_shape. simpl. repeat split; auto.
    left. now destruct (stderr proc). }
  destruct (extractJson (stdout proc)) as [jsonStr|]; [|exact Herr].
  destruct (JSON_parse jsonStr) as [parsed|e]; simpl; [|exact Herr].
  unfold parsedResult.
  destruct (get parsed "success") as [a|]; simpl; [|exact Herr].
  destruct (get parsed "reason") as [b|]; simpl; [|exact Herr].
  destruct (get parsed "error") as [c|]; simpl; [|exact Herr].
  destruct (get parsed "steps") as [d|]; simpl; [|exact Herr].
  destruct (get parsed "violations") as [e|]; simpl; [|exact Herr].
  repeat split; try apply js_or_normal.
  - destruct (js_or_normal d (VArr [])) as [H| ->]; auto.
  - destruct (js_or_normal e (VArr [])) as [H| ->]; auto.
Qed.

(** X14: every result the executor returns is in normal form, on the
    parsed path and on the fallback path alike: [success] is truthy or
    [false], [reason] and [error] are truthy or [null], and [steps] and
    [violations] are never falsy. *)
Theorem result_normal_form :
  forall JSON_parse agent (config : TestConfig) (provider apiKey : jsstring)
         (headless : bool) (liveTestRunId : value) (testIndex : nat)
         (dashboardUrl dashboardApiKey : option jsstring) (w : world),
  exists r w',
    runSingleTest JSON_parse agent config provider apiKey headless liveTestRunId
                  testIndex dashboardUrl dashboardApiKey w = (Ok r, w')
    /\ (truthy (success r) = true \/ success r = VBool false)
    /\ (truthy (reason r) = true \/ reason r = VNull)
    /\ (truthy (error r) = true \/ error r = VNull)
    /\ truthy (steps r) = true
    /\ truthy (violations r) = true.
Proof.
  intros JSON_parse agent config provider apiKey headless live i du dk w.
  destruct (runSingleTest_returns JSON_parse agent config provider apiKey headless
              live i du dk w) as (w1 & Hret & _).
  eexists. exists w1. split; [exact Hret|]. apply singleResult_normal.
Qed.

(* ===================================================================== *)
(** * The extractor: what it returns *)
(* ===================================================================== *)

Section ExtractorShape.

Local Open Scope Z_scope.

(** Where the scan stops: after the first closing brace that brings the
    count to zero; what lies behind that brace plays no part. *)
Lemma scanBraces_found (s : jsstring) :
  forall (i d : Z),
    scanBraces s i d <> -1 -> 0 <= i ->
    exists k : nat,
      scanBraces s i d = i + Z.of_nat k
      /\ (0 < k <= List.length s)%nat
      /\ d + depth (firstn k s) = 0
      /\ nth_error s (k - 1) = Some c_rbrace
      /\ (forall j, (0 < j < k)%nat -> nth_error s (j - 1) = Some c_rbrace ->
                    d + depth (firstn j s) <> 0)
      /\ (forall t, scanBraces (firstn k s ++ t) i d = i + Z.of_nat k).
Proof.
  induction s as [|c s IH]; intros i d Hfound Hi; [now simpl in Hfound|].
  cbn [scanBraces] in *.
  assert (Hstep : forall d', scanBraces s (i + 1) d' <> -1 ->
            (d' = d + (if N.eqb c c_lbrace then 1
                       else if N.eqb c c_rbrace then -1 else 0)) ->
            (N.eqb c c_rbrace = true -> d' <> 0) ->
            (forall t, scanBraces (c :: t) i d = scanBraces t (i + 1) d') ->
            exists k : nat,
              scanBraces s (i + 1) d' = i + Z.of_nat k
              /\ (0 < k <= List.length (c :: s))%nat
              /\ d + depth (firstn k (c :: s)) = 0
              /\ nth_error (c :: s) (k - 1) = Some c_rbrace
              /\ (forall j, (0 < j < k)%nat ->
                            nth_error (c :: s) (j - 1) = Some c_rbrace ->
                            d + depth (firstn j (c :: s)) <> 0)
              /\ (forall t, scanBraces (firstn k (c :: s) ++ t) i d = i + Z.of_nat k)).
  { intros d' Hf Hd' Hnz Hunfold.
    destruct (IH (i + 1) d' Hf) as (k & Hk & Hlen & Hdep & Hlast & Hmin & Hstab); [lia|].
    exists (S k). split; [|split; [|split; [|split; [|split]]]].
    - rewrite Hk. lia.
    - simpl. lia.
    - cbn [firstn depth]. lia.
    - replace (S k - 1)%nat with (S (k - 1)) by lia. exact Hlast.
    - intros j Hj Hbrace. destruct j as [|[|j]]; [lia| |].
      + simpl in Hbrace. injection Hbrace as ->.
        cbn [firstn depth]. specialize (Hnz (N.eqb_refl _)).
        change (N.eqb c_rbrace c_lbrace) with false in *.
        change (N.eqb c_rbrace c_rbrace) with true in *.
        cbv iota in *. lia.
      + assert (E1 : (S (S j) - 1 = S j)%nat) by lia.
        rewrite E1 in Hbrace. cbn [nth_error] in Hbrace.
        specialize (Hmin (S j)).
        assert (E2 : (S j - 1 = j)%nat) by lia. rewrite E2 in Hmin.
        change (firstn (S (S j)) (c :: s)) with (c :: firstn (S j) s).
        cbn [depth].
        assert (d' + depth (firstn (S j) s) <> 0) by (apply Hmin; [lia | assumption]).
        lia.
    - intros t. cbn [firstn app]. rewrite Hunfold, Hstab. lia. }
  destruct (N.eqb c c_lbrace) eqn:Hl.
  - apply Hstep; auto.
    + intros Hr. apply N.eqb_eq in Hl, Hr. subst. discriminate.
    + intros t. cbn [scanBraces]. now rewrite Hl.
  - destruct (N.eqb c c_rbrace) eqn:Hr.
    + destruct (Z.eqb_spec (d - 1) 0) as [Hz|Hnz].
      * exists 1%nat. apply N.eqb_eq in Hr. subst c.
        split; [|split; [|split; [|split; [|split]]]].
        -- lia.
        -- simpl. lia.
        -- simpl. lia.
        -- reflexivity.
        -- intros j Hj. lia.
        -- intros t. cbn [firstn app scanBraces]. rewrite Hl, N.eqb_refl.
           destruct (Z.eqb_spec (d - 1) 0); [lia | contradiction].
      * apply Hstep; auto.
        intros t. cbn [scanBraces]. rewrite Hl, Hr.
        destruct (Z.eqb_spec (d - 1) 0); [contradiction | reflexivity].
    + apply Hstep; auto; [lia | discriminate|].
      intros t. cbn [scanBraces]. now rewrite Hl, Hr.
Qed.

Lemma startsWith_app_true (s t p : jsstring) :
  startsWith s p = true -> startsWith (s ++ t) p = true.
Proof.
  revert s. induction p as [|c p IH]; intros s; simpl; [trivial|].
  destruct s as [|x s]; [discriminate|]. simpl.
  intros H. apply andb_prop in H. destruct H as [-> H]. now rewrite IH.
Qed.

(** Where [indexOf] points: at the first occurrence. *)
Lemma indexOf_from_found (needle s : jsstring) :
  forall i, indexOf_from needle s i <> -1 -> 0 <= i ->
    exists k : nat,
      indexOf_from needle s i = i + Z.of_nat k
      /\ (k <= List.length s)%nat
      /\ startsWith (skipn k s) needle = true
      /\ (forall j, (j < k)%nat -> startsWith (skipn j s) needle = false).
Proof.
  induction s as [|c s IH]; intros i Hf Hi.
  - simpl in *. destruct (startsWith [] needle) eqn:E; [|contradiction].
    exists 0%nat. simpl. repeat split; try lia; trivial.
  - cbn [indexOf_from] in *.
    destruct (startsWith (c :: s) needle) eqn:E.
    + exists 0%nat. simpl. repeat split; try lia; trivial.
    + destruct (IH (i + 1) Hf) as (k & Hk & Hlen & Hat & Hbefore); [lia|].
      exists (S k). split; [|split; [|split]].
      * rewrite Hk. lia.
      * simpl. lia.
      * exact Hat.
      * intros [|j] Hj; [exact E|]. simpl. apply Hbefore. lia.
Qed.

Lemma indexOf_from_none (needle s : jsstring) :
  forall i, (forall j, (j <= List.length s)%nat -> startsWith (skipn j s) needle = false) ->
            indexOf_from needle s i = -1.
Proof.
  induction s as [|c s IH]; intros i H.
  - pose proof (H 0%nat ltac:(simpl; lia)) as H0. cbn [skipn] in H0.
    cbn [indexOf_from]. now rewrite H0.
  - pose proof (H 0%nat ltac:(simpl; lia)) as H0. cbn [skipn] in H0.
    cbn [indexOf_from]. rewrite H0.
    apply IH. intros j Hj. apply (H (S j)). simpl. lia.
Qed.

(** A text that starts with the anchor and is cut after one of its
    closing braces still starts with the anchor. *)
Lemma anchor_survives_cut (s : jsstring) (k : nat) :
  startsWith s anchor = true ->
  nth_error s (k - 1) = Some c_rbrace -> (0 < k)%nat ->
  startsWith (firstn k s) anchor = true.
Proof.
  intros Hat Hlast Hk.
  destruct (startsWith_split _ _ Hat) as (tail & ->).
  assert (6 <= k)%nat.
  { destruct (Nat.le_gt_cases 6 k) as [|Hlt]; [assumption|]. exfalso.
    destruct k as [|[|[|[|[|[|k]]]]]]; try lia; simpl in Hlast; discriminate. }
  rewrite firstn_app. change (List.length anchor) with 6%nat.
  rewrite firstn_all2 by (simpl; lia). apply startsWith_app.
Qed.

(** The two cuts behind a successful extraction: [p], where the anchor
    first stands, and [k], where the scan stops. *)
Lemma extractJson_inv (stdout j : jsstring) :
  extractJson stdout = Some j ->
  exists p k : nat,
    (p <= List.length stdout)%nat
    /\ startsWith (skipn p stdout) anchor = true
    /\ (forall q, (q < p)%nat -> startsWith (skipn q stdout) anchor = false)
    /\ j = firstn k (skipn p stdout)
    /\ (0 < k <= List.length (skipn p stdout))%nat
    /\ depth j = 0
    /\ nth_error (skipn p stdout) (k - 1) = Some c_rbrace
    /\ (forall q, (0 < q < k)%nat ->
                  nth_error (skipn p stdout) (q - 1) = Some c_rbrace ->
                  depth (firstn q (skipn p stdout)) <> 0)
    /\ (forall t, scanBraces (j ++ t) 0 0 = Z.of_nat k).
Proof.
  unfold extractJson, indexOf, substring_from, substring_to.
  destruct (Z.geb_spec (indexOf_from anchor stdout 0) 0) as [Hge|]; [|discriminate].
  destruct (indexOf_from_found anchor stdout 0) as (p & Hp & Hplen & Hat & Hfirst);
    [lia | lia|].
  rewrite Hp. simpl Z.add. rewrite Nat2Z.id.
  destruct (Z.gtb_spec (scanBraces (skipn p stdout) 0 0) 0) as [Hgt|]; [|discriminate].
  destruct (scanBraces_found (skipn p stdout) 0 0)
    as (k & Hk & Hklen & Hdep & Hlast & Hmin & Hstab); [lia | lia|].
  rewrite Hk. simpl Z.add. rewrite Nat2Z.id. intros [= <-].
  exists p, k. repeat split; try assumption; try lia.
Qed.

(** X15: what the extractor hands to [JSON.parse] is a piece of stdout
    that stands behind text without the anchor, starts with the anchor,
    ends in a closing brace and has as many opening as closing braces,
    while no shorter start of it that ends in a closing brace has. *)
Theorem extractJson_sound :
  forall (stdout j : jsstring),
    extractJson stdout = Some j ->
    exists pre post,
      stdout = pre ++ j ++ post
      /\ indexOf pre anchor = -1
      /\ startsWith j anchor = true
      /\ depth j = 0
      /\ nth_error j (List.length j - 1) = Some c_rbrace
      /\ (forall k, (0 < k < List.length j)%nat ->
                    nth_error j (k - 1) = Some c_rbrace ->
                    depth (firstn k j) <> 0).
Proof.
  intros stdout j Hext.
  destruct (extractJson_inv stdout j Hext)
    as (p & k & Hplen & Hat & Hfirst & -> & Hklen & Hdep & Hlast & Hmin & _).
  set (jsonStr := skipn p stdout) in *.
  assert (Hjlen : List.length (firstn k jsonStr) = k) by (apply firstn_length_le; lia).
  exists (firstn p stdout), (skipn k jsonStr). repeat split.
  - unfold jsonStr. now rewrite firstn_skipn, firstn_skipn.
  - apply indexOf_from_none. intros q Hq.
    rewrite firstn_length_le in Hq by lia.
    destruct (Nat.eq_dec q p) as [->|Hne].
    + rewrite skipn_all2 by (rewrite firstn_length_le; lia). reflexivity.
    + destruct (startsWith (skipn q (firstn p stdout)) anchor) eqn:E; [|reflexivity].
      rewrite <- (Hfirst q) by lia.
      rewrite <- (firstn_skipn p stdout) at 1.
      rewrite skipn_app.
      replace (q - List.length (firstn p stdout))%nat with 0%nat
        by (rewrite firstn_length_le; lia).
      simpl skipn. symmetry. now apply startsWith_app_true.
  - apply anchor_survives_cut; [assumption | assumption | lia].
  - exact Hdep.
  - rewrite Hjlen, nth_error_firstn.
    destruct (Nat.ltb_spec (k - 1) k); [exact Hlast | lia].
  - intros q Hq Hbrace. rewrite Hjlen in Hq.
    rewrite nth_error_firstn in Hbrace.
    destruct (Nat.ltb_spec (q - 1) k); [|discriminate].
    rewrite firstn_firstn. replace (Nat.min q k) with q by lia.
    apply Hmin; [lia | assumption].
Qed.

Lemma extractJson_sound_witness :
  exists pre post,
    Sample.loose_stdout
    = pre ++ quoted "{'url':'http://localhost:3000','success':'yes','reason':'','error':'','steps':[]}"
          ++ post
    /\ indexOf pre anchor = (-1)%Z.
Proof.
  destruct (extractJson_sound Sample.loose_stdout
              (quoted "{'url':'http://localhost:3000','success':'yes','reason':'','error':'','steps':[]}"))
    as (pre & post & Hcut & Hpre & _); [vm_compute; reflexivity|].
  exists pre, post. split; [exact Hcut | exact Hpre].
Defined.

(** X16: what was extracted from one output is extracted from every
    output that holds it behind text without the anchor, whatever
    follows it: the text after the payload plays no part. *)
Theorem extractJson_stable :
  forall (stdout j pre post : jsstring),
    extractJson stdout = Some j ->
    indexOf pre anchor = -1 ->
    extractJson (pre ++ j ++ post) = Some j.
Proof.
  intros stdout j pre post Hext Hpre.
  destruct (extractJson_inv stdout j Hext)
    as (p & k & _ & Hat & _ & Hj & Hklen & _ & Hlast & _ & Hstab).
  assert (Hanchor : startsWith j anchor = true)
    by (rewrite Hj; apply anchor_survives_cut; [assumption | assumption | lia]).
  assert (Hjlen : List.length j = k) by (rewrite Hj; apply firstn_length_le; lia).
  destruct (startsWith_split _ _ Hanchor) as (tail & Htail).
  unfold extractJson, indexOf.
  assert (Hidx : indexOf_from anchor (pre ++ j ++ post) 0
                 = Z.of_nat (List.length pre)).
  { rewrite Htail, <- app_assoc. now rewrite indexOf_after_noise. }
  rewrite Hidx.
  destruct (Z.geb_spec (Z.of_nat (List.length pre)) 0) as [_|]; [|lia].
  unfold substring_from, substring_to.
  rewrite Nat2Z.id, skipn_length_app, (Hstab post).
  destruct (Z.gtb_spec (Z.of_nat k) 0) as [_|]; [|lia].
  rewrite Nat2Z.id. rewrite <- Hjlen. now rewrite firstn_length_app.
Qed.

Lemma extractJson_stable_witness :
  extractJson (lit "npm WARN deprecated
" ++ quoted "{'url':'http://localhost:3000','success':'yes','reason':'','error':'','steps':[]}"
       ++ lit "}} {")
  = Some (quoted "{'url':'http://localhost:3000','success':'yes','reason':'','error':'','steps':[]}").
Proof.
  apply (extractJson_stable Sample.loose_stdout); vm_compute; reflexivity.
Defined.

End ExtractorShape.

(* ===================================================================== *)
(** * [run]: errors, and what the loop does with a broken entry *)
(* ===================================================================== *)

Lemma verdicts_app (a b : list log_entry) :
  verdicts (a ++ b) = verdicts a ++ verdicts b.
Proof.
  induction a as [|e a IH]; simpl; [reflexivity|].
  destruct (verdict e); simpl; now rewrite IH.
Qed.

Ltac verdicts_done :=
  simpl; rewrite ?verdicts_app; simpl; rewrite ?app_nil_r; try reflexivity.

(** The executor gives no verdict of its own. *)
Lemma runSingleTest_world JSON_parse agent (config : TestConfig)
    (provider apiKey : jsstring) (headless : bool) (liveTestRunId : value)
    (testIndex : nat) (dashboardUrl dashboardApiKey : option jsstring) (w : world) :
  exists w',
    runSingleTest JSON_parse agent config provider apiKey headless liveTestRunId
                  testIndex dashboardUrl dashboardApiKey w
    = (Ok (singleResult JSON_parse config
             (agent testIndex
                (agentRequest config provider apiKey headless liveTestRunId
                              testIndex dashboardUrl dashboardApiKey))), w')
    /\ outputs w' = outputs w /\ failed w' = failed w
    /\ verdicts (logs w') = verdicts (logs w).
Proof.
  unfold runSingleTest, singleResult, bind, try_catch, lift, ret, debug, log.
  set (proc := agent testIndex _).
  destruct (parseOutput JSON_parse config (stdout proc) (elapsed proc))
    as [[r|]|e]; simpl; eexists; (split; [reflexivity|]); simpl;
    repeat split; verdicts_done.
Qed.

Section LoopSteps.

Variable JSON_parse : jsstring -> outcome value.
Variable agent : nat -> exec_request -> proc_outcome.
Variable cfg : settings.
Variable liveTestRunId : value.

Let every := allResults JSON_parse agent cfg liveTestRunId.

(** As long as the loop is not cut short, running it over [a ++ b] is
    running it over [a], which logs one verdict for each entry, and then
    over [b]. *)
Lemma testLoop_app (total : nat) (a : list value) :
  forall (ca : list TestConfig) (b : list value) (i : nat)
         (acc : list TestResult) (hasFailure : bool) (w : world),
    omap as_config a = Ok ca ->
    not_stopped cfg (every i ca) ->
    exists w',
      testLoop JSON_parse agent cfg liveTestRunId total (a ++ b) i acc hasFailure w
      = testLoop JSON_parse agent cfg liveTestRunId total b (i + List.length a)
                 (acc ++ every i ca) (hasFailure || anyFailed (every i ca)) w'
      /\ outputs w' = outputs w /\ failed w' = failed w
      /\ verdicts (logs w') = verdicts (logs w) ++ List.map passed (every i ca).
Proof.
  induction a as [|test a IH]; intros ca b i acc hasFailure w Hcfg Hgo.
  - injection Hcfg as <-. exists w. simpl.
    now rewrite Nat.add_0_r, !app_nil_r, orb_false_r.
  - apply omap_cons_inv in Hcfg. destruct Hcfg as (c & cs & Hc & Hcs & ->).
    apply as_config_inv in Hc. destruct Hc as [Hurl Hgoal].
    cbn [app]. simpl testLoop. run_monad. rewrite Hurl. simpl. rewrite Hgoal. simpl.
    destruct c as [u g]; simpl in *.
    match goal with |- context [runSingleTest ?a1 ?a2 ?a3 ?a4 ?a5 ?a6 ?a7 ?a8 ?a9 ?a10 ?w0] =>
      destruct (runSingleTest_world a1 a2 a3 a4 a5 a6 a7 a8 a9 a10 w0)
        as (w1 & -> & Ho & Hf & Hv)
    end.
    simpl in Ho, Hf, Hv. rewrite !verdicts_app in Hv. simpl in Hv.
    rewrite !app_nil_r in Hv.
    fold (resultAt JSON_parse agent cfg liveTestRunId i (mkTestConfig u g)).
    set (r := resultAt JSON_parse agent cfg liveTestRunId i (mkTestConfig u g)) in *.
    unfold every in Hgo. simpl allResults in Hgo. fold r in Hgo. fold every in Hgo.
    unfold every. simpl allResults. fold r. fold every.
    assert (Hp : passed r = truthy (success r)) by reflexivity.
    assert (Htail : not_stopped cfg (every (S i) cs)).
    { destruct Hgo as [Hc|Hnone]; [now left|]. right.
      unfold anyFailed in *. simpl in Hnone. now apply orb_false_elim in Hnone. }
    replace (i + S (List.length a)) with (S i + List.length a) by lia.
    destruct (truthy (success r)) eqn:Hpass.
    + match goal with |- context [testLoop _ _ _ _ _ (a ++ b) (S i) ?acc' ?hf' ?w0] =>
        destruct (IH cs b (S i) acc' hf' w0 Hcs Htail) as (w' & -> & Ho' & Hf' & Hv')
      end.
      exists w'. simpl in Ho', Hf', Hv'. rewrite !verdicts_app in Hv'. simpl in Hv'.
      rewrite !app_nil_r in Hv'.
      split; [|split; [congruence|split; [congruence|]]].
      * unfold anyFailed. simpl. rewrite Hp. simpl.
        now rewrite <- app_assoc.
      * rewrite Hv', Hv, <- !app_assoc. simpl. now rewrite Hp.
    + assert (Hcont : continueOnFailure cfg = true).
      { destruct Hgo as [Hc|Hnone]; [assumption|].
        unfold anyFailed in Hnone. simpl in Hnone. rewrite Hp in Hnone. discriminate. }
      rewrite Hcont. simpl.
      match goal with |- context [testLoop _ _ _ _ _ (a ++ b) (S i) ?acc' ?hf' ?w0] =>
        destruct (IH cs b (S i) acc' hf' w0 Hcs Htail) as (w' & -> & Ho' & Hf' & Hv')
      end.
      exists w'. simpl in Ho', Hf', Hv'. rewrite !verdicts_app in Hv'. simpl in Hv'.
      rewrite !app_nil_r in Hv'.
      split; [|split; [congruence|split; [congruence|]]].
      * unfold anyFailed. simpl. rewrite Hp. simpl.
        now rewrite <- app_assoc, orb_true_r.
      * rewrite Hv', Hv, <- !app_assoc. simpl. now rewrite Hp.
Qed.

(** On a [null] entry the loop throws, before any agent is started for it. *)
Lemma testLoop_null (total : nat) (rest : list value) (i : nat)
    (acc : list TestResult) (hasFailure : bool) (w : world) :
  exists w',
    testLoop JSON_parse agent cfg liveTestRunId total (VNull :: rest) i acc
             hasFailure w = (Throw (cannot_read "null" "url"), w')
    /\ outputs w' = outputs w /\ failed w' = failed w
    /\ verdicts (logs w') = verdicts (logs w).
Proof.
  simpl testLoop. run_monad. eexists. split; [reflexivity|].
  simpl. repeat split. verdicts_done.
Qed.

End LoopSteps.

Lemma omap_throws_after {A B} (f : A -> outcome B) (xs : list A) (ys : list B)
    (x : A) (rest : list A) (e : js_error) :
  omap f xs = Ok ys -> f x = Throw e -> omap f (xs ++ x :: rest) = Throw e.
Proof.
  intros Hxs Hx. rewrite omap_app, Hxs. simpl. now rewrite Hx.
Qed.

(** What lines 287-304 let through is neither [undefined] nor [null]. *)
Lemma loadTests_defined JSON_parse (path content : jsstring) (tests : value) :
  loadTests JSON_parse path content = Ok tests ->
  tests <> VUndefined /\ tests <> VNull.
Proof.
  unfold loadTests.
  destruct (parseConfig JSON_parse path content) as [v|e]; simpl; [|discriminate].
  destruct (length_is_zero v) as [[|]|e] eqn:Hz; simpl; try discriminate.
  intros [= ->]. split; intros ->; discriminate.
Qed.

Section RunErrors.

Variable JSON_parse : jsstring -> outcome value.
Variable Number_toString : number -> jsstring.
Variable agent : nat -> exec_request -> proc_outcome.
Variable fetch : http_request -> outcome http_response.
Variable github_context : outcome gh_context.
Variable existsSync : jsstring -> bool.
Variable readFileSync : jsstring -> outcome jsstring.
Variable totalDuration : Z.

Lemma fatal_returns (e : js_error) (w : world) :
  fatal e w = (Ok tt, mkWorld (logs w) (outputs w) (Some (message_of e))).
Proof. now destruct e. Qed.

(** With an entry that cannot be read the start call is never made: the
    payload throws, and there is no live run. *)
Lemma openLiveRun_unreadable (cfg : settings) (tests : list value) (e : js_error)
    (w : world) :
  omap as_config tests = Throw e ->
  exists w',
    openLiveRun fetch github_context cfg tests w = (Ok VNull, w')
    /\ outputs w' = outputs w /\ failed w' = failed w
    /\ verdicts (logs w') = verdicts (logs w).
Proof.
  intros Hthrow. unfold openLiveRun.
  destruct (negb (is_empty (dashboardUrl cfg)) && negb (is_empty (dashboardApiKey cfg)));
    [|exists w; repeat split].
  unfold startLiveRun. run_monad.
  destruct github_context as [context|e0]; simpl;
    [rewrite Hthrow; simpl|];
    eexists; (split; [reflexivity|]); simpl; repeat split; verdicts_done.
Qed.

(** Where [tests] is no array there is no live run either. *)
Lemma openLiveRunOther_returns (cfg : settings) (w : world) :
  exists w',
    openLiveRunOther github_context cfg w = (Ok VNull, w')
    /\ outputs w' = outputs w /\ failed w' = failed w.
Proof.
  unfold openLiveRunOther.
  destruct (negb (is_empty (dashboardUrl cfg)) && negb (is_empty (dashboardApiKey cfg)));
    [|exists w; repeat split].
  unfold startLiveRunOther. run_monad.
  destruct github_context as [context|e0]; simpl;
    eexists; (split; [reflexivity|]); simpl; repeat split.
Qed.

(** Lines 306-420 where [tests] is no array: the run gets to its end when
    the entries can be read, without a dashboard URL. *)
Lemma runOther_returns (cfg : settings) (tests_length : value)
    (entries : list value) (configs : list TestConfig) (w : world) :
  omap as_config entries = Ok configs ->
  exists w',
    let results := appended cfg (allResults JSON_parse agent cfg VNull 0 configs) in
    runOther JSON_parse Number_toString agent fetch github_context totalDuration
             cfg tests_length entries w = (Ok tt, w')
    /\ outputs w' = outputs w ++ summary_outputs Number_toString results
    /\ failed w' = (if anyFailed results
                    then Some (failure_message
                                 (List.length results
                                  - List.length (filter passed results))
                                 (List.length results))
                    else failed w).
Proof.
  intros Hcfg. unfold runOther. run_monad.
  match goal with |- context [openLiveRunOther _ _ ?w0] =>
    destruct (openLiveRunOther_returns cfg w0) as (w1 & -> & Ho1 & Hf1)
  end.
  destruct (testLoop_returns JSON_parse agent cfg VNull (List.length entries) entries
              configs 0 [] false w1 Hcfg) as (w2 & -> & Ho2 & Hf2).
  simpl.
  set (results := appended cfg (allResults JSON_parse agent cfg VNull 0 configs)).
  unfold closeLiveRun. simpl. unfold ret.
  destruct (report_returns Number_toString totalDuration results (anyFailed results)
              VNull w2) as (w3 & -> & Ho3 & Hf3).
  exists w3. split; [reflexivity|]. simpl in Ho1, Ho2, Hf1, Hf2.
  change (truthy VNull) with false in Ho3. cbv iota in Ho3.
  rewrite app_nil_r in Ho3. split.
  - rewrite Ho3, Ho2, Ho1. reflexivity.
  - rewrite Hf3, Hf2, Hf1. reflexivity.
Qed.

(** The code units of a string are entries the loop can read. *)
Lemma omap_code_units (s : jsstring) :
  omap as_config (List.map (fun c => VStr [c]) s)
  = Ok (List.map (fun _ => mkTestConfig VUndefined VUndefined) s).
Proof.
  induction s as [|c s IH]; [reflexivity|].
  cbn [List.map omap]. rewrite IH. reflexivity.
Qed.

(** X7: [run] never rejects, on any configuration short of an object with
    a member [length]. An error thrown before the loop or inside it fails
    the process with its message, and logs and outputs stay as they were
    at the throw. A JSON configuration that is a number, a boolean or an
    object, such as the array of tests wrapped in an object, runs no test
    and ends as a success that reports zero tests and the pass rate
    ["0.0"]. *)
Theorem run_never_throws :
  forall (inp : inputs) (w : world),
    (forall cfg fields,
       setup JSON_parse existsSync readFileSync inp = Ok (cfg, VObj fields) ->
       lookup (lit "length") fields = None) ->
    exists m w',
      run JSON_parse Number_toString agent fetch github_context existsSync
          readFileSync totalDuration inp = Some m
      /\ m w = (Ok tt, w')
      /\ (forall e, setup JSON_parse existsSync readFileSync inp = Throw e ->
            w' = mkWorld (logs w) (outputs w) (Some (message_of e)))
      /\ (forall cfg tests e w1,
            setup JSON_parse existsSync readFileSync inp = Ok (cfg, VArr tests) ->
            runTests JSON_parse Number_toString agent fetch github_context
                     totalDuration cfg tests w = (Throw e, w1) ->
            w' = mkWorld (logs w1) (outputs w1) (Some (message_of e)))
      /\ (forall cfg tests,
            setup JSON_parse existsSync readFileSync inp = Ok (cfg, tests) ->
            match tests with VNum _ | VBool _ | VObj _ => True | _ => False end ->
            outputs w'
            = outputs w
              ++ [("total-tests"%string, OutStr (lit "0"));
                  ("passed-tests"%string, OutStr (lit "0"));
                  ("failed-tests"%string, OutStr (lit "0"));
                  ("pass-rate"%string, OutStr (lit "0.0"));
                  ("results-json"%string, OutResultsJson [])]
            /\ failed w' = failed w).
Proof.
  intros inp w Hscope.
  assert (Hother : forall cfg tests tests_length entries configs,
            setup JSON_parse existsSync readFileSync inp = Ok (cfg, tests) ->
            entries_of tests = Some (tests_length, entries) ->
            omap as_config entries = Ok configs ->
            exists m w',
              run JSON_parse Number_toString agent fetch github_context existsSync
                  readFileSync totalDuration inp = Some m
              /\ m w = (Ok tt, w')
              /\ outputs w'
                 = outputs w
                   ++ summary_outputs Number_toString
                        (appended cfg (allResults JSON_parse agent cfg VNull 0 configs))
              /\ failed w'
                 = (let results :=
                      appended cfg (allResults JSON_parse agent cfg VNull 0 configs) in
                    if anyFailed results
                    then Some (failure_message
                                 (List.length results
                                  - List.length (filter passed results))
                                 (List.length results))
                    else failed w)).
  { intros cfg tests tests_length entries configs Hsetup Hentries Hcfg.
    destruct (runOther_returns cfg tests_length entries configs w Hcfg)
      as (w' & Hrun & Hout & Hfail).
    exists (try_catch (runOther JSON_parse Number_toString agent fetch github_context
                         totalDuration cfg tests_length entries) fatal), w'.
    split.
    - unfold run. rewrite Hsetup.
      destruct tests as [| |b|x|s|ts|fields]; try discriminate Hentries;
        now rewrite Hentries.
    - split; [unfold try_catch; now rewrite Hrun|]. split; assumption. }
  destruct (setup JSON_parse existsSync readFileSync inp) as [[cfg tests]|e]
    eqn:Hsetup.
  - destruct (setup_inv _ _ _ _ _ _ Hsetup) as (_ & _ & content & _ & Hload).
    apply loadTests_defined in Hload. destruct Hload as [Hu Hn].
    assert (Hempty : forall tests_length,
              entries_of tests = Some (tests_length, []) ->
              exists m w',
                run JSON_parse Number_toString agent fetch github_context existsSync
                    readFileSync totalDuration inp = Some m
                /\ m w = (Ok tt, w')
                /\ outputs w'
                   = outputs w
                     ++ [("total-tests"%string, OutStr (lit "0"));
                         ("passed-tests"%string, OutStr (lit "0"));
                         ("failed-tests"%string, OutStr (lit "0"));
                         ("pass-rate"%string, OutStr (lit "0.0"));
                         ("results-json"%string, OutResultsJson [])]
                /\ failed w' = failed w).
    { intros tests_length Hentries.
      destruct (Hother cfg tests tests_length [] [] eq_refl Hentries eq_refl)
        as (m & w' & Hrun & Hm & Hout & Hfail).
      exists m, w'. repeat split; try assumption.
      - rewrite Hout. unfold appended. simpl. now destruct (continueOnFailure cfg).
      - rewrite Hfail. unfold appended. simpl. now destruct (continueOnFailure cfg). }
    destruct tests as [| |b|x|s|tests|fields]; try congruence.
    + destruct (Hempty VUndefined) as (m & w' & Hrun & Hm & Hout & Hfail);
        [reflexivity|].
      exists m, w'. split; [exact Hrun|]. split; [exact Hm|].
      split; [discriminate|]. split; [discriminate|].
      intros cfg' tests' [= <- <-] _. now split.
    + destruct (Hempty VUndefined) as (m & w' & Hrun & Hm & Hout & Hfail);
        [reflexivity|].
      exists m, w'. split; [exact Hrun|]. split; [exact Hm|].
      split; [discriminate|]. split; [discriminate|].
      intros cfg' tests' [= <- <-] _. now split.
    + destruct (Hother cfg (VStr s) _ _ _ eq_refl eq_refl (omap_code_units s))
        as (m & w' & Hrun & Hm & _).
      exists m, w'. split; [exact Hrun|]. split; [exact Hm|].
      split; [discriminate|]. split; [discriminate|].
      intros cfg' tests' [= <- <-] [].
    + unfold run. rewrite Hsetup. unfold try_catch.
      destruct (runTests JSON_parse Number_toString agent fetch github_context
                  totalDuration cfg tests w) as [[[]|e] w1] eqn:Hbody.
      * eexists. exists w1. split; [reflexivity|]. simpl. rewrite Hbody.
        split; [reflexivity|]. split; [discriminate|]. split.
        -- intros cfg' tests' e w2 [= <- <-]. rewrite Hbody. discriminate.
        -- intros cfg' tests' [= <- <-] [].
      * eexists. exists (mkWorld (logs w1) (outputs w1) (Some (message_of e))).
        split; [reflexivity|]. simpl. rewrite Hbody.
        split; [apply fatal_returns|]. split; [discriminate|]. split.
        -- intros cfg' tests' e' w2 [= <- <-]. rewrite Hbody. now intros [= <- <-].
        -- intros cfg' tests' [= <- <-] [].
    + pose proof (Hscope cfg fields eq_refl) as Hlen.
      destruct (Hempty VUndefined) as (m & w' & Hrun & Hm & Hout & Hfail);
        [simpl; now rewrite Hlen|].
      exists m, w'. split; [exact Hrun|]. split; [exact Hm|].
      split; [discriminate|]. split; [discriminate|].
      intros cfg' tests' [= <- <-] _. now split.
  - exists (fatal e), (mkWorld (logs w) (outputs w) (Some (message_of e))).
    split; [unfold run; now rewrite Hsetup|].
    split; [apply fatal_returns|]. split; [now intros e' [= <-]|].
    split; discriminate.
Qed.

(** X8: a [null] entry in a JSON configuration. There is no live run, the
    start payload cannot be built. Unless the loop stops at an earlier
    failure, every test before the [null] is run and its verdict logged,
    none after it; then the run fails with the message of the TypeError
    of reading [url], and none of the outputs is set, the results of the
    tests that did run included. *)
Theorem run_on_null_entry :
  forall (inp : inputs) (cfg : settings) (good rest : list value)
         (configs : list TestConfig) (w : world),
    setup JSON_parse existsSync readFileSync inp
    = Ok (cfg, VArr (good ++ VNull :: rest)) ->
    omap as_config good = Ok configs ->
    not_stopped cfg (allResults JSON_parse agent cfg VNull 0 configs) ->
    exists m w',
      run JSON_parse Number_toString agent fetch github_context existsSync
          readFileSync totalDuration inp = Some m
      /\ m w = (Ok tt, w')
      /\ verdicts (logs w')
         = verdicts (logs w)
           ++ List.map passed (allResults JSON_parse agent cfg VNull 0 configs)
      /\ outputs w' = outputs w
      /\ failed w' = Some (lit "Cannot read properties of null (reading 'url')").
Proof.
  intros inp cfg good rest configs w Hsetup Hgood Hgo.
  assert (Hbody : exists w3,
             runTests JSON_parse Number_toString agent fetch github_context
                      totalDuration cfg (good ++ VNull :: rest) w
             = (Throw (cannot_read "null" "url"), w3)
             /\ outputs w3 = outputs w
             /\ verdicts (logs w3)
                = verdicts (logs w)
                  ++ List.map passed (allResults JSON_parse agent cfg VNull 0 configs)).
  { unfold runTests. run_monad.
    match goal with |- context [openLiveRun _ _ _ _ ?w0] =>
      destruct (openLiveRun_unreadable cfg (good ++ VNull :: rest)
                  (cannot_read "null" "url") w0
                  (omap_throws_after as_config good configs VNull rest _ Hgood eq_refl))
        as (w1 & -> & Ho1 & Hf1 & Hv1)
    end.
    destruct (testLoop_app JSON_parse agent cfg VNull
                (List.length (good ++ VNull :: rest)) good configs (VNull :: rest)
                0 [] false w1 Hgood Hgo) as (w2 & -> & Ho2 & Hf2 & Hv2).
    match goal with |- context [testLoop _ _ _ _ ?t (VNull :: rest) ?i ?acc ?hf w2] =>
      destruct (testLoop_null JSON_parse agent cfg VNull t rest i acc hf w2)
        as (w3 & -> & Ho3 & Hf3 & Hv3)
    end.
    exists w3. split; [reflexivity|]. simpl in Ho1, Hv1.
    rewrite !verdicts_app in Hv1. simpl in Hv1. rewrite !app_nil_r in Hv1.
    split; [congruence|]. rewrite Hv3, Hv2, Hv1. reflexivity. }
  destruct Hbody as (w3 & Hbody & Ho & Hv).
  unfold run. rewrite Hsetup.
  exists (try_catch (runTests JSON_parse Number_toString agent fetch github_context
                       totalDuration cfg (good ++ VNull :: rest)) fatal).
  exists (mkWorld (logs w3) (outputs w3) (Some (message_of (cannot_read "null" "url")))).
  split; [reflexivity|]. split; [|split; [exact Hv|split; [exact Ho | reflexivity]]].
  unfold try_catch. rewrite Hbody. apply fatal_returns.
Qed.

End RunErrors.

Lemma run_never_throws_witness :
  exists m w',
    run JsonRef.JSON_parse JsonRef.integer_toString Sample.passing_agent
        Sample.down_fetch Sample.context Sample.scenario_exists
        Fixture.wrapped_read 1000 (Sample.scenario_inputs []) = Some m
    /\ m initial_world = (Ok tt, w')
    /\ failed w' = None
    /\ outputs w'
       = [("total-tests"%string, OutStr (lit "0"));
          ("passed-tests"%string, OutStr (lit "0"));
          ("failed-tests"%string, OutStr (lit "0"));
          ("pass-rate"%string, OutStr (lit "0.0"));
          ("results-json"%string, OutResultsJson [])].
Proof.
  destruct (run_never_throws JsonRef.JSON_parse JsonRef.integer_toString
              Sample.passing_agent Sample.down_fetch Sample.context
              Sample.scenario_exists Fixture.wrapped_read 1000
              (Sample.scenario_inputs []) initial_world)
    as (m & w' & Hrun & Hm & _ & _ & Hempty).
  - intros cfg fields H. vm_compute in H. injection H as _ <-. reflexivity.
  - exists m, w'. split; [exact Hrun|]. split; [exact Hm|].
    destruct (Hempty Fixture.scenario_settings
                (VObj [(lit "tests", VArr [config_value Fixture.first_test])]))
      as [Hout Hfail]; [vm_compute; reflexivity | exact I|].
    split; [exact Hfail | exact Hout].
Defined.

Lemma run_on_null_entry_witness :
  exists m w',
    run JsonRef.JSON_parse JsonRef.integer_toString Sample.passing_agent
        Sample.down_fetch Sample.context Sample.scenario_exists Fixture.null_read
        1000 (Sample.scenario_inputs []) = Some m
    /\ m initial_world = (Ok tt, w')
    /\ verdicts (logs w') = [true]
    /\ outputs w' = []
    /\ failed w' = Some (lit "Cannot read properties of null (reading 'url')").
Proof.
  apply (run_on_null_entry JsonRef.JSON_parse JsonRef.integer_toString
           Sample.passing_agent Sample.down_fetch Sample.context
           Sample.scenario_exists Fixture.null_read 1000 (Sample.scenario_inputs [])
           Fixture.scenario_settings [config_value Fixture.first_test] []
           [Fixture.first_test] initial_world);
    [vm_compute; reflexivity | reflexivity | left; reflexivity].
Defined.

(* ===================================================================== *)
(** * [run]: from the loader to the report *)
(* ===================================================================== *)

Lemma loadTests_nonempty JSON_parse (path content : jsstring) (tests : list value) :
  loadTests JSON_parse path content = Ok (VArr tests) -> tests <> [].
Proof.
  unfold loadTests.
  destruct (parseConfig JSON_parse path content) as [v|e]; simpl; [|discriminate].
  destruct (length_is_zero v) as [[|]|e] eqn:Hz; simpl; try discriminate.
  intros [= ->]. simpl in Hz. injection Hz as Hz.
  intros ->. discriminate.
Qed.

Lemma upToFirstFailure_nonempty (rs : list TestResult) :
  rs <> [] -> upToFirstFailure rs <> [].
Proof. destruct rs as [|r rs]; [congruence|]. simpl. now destruct (passed r). Qed.

Lemma appended_nonempty cfg (rs : list TestResult) :
  rs <> [] -> appended cfg rs <> [].
Proof.
  unfold appended. destruct (continueOnFailure cfg);
    [trivial | apply upToFirstFailure_nonempty].
Qed.

Lemma as_config_config_value (t : TestConfig) : as_config (config_value t) = Ok t.
Proof. now destruct t. Qed.

Lemma omap_config_values (ts : list TestConfig) :
  omap as_config (List.map config_value ts) = Ok ts.
Proof.
  induction ts as [|t ts IH]; [reflexivity|].
  cbn [List.map omap]. rewrite as_config_config_value. simpl. now rewrite IH.
Qed.

Section Report.

Variable JSON_parse : jsstring -> outcome value.
Variable Number_toString : number -> jsstring.
Variable agent : nat -> exec_request -> proc_outcome.
Variable fetch : http_request -> outcome http_response.
Variable github_context : outcome gh_context.
Variable existsSync : jsstring -> bool.
Variable readFileSync : jsstring -> outcome jsstring.
Variable totalDuration : Z.

(** X6: a run that gets past the loader with entries it can read reports
    at least one result and at most one for each test; the totals it puts
    out are never those of an empty run. *)
Theorem run_reports_at_least_one_result :
  forall (inp : inputs) (cfg : settings) (tests : list value)
         (configs : list TestConfig) (w : world),
    setup JSON_parse existsSync readFileSync inp = Ok (cfg, VArr tests) ->
    omap as_config tests = Ok configs ->
    exists m w' results,
      run JSON_parse Number_toString agent fetch github_context existsSync
          readFileSync totalDuration inp = Some m
      /\ m w = (Ok tt, w')
      /\ In ("total-tests"%string, OutStr (nat_toString (List.length results)))
            (outputs w')
      /\ In ("results-json"%string, OutResultsJson results) (outputs w')
      /\ 0 < List.length results <= List.length tests.
Proof.
  intros inp cfg tests configs w Hsetup Hcfg.
  destruct (setup_inv _ _ _ _ _ _ Hsetup) as (_ & _ & content & _ & Hload).
  apply loadTests_nonempty in Hload.
  destruct (runTests_returns JSON_parse Number_toString agent fetch github_context
              totalDuration cfg tests configs w Hcfg)
    as (live & url & w' & Hrun & Hout & _).
  set (results := appended cfg (allResults JSON_parse agent cfg live 0 configs)) in *.
  exists (try_catch (runTests JSON_parse Number_toString agent fetch github_context
                       totalDuration cfg tests) fatal), w', results.
  split; [unfold run; now rewrite Hsetup|].
  split; [unfold try_catch; now rewrite Hrun|].
  rewrite Hout. unfold summary_outputs.
  split; [apply in_or_app; right; apply in_or_app; left; simpl; auto|].
  split; [apply in_or_app; right; apply in_or_app; left; simpl; auto 6|].
  assert (Hlen : List.length (allResults JSON_parse agent cfg live 0 configs)
                 = List.length tests)
    by (now rewrite allResults_length, (omap_length _ _ _ Hcfg)).
  split.
  - assert (Hne : results <> []).
    { apply appended_nonempty. intros E. rewrite E in Hlen.
      destruct tests; [congruence | discriminate]. }
    destruct results; [congruence | simpl; lia].
  - rewrite <- Hlen. apply appended_length.
Qed.

(** X5: a text configuration that loads always runs to the report: its
    entries are the objects made of its lines, none of which can make the
    loop throw, and [results-json] is set. *)
Theorem text_configuration_runs_to_report :
  forall (inp : inputs) (cfg : settings) (tests : value) (w : world),
    endsWith (in_test_config inp) (lit ".json") = false ->
    setup JSON_parse existsSync readFileSync inp = Ok (cfg, tests) ->
    exists content configs m w',
      readFileSync (in_test_config inp) = Ok content
      /\ parseTextConfig content = Ok configs
      /\ tests = VArr (List.map config_value configs)
      /\ run JSON_parse Number_toString agent fetch github_context existsSync
             readFileSync totalDuration inp = Some m
      /\ m w = (Ok tt, w')
      /\ output_set "results-json" w' = true.
Proof.
  intros inp cfg tests w Htext Hsetup.
  destruct (setup_inv _ _ _ _ _ _ Hsetup) as (_ & _ & content & Hread & Hload).
  rewrite (loadTests_text _ _ _ Htext) in Hload. unfold loadTextTests in Hload.
  destruct (parseTextConfig content) as [configs|e] eqn:Hparse; simpl in Hload;
    [|discriminate].
  destruct (Nat.eqb (List.length configs) 0); [discriminate|].
  injection Hload as <-.
  destruct (runTests_returns JSON_parse Number_toString agent fetch github_context
              totalDuration cfg _ configs w (omap_config_values configs))
    as (live & url & w' & Hrun & Hout & _).
  exists content, configs,
         (try_catch (runTests JSON_parse Number_toString agent fetch github_context
                       totalDuration cfg (List.map config_value configs)) fatal), w'.
  repeat split; trivial.
  - unfold run. now rewrite Hsetup.
  - unfold try_catch. now rewrite Hrun.
  - unfold output_set. apply existsb_exists.
    eexists ("results-json"%string, OutResultsJson _).
    split; [|reflexivity]. rewrite Hout. unfold summary_outputs.
    apply in_or_app. right. apply in_or_app. left. simpl. auto 6.
Qed.

End Report.

Lemma run_reports_at_least_one_result_witness :
  exists m w' results,
    run JsonRef.JSON_parse JsonRef.integer_toString Sample.passing_agent
        Sample.down_fetch Sample.context Sample.scenario_exists
        Sample.scenario_read 1000 (Sample.scenario_inputs []) = Some m
    /\ m initial_world = (Ok tt, w')
    /\ In ("results-json"%string, OutResultsJson results) (outputs w')
    /\ 0 < List.length results <= 2.
Proof.
  destruct (run_reports_at_least_one_result JsonRef.JSON_parse
              JsonRef.integer_toString Sample.passing_agent Sample.down_fetch
              Sample.context Sample.scenario_exists Sample.scenario_read 1000
              (Sample.scenario_inputs []) Fixture.scenario_settings
              [config_value Fixture.first_test; config_value Fixture.second_test]
              [Fixture.first_test; Fixture.second_test] initial_world)
    as (m & w' & results & Hrun & Hm & _ & Hin & Hlen);
    [vm_compute; reflexivity | reflexivity |].
  exists m, w', results. repeat split; try assumption; apply Hlen.
Defined.

Lemma text_configuration_runs_to_report_witness :
  exists m w',
    run JsonRef.JSON_parse JsonRef.integer_toString Sample.passing_agent
        Sample.down_fetch Sample.context Fixture.always_there Fixture.text_read
        1000 Fixture.text_inputs = Some m
    /\ m initial_world = (Ok tt, w')
    /\ output_set "results-json" w' = true.
Proof.
  destruct (text_configuration_runs_to_report JsonRef.JSON_parse
              JsonRef.integer_toString Sample.passing_agent Sample.down_fetch
              Sample.context Fixture.always_there Fixture.text_read 1000
              Fixture.text_inputs Fixture.scenario_settings
              (VArr [config_value (mkTestConfig (VStr (lit "http://a"))
                                                (VStr (lit "open the menu")));
                     config_value (mkTestConfig (VStr (lit "http://b"))
                                                (VStr (lit "check the headings")))])
              initial_world)
    as (content & configs & m & w' & _ & _ & _ & Hrun & Hm & Hset);
    [reflexivity | vm_compute; reflexivity |].
  exists m, w'. repeat split; assumption.
Defined.

(* ===================================================================== *)
(** * The report: counts and the pass rate at its ends *)
(* ===================================================================== *)


Section PassRateEnds.

Local Open Scope Z_scope.

(** A Number divided by itself is 1. *)
Lemma Number_div_self (m : positive) (e : Z) :
  2 ^ 52 <= Z.pos m < 2 ^ 53 ->
  Number_div (S754_finite false m e) (S754_finite false m e)
  = S754_finite false 4503599627370496 (-52).
Proof.
  intros B. unfold Number_div, SFdiv, SFdiv_core_binary.
  assert (D : Zdigits2 (Z.pos m) = 53) by (apply Zdigits2_unique; simpl; lia).
  rewrite D.
  replace (53 + e - (53 + e)) with 0 by lia.
  change (fexp prec64 emax64 0) with (-53).
  replace (Z.min (-53) (e - e)) with (-53) by lia.
  replace (e - e - -53) with 53 by lia.
  rewrite Z.shiftl_mul_pow2 by lia.
  pose proof (Z_div_mod (Z.pos m * 2 ^ 53) (Z.pos m) ltac:(lia)) as H.
  destruct (Z.div_eucl (Z.pos m * 2 ^ 53) (Z.pos m)) as [q r].
  destruct H as [H Hr].
  assert (Hq : q = 2 ^ 53) by nia.
  assert (Hr0 : r = 0) by nia.
  subst q r.
  assert (Hloc : new_location (Z.pos m) 0 = loc_Exact)
    by (unfold new_location; destruct (Z.even (Z.pos m)); reflexivity).
  rewrite Hloc. vm_compute. reflexivity.
Qed.

Lemma filter_all {A} (f : A -> bool) (l : list A) :
  forallb f l = true -> filter f l = l.
Proof.
  induction l as [|x l IH]; simpl; [reflexivity|].
  intros H. apply andb_prop in H. destruct H as [-> H]. now rewrite IH.
Qed.

Lemma filter_none {A} (f : A -> bool) (l : list A) :
  forallb (fun x => negb (f x)) l = true -> filter f l = [].
Proof.
  induction l as [|x l IH]; simpl; [reflexivity|].
  intros H. apply andb_prop in H. destruct H as [Hx H].
  apply negb_true_iff in Hx. rewrite Hx. now apply IH.
Qed.

(** X18: the pass rate of a run in which every test passed is ["100.0"],
    and of a run in which none did ["0.0"], for any number of results
    below 2^53. *)
Theorem pass_rate_extremes :
  forall (Number_toString : number -> jsstring) (results : list TestResult),
    (0 < List.length results)%nat ->
    Z.of_nat (List.length results) < 2 ^ 53 ->
    (forallb passed results = true ->
       passRate Number_toString results = lit "100.0")
    /\ (forallb (fun r => negb (passed r)) results = true ->
          passRate Number_toString results = lit "0.0").
Proof.
  intros Number_toString results Hpos Hlt.
  rewrite passRate_passValue by assumption. unfold passValue.
  destruct (Number_of_nat_finite _ Hpos Hlt) as (m & e & Hn & B & _).
  split; intros H.
  - rewrite (filter_all _ _ H), Hn, (Number_div_self m e B).
    vm_compute. reflexivity.
  - rewrite (filter_none _ _ H), Hn. reflexivity.
Qed.

End PassRateEnds.

Lemma pass_rate_extremes_witness :
  passRate JsonRef.integer_toString
    [Sample.outcome_of true; Sample.outcome_of true; Sample.outcome_of true]
  = lit "100.0"
  /\ passRate JsonRef.integer_toString
       [Sample.outcome_of false; Sample.outcome_of false] = lit "0.0".
Proof.
  split.
  - apply (pass_rate_extremes JsonRef.integer_toString
             [Sample.outcome_of true; Sample.outcome_of true; Sample.outcome_of true]);
      [simpl; lia | vm_compute; reflexivity | reflexivity].
  - apply (pass_rate_extremes JsonRef.integer_toString
             [Sample.outcome_of false; Sample.outcome_of false]);
      [simpl; lia | vm_compute; reflexivity | reflexivity].
Defined.

(* ===================================================================== *)
(** * The dashboard when it answers *)
(* ===================================================================== *)

Lemma agentRequest_not_live (config : TestConfig) (provider apiKey : jsstring)
    (headless : bool) (live : value) (i : nat) (du dk : option jsstring) :
  truthy live = false ->
  agentRequest config provider apiKey headless live i du dk
  = agentRequest config provider apiKey headless VNull i None None.
Proof. intros H. unfold agentRequest. now rewrite H. Qed.

Lemma runSingleTest_not_live JSON_parse agent (config : TestConfig)
    (provider apiKey : jsstring) (headless : bool) (live : value) (i : nat)
    (du dk : option jsstring) :
  truthy live = false ->
  runSingleTest JSON_parse agent config provider apiKey headless live i du dk
  = runSingleTest JSON_parse agent config provider apiKey headless VNull i None None.
Proof.
  intros H. unfold runSingleTest. now rewrite (agentRequest_not_live _ _ _ _ _ _ du dk H).
Qed.

Lemma testLoop_not_live JSON_parse agent (cfg : settings) (live : value)
    (total : nat) (rest : list value) :
  truthy live = false ->
  forall (i : nat) (acc : list TestResult) (hasFailure : bool) (w : world),
    testLoop JSON_parse agent cfg live total rest i acc hasFailure w
    = testLoop JSON_parse agent (without_dashboard cfg) VNull total rest i acc
               hasFailure w.
Proof.
  intros Hlive. induction rest as [|test rest IH]; intros i acc hasFailure w;
    [reflexivity|].
  simpl testLoop. run_monad.
  destruct (get test "url") as [u|e]; simpl; [|reflexivity].
  destruct (get test "goal") as [g|e]; simpl; [|reflexivity].
  rewrite (runSingleTest_not_live JSON_parse agent _ _ _ _ live i
             (or_null (dashboardUrl cfg)) (or_null (dashboardApiKey cfg)) Hlive).
  change (or_null []) with (@None jsstring).
  match goal with |- context [runSingleTest ?a1 ?a2 ?a3 ?a4 ?a5 ?a6 ?a7 ?a8 ?a9 ?a10 ?w0] =>
    destruct (runSingleTest a1 a2 a3 a4 a5 a6 a7 a8 a9 a10 w0) as [[r|err] w1]
  end; [|reflexivity].
  destruct (truthy (success r)); [apply IH|].
  destruct (continueOnFailure cfg); simpl; [apply IH | reflexivity].
Qed.

Section Dashboard.

Variable JSON_parse : jsstring -> outcome value.
Variable Number_toString : number -> jsstring.
Variable agent : nat -> exec_request -> proc_outcome.
Variable fetch : http_request -> outcome http_response.
Variable github_context : outcome gh_context.
Variable totalDuration : Z.
Variable cfg : settings.

Lemma startLiveRun_hands_out (tests : list value) (configs : list TestConfig)
    (context : gh_context) (id : value) (w : world) :
  github_context = Ok context ->
  omap as_config tests = Ok configs ->
  hands_out fetch (startEndpoint (dashboardUrl cfg)) (dashboardApiKey cfg) id ->
  startLiveRun fetch github_context (dashboardUrl cfg) (dashboardApiKey cfg) tests w
  = (Ok id, w).
Proof.
  intros Hctx Hcfg Hstart. unfold startLiveRun. run_monad.
  rewrite Hctx, Hcfg. simpl.
  destruct (Hstart (StartBody context (List.length tests) configs))
    as (response & data & -> & Hok & Hjson & Hid).
  simpl. rewrite Hok, Hjson. simpl. now rewrite Hid.
Qed.

(** X19: a dashboard that accepts both calls. The run sets the
    [dashboard-url] output, after the five summary outputs, to the
    dashboard URL without its trailing slash, [/runs/] and the id it was
    handed at the start. *)
Theorem dashboard_url_output :
  forall (tests : list value) (configs : list TestConfig) (context : gh_context)
         (id : value) (w : world),
    github_context = Ok context ->
    omap as_config tests = Ok configs ->
    is_empty (dashboardUrl cfg) = false ->
    is_empty (dashboardApiKey cfg) = false ->
    hands_out fetch (startEndpoint (dashboardUrl cfg)) (dashboardApiKey cfg) id ->
    truthy id = true ->
    accepts fetch (completeEndpoint (dashboardUrl cfg)) (dashboardApiKey cfg) ->
    exists w',
      runTests JSON_parse Number_toString agent fetch github_context totalDuration
               cfg tests w = (Ok tt, w')
      /\ outputs w'
         = outputs w
           ++ summary_outputs Number_toString
                (appended cfg (allResults JSON_parse agent cfg id 0 configs))
           ++ [("dashboard-url"%string,
                OutStr (stripTrailingSlash (dashboardUrl cfg) ++ lit "/runs/"
                        ++ ToString Number_toString id))].
Proof.
  intros tests configs context id w Hctx Hcfg Hu Hk Hstart Hid Hcomplete.
  unfold runTests, openLiveRun. rewrite Hu, Hk. cbn [negb andb].
  run_monad.
  rewrite (startLiveRun_hands_out tests configs context id _ Hctx Hcfg Hstart).
  rewrite Hid. simpl.
  match goal with |- context [testLoop _ _ _ _ _ _ _ _ _ ?w0] =>
    destruct (testLoop_returns JSON_parse agent cfg id (List.length tests) tests
                configs 0 [] false w0 Hcfg) as (w2 & -> & Ho2 & Hf2)
  end.
  simpl in Ho2. simpl fst; simpl snd.
  set (results := appended cfg (allResults JSON_parse agent cfg id 0 configs)).
  unfold closeLiveRun, completeLiveRun. rewrite Hid, Hu, Hk. cbn [negb andb].
  run_monad.
  destruct (Hcomplete (CompleteBody id results totalDuration)) as (response & -> & Hok).
  simpl. rewrite Hok. simpl.
  match goal with |- context [report ?a ?b ?c ?d ?e ?w0] =>
    destruct (report_returns a b c d e w0) as (w3 & -> & Ho3 & _)
  end.
  assert (Ht : truthy (VStr (viewerUrl (dashboardUrl cfg)
                                      (ToString Number_toString id))) = true)
    by (unfold viewerUrl; simpl; now destruct (stripTrailingSlash (dashboardUrl cfg))).
  rewrite Ht in Ho3.
  exists w3. split; [reflexivity|]. rewrite Ho3, Ho2. reflexivity.
Qed.

(** X20: a dashboard that answers the start call with OK but hands out
    no usable id (none, [null], an empty string, zero) is ignored without
    a warning: the run is the run without a dashboard, step for step,
    logs included. *)
Theorem falsy_run_id_is_ignored :
  forall (tests : list value) (configs : list TestConfig) (context : gh_context)
         (id : value) (w : world),
    github_context = Ok context ->
    omap as_config tests = Ok configs ->
    hands_out fetch (startEndpoint (dashboardUrl cfg)) (dashboardApiKey cfg) id ->
    truthy id = false ->
    runTests JSON_parse Number_toString agent fetch github_context totalDuration
             cfg tests w
    = runTests JSON_parse Number_toString agent fetch github_context totalDuration
               (without_dashboard cfg) tests w.
Proof.
  intros tests configs context id w Hctx Hcfg Hstart Hid.
  unfold runTests. run_monad.
  match goal with |- context [openLiveRun _ _ cfg _ ?w0] =>
    assert (Hopen : exists live,
               openLiveRun fetch github_context cfg tests w0 = (Ok live, w0)
               /\ truthy live = false)
  end.
  { unfold openLiveRun.
    destruct (negb (is_empty (dashboardUrl cfg)) && negb (is_empty (dashboardApiKey cfg)));
      [|exists VNull; split; reflexivity].
    unfold bind at 1.
    rewrite (startLiveRun_hands_out tests configs context id _ Hctx Hcfg Hstart).
    rewrite Hid. exists id. split; [reflexivity | assumption]. }
  destruct Hopen as (live & -> & Hlive).
  rewrite (testLoop_not_live JSON_parse agent cfg live _ _ Hlive).
  unfold openLiveRun, closeLiveRun. rewrite Hlive. reflexivity.
Qed.

End Dashboard.

Lemma dashboard_url_output_witness :
  exists w',
    runTests JsonRef.JSON_parse JsonRef.integer_toString Sample.passing_agent
             Fixture.accepting_fetch (Ok Fixture.build_context) 1000
             Fixture.live_settings Sample.two_tests initial_world = (Ok tt, w')
    /\ last (outputs w') ("none"%string, OutStr [])
       = ("dashboard-url"%string, OutStr (lit "https://dash.example.com/runs/run-17")).
Proof.
  destruct (dashboard_url_output JsonRef.JSON_parse JsonRef.integer_toString
              Sample.passing_agent Fixture.accepting_fetch (Ok Fixture.build_context)
              1000 Fixture.live_settings Sample.two_tests
              [Sample.home; Sample.products] Fixture.build_context (VStr (lit "run-17"))
              initial_world)
    as (w' & Hrun & Hout); try reflexivity.
  - intros body. do 2 eexists. repeat split.
  - intros body. eexists. split; reflexivity.
  - exists w'. split; [exact Hrun|]. rewrite Hout. reflexivity.
Defined.

Lemma falsy_run_id_is_ignored_witness :
  runTests JsonRef.JSON_parse JsonRef.integer_toString Sample.passing_agent
           Fixture.blank_fetch (Ok Fixture.build_context) 1000
           Fixture.live_settings Sample.two_tests initial_world
  = runTests JsonRef.JSON_parse JsonRef.integer_toString Sample.passing_agent
             Fixture.blank_fetch (Ok Fixture.build_context) 1000
             (without_dashboard Fixture.live_settings) Sample.two_tests
             initial_world.
Proof.
  apply (falsy_run_id_is_ignored JsonRef.JSON_parse JsonRef.integer_toString
           Sample.passing_agent Fixture.blank_fetch (Ok Fixture.build_context) 1000
           Fixture.live_settings Sample.two_tests [Sample.home; Sample.products]
           Fixture.build_context VUndefined initial_world); try reflexivity.
  intros body. do 2 eexists. repeat split.
Defined.
